(** * The sysfs RGB indicator-led controller of mce-plugin-libhybris

    A shallow embedding of the led part of [hybris.c]: the request model
    ([led_request_t], sanitization, style classification), the channel
    scaling helper, the breathing ramp generator and the timer driven
    control flow ([led_ctrl_start] and its three GLib timer callbacks)
    together with the public entry points that feed it.

    C [int] values are integers in [Z]; the arithmetic that can leave the
    32 bit range is routed through [int_add], [int_sub], [int_mul] and
    [int_div], which reduce the result to the two's complement range (what
    the compiled code does; ISO C leaves signed overflow undefined).  The
    statements below that involve arithmetic say on which inputs no
    reduction takes place. *)

From Stdlib Require Import ZArith Lia Bool List.
From Stdlib Require String.
From stdpp Require Import base list.
Import ListNotations.

Local Open Scope Z_scope.

(* ================================================================== *)
(** ** C integer arithmetic *)

Definition INT_MIN : Z := -2147483648.
Definition INT_MAX : Z := 2147483647.

(** Reduction of a mathematical integer to a 32 bit two's complement [int]. *)
Definition int_wrap (x : Z) : Z := (x + 2147483648) mod 4294967296 - 2147483648.

Definition int_add (a b : Z) : Z := int_wrap (a + b).
Definition int_sub (a b : Z) : Z := int_wrap (a - b).
Definition int_mul (a b : Z) : Z := int_wrap (a * b).

(** C99 division truncates towards zero. Division by zero traps in C; the
    embedding returns [Z.quot]'s value there and no statement relies on it. *)
Definition int_div (a b : Z) : Z := int_wrap (Z.quot a b).

(** Conversion to [uint8_t]. *)
Definition uint8 (x : Z) : Z := x mod 256.

(* ================================================================== *)
(** ** generic led utils *)

(** [led_util_scale_value]: scale value from 0...255 to 0...max range. *)
Definition led_util_scale_value (in_ max : Z) : Z :=
  let out := int_div (int_add (int_mul in_ max) 128) 255 in
  if out <? 0 then 0 else if out <? max then out else max.

(* ================================================================== *)
(** ** Led requests *)

(** Questimate of the duration of the kernel delayed work, in ms. *)
Definition LED_CTRL_KERNEL_DELAY : Z := 10.
(** Minimum delay between breathing steps, in ms. *)
Definition LED_CTRL_BREATHING_DELAY : Z := 20.
(** Maximum number of breathing steps; rise and fall time combined. *)
Definition LED_CTRL_MAX_STEPS : Z := 256.
(** Minimum number of breathing steps on rise/fall time. *)
Definition LED_CTRL_MIN_STEPS : Z := 7.

(** [led_request_t]. The fields [r g b on off level breathe] of the C
    struct carry the prefix [req_]. *)
Record led_request_t : Type := mk_led_request {
  req_r : Z;
  req_g : Z;
  req_b : Z;
  req_on : Z;
  req_off : Z;
  req_level : Z;
  req_breathe : bool
}.

Definition req_set_timing (on off : Z) (breathe : bool) (self : led_request_t)
  : led_request_t :=
  {| req_r := req_r self; req_g := req_g self; req_b := req_b self;
     req_on := on; req_off := off;
     req_level := req_level self; req_breathe := breathe |}.

Definition req_set_breathe (breathe : bool) (self : led_request_t) : led_request_t :=
  {| req_r := req_r self; req_g := req_g self; req_b := req_b self;
     req_on := req_on self; req_off := req_off self;
     req_level := req_level self; req_breathe := breathe |}.

Definition req_set_level (level : Z) (self : led_request_t) : led_request_t :=
  {| req_r := req_r self; req_g := req_g self; req_b := req_b self;
     req_on := req_on self; req_off := req_off self;
     req_level := level; req_breathe := req_breathe self |}.

Definition req_set_color (r g b : Z) (self : led_request_t) : led_request_t :=
  {| req_r := r; req_g := g; req_b := b;
     req_on := req_on self; req_off := req_off self;
     req_level := req_level self; req_breathe := req_breathe self |}.

(** [led_request_has_equal_timing] *)
Definition led_request_has_equal_timing (self that : led_request_t) : bool :=
  (req_on self =? req_on that) && (req_off self =? req_off that).

(** [led_request_is_equal] *)
Definition led_request_is_equal (self that : led_request_t) : bool :=
  (req_r self =? req_r that) &&
  (req_g self =? req_g that) &&
  (req_b self =? req_b that) &&
  (req_on self =? req_on that) &&
  (req_off self =? req_off that) &&
  (req_level self =? req_level that) &&
  Bool.eqb (req_breathe self) (req_breathe that).

(** [led_request_has_color] *)
Definition led_request_has_color (self : led_request_t) : bool :=
  (0 <? req_r self) || (0 <? req_g self) || (0 <? req_b self).

(** [led_request_sanitize]; the C function updates [*self] in place, the
    embedding returns the updated request. *)
Definition led_request_sanitize (self : led_request_t) : led_request_t :=
  let min_period := LED_CTRL_BREATHING_DELAY * LED_CTRL_MIN_STEPS in
  if negb (led_request_has_color self) then
    req_set_timing 0 0 false self
  else if (req_on self <=? 0) || (req_off self <=? 0) then
    req_set_timing 0 0 false self
  else if (req_on self <? min_period) || (req_off self <? min_period) then
    req_set_breathe false self
  else self.

(** [led_style_t] *)
Inductive led_style_t : Type :=
| STYLE_OFF
| STYLE_STATIC
| STYLE_BLINK
| STYLE_BREATH.

(** [led_request_get_style] *)
Definition led_request_get_style (self : led_request_t) : led_style_t :=
  if negb (led_request_has_color self) then STYLE_OFF
  else if (req_on self <=? 0) || (req_off self <=? 0) then STYLE_STATIC
  else if req_breathe self then STYLE_BREATH
  else STYLE_BLINK.

Definition led_style_eqb (x y : led_style_t) : bool :=
  match x, y with
  | STYLE_OFF, STYLE_OFF | STYLE_STATIC, STYLE_STATIC
  | STYLE_BLINK, STYLE_BLINK | STYLE_BREATH, STYLE_BREATH => true
  | _, _ => false
  end.

(* ================================================================== *)
(** ** RGB led control: the sysfs backends *)

(** The two families of sysfs controls probed by [led_control_probe]. *)
Inductive led_backend : Type :=
| BACKEND_VANILLA       (* blink_delay_on, blink_delay_off, brightness *)
| BACKEND_HAMMERHEAD.   (* on_off_ms, rgb_start, brightness *)

(** [led_control_t]. [ctl_backend = None] is the state left by
    [led_control_init]: every callback pointer is null. For an open
    backend [ctl_maxval_*] are the [max_brightness] values read while
    probing the red, green and blue channel. *)
Record led_control_t : Type := mk_led_control {
  ctl_backend : option led_backend;
  ctl_maxval_r : Z;
  ctl_maxval_g : Z;
  ctl_maxval_b : Z
}.

(** What reaches the sysfs files, one entry per callback invocation (each
    callback writes the same attribute of the three channels). *)
Inductive sysfs_write : Type :=
| WR_ENABLE (enable : bool)
| WR_BLINK (on_ms off_ms : Z)
| WR_VALUE (r g b : Z).

(** [led_control_init] *)
Definition led_control_init : led_control_t :=
  {| ctl_backend := None; ctl_maxval_r := -1; ctl_maxval_g := -1; ctl_maxval_b := -1 |}.

(** [led_control_enable]: only the hammerhead backend has the callback. *)
Definition led_control_enable (self : led_control_t) (enable : bool)
  (log : list sysfs_write) : list sysfs_write :=
  match ctl_backend self with
  | Some BACKEND_HAMMERHEAD => log ++ [WR_ENABLE enable]
  | _ => log
  end.

(** [led_control_blink] *)
Definition led_control_blink (self : led_control_t) (on_ms off_ms : Z)
  (log : list sysfs_write) : list sysfs_write :=
  match ctl_backend self with
  | Some _ =>
      let log := led_control_enable self false log in
      log ++ [WR_BLINK on_ms off_ms]
  | None => log
  end.

(** [led_control_value]; the value callbacks scale each channel to its
    maximum with [led_util_scale_value]. *)
Definition led_control_value (self : led_control_t) (r g b : Z)
  (log : list sysfs_write) : list sysfs_write :=
  match ctl_backend self with
  | Some _ =>
      let log := led_control_enable self false log in
      let log := log ++ [WR_VALUE (led_util_scale_value r (ctl_maxval_r self))
                                  (led_util_scale_value g (ctl_maxval_g self))
                                  (led_util_scale_value b (ctl_maxval_b self))] in
      led_control_enable self true log
  | None => log
  end.

(* ================================================================== *)
(** ** Intensity curve for sw breathing *)

(** The anonymous struct behind [led_ctrl_breathe]. [size_t] counters are
    integers in [Z]; they stay far below the range of [size_t]. *)
Record led_ctrl_breathe_t : Type := mk_breathe {
  br_step : Z;
  br_steps : Z;
  br_delay : Z;
  br_value : list Z
}.

Definition led_ctrl_breathe_init : led_ctrl_breathe_t :=
  {| br_step := 0; br_steps := 0; br_delay := 0;
     br_value := replicate (Z.to_nat LED_CTRL_MAX_STEPS) 0 |}.

Definition br_set_step (step : Z) (br : led_ctrl_breathe_t) : led_ctrl_breathe_t :=
  {| br_step := step; br_steps := br_steps br; br_delay := br_delay br;
     br_value := br_value br |}.

Definition br_set_delay (delay : Z) (br : led_ctrl_breathe_t) : led_ctrl_breathe_t :=
  {| br_step := br_step br; br_steps := br_steps br; br_delay := delay;
     br_value := br_value br |}.

(** [value[i]] for reading; an index outside the array is out of the
    model (the statements below show it does not happen) and reads 0. *)
Definition br_read (value : list Z) (i : Z) : Z :=
  default 0 (value !! Z.to_nat i).

(** ** GLib timers *)

(** The three functions handed to [g_timeout_add]. *)
Inductive timer_cb : Type :=
| CB_stop      (* led_ctrl_stop_cb *)
| CB_step      (* led_ctrl_step_cb *)
| CB_static.   (* led_ctrl_static_cb *)

(** A timeout source attached to the main loop. *)
Record timer_source : Type := mk_source {
  src_id : Z;
  src_interval : Z;
  src_cb : timer_cb
}.

(* ================================================================== *)
(** ** Controller state *)

(** The file scope variables of the led controller, the timeout sources
    of the GLib main loop and the trace of sysfs writes. *)
Record led_ctrl_state : Type := mk_state {
  led_ctrl_curr : led_request_t;
  led_ctrl_breathe : led_ctrl_breathe_t;
  led_ctrl_uses_sysfs : bool;
  led_control : led_control_t;
  led_ctrl_stop_id : Z;
  led_ctrl_step_id : Z;
  reset_blinking : bool;
  init_done : bool;           (* [done] of mce_hybris_indicator_init *)
  init_ack : bool;            (* [ack] of mce_hybris_indicator_init *)
  loop_sources : list timer_source;
  loop_next_id : positive;
  sysfs_log : list sysfs_write
}.

(** Currently active RGB led state; initialized to invalid color. *)
Definition led_ctrl_curr_init : led_request_t :=
  {| req_r := -1; req_g := -1; req_b := -1;
     req_on := 0; req_off := 0; req_level := 255; req_breathe := false |}.

Definition led_ctrl_state_init : led_ctrl_state :=
  {| led_ctrl_curr := led_ctrl_curr_init;
     led_ctrl_breathe := led_ctrl_breathe_init;
     led_ctrl_uses_sysfs := false;
     led_control := led_control_init;
     led_ctrl_stop_id := 0;
     led_ctrl_step_id := 0;
     reset_blinking := true;
     init_done := false;
     init_ack := false;
     loop_sources := [];
     loop_next_id := 1%positive;
     sysfs_log := [] |}.

Definition set_curr (x : led_request_t) (st : led_ctrl_state) : led_ctrl_state :=
  mk_state x (led_ctrl_breathe st) (led_ctrl_uses_sysfs st) (led_control st)
    (led_ctrl_stop_id st) (led_ctrl_step_id st) (reset_blinking st)
    (init_done st) (init_ack st) (loop_sources st) (loop_next_id st) (sysfs_log st).

Definition set_breathe (x : led_ctrl_breathe_t) (st : led_ctrl_state) : led_ctrl_state :=
  mk_state (led_ctrl_curr st) x (led_ctrl_uses_sysfs st) (led_control st)
    (led_ctrl_stop_id st) (led_ctrl_step_id st) (reset_blinking st)
    (init_done st) (init_ack st) (loop_sources st) (loop_next_id st) (sysfs_log st).

Definition set_uses_sysfs (x : bool) (st : led_ctrl_state) : led_ctrl_state :=
  mk_state (led_ctrl_curr st) (led_ctrl_breathe st) x (led_control st)
    (led_ctrl_stop_id st) (led_ctrl_step_id st) (reset_blinking st)
    (init_done st) (init_ack st) (loop_sources st) (loop_next_id st) (sysfs_log st).

Definition set_control (x : led_control_t) (st : led_ctrl_state) : led_ctrl_state :=
  mk_state (led_ctrl_curr st) (led_ctrl_breathe st) (led_ctrl_uses_sysfs st) x
    (led_ctrl_stop_id st) (led_ctrl_step_id st) (reset_blinking st)
    (init_done st) (init_ack st) (loop_sources st) (loop_next_id st) (sysfs_log st).

Definition set_stop_id (x : Z) (st : led_ctrl_state) : led_ctrl_state :=
  mk_state (led_ctrl_curr st) (led_ctrl_breathe st) (led_ctrl_uses_sysfs st) (led_control st)
    x (led_ctrl_step_id st) (reset_blinking st)
    (init_done st) (init_ack st) (loop_sources st) (loop_next_id st) (sysfs_log st).

Definition set_step_id (x : Z) (st : led_ctrl_state) : led_ctrl_state :=
  mk_state (led_ctrl_curr st) (led_ctrl_breathe st) (led_ctrl_uses_sysfs st) (led_control st)
    (led_ctrl_stop_id st) x (reset_blinking st)
    (init_done st) (init_ack st) (loop_sources st) (loop_next_id st) (sysfs_log st).

Definition set_reset_blinking (x : bool) (st : led_ctrl_state) : led_ctrl_state :=
  mk_state (led_ctrl_curr st) (led_ctrl_breathe st) (led_ctrl_uses_sysfs st) (led_control st)
    (led_ctrl_stop_id st) (led_ctrl_step_id st) x
    (init_done st) (init_ack st) (loop_sources st) (loop_next_id st) (sysfs_log st).

Definition set_init_done (x : bool) (st : led_ctrl_state) : led_ctrl_state :=
  mk_state (led_ctrl_curr st) (led_ctrl_breathe st) (led_ctrl_uses_sysfs st) (led_control st)
    (led_ctrl_stop_id st) (led_ctrl_step_id st) (reset_blinking st)
    x (init_ack st) (loop_sources st) (loop_next_id st) (sysfs_log st).

Definition set_init_ack (x : bool) (st : led_ctrl_state) : led_ctrl_state :=
  mk_state (led_ctrl_curr st) (led_ctrl_breathe st) (led_ctrl_uses_sysfs st) (led_control st)
    (led_ctrl_stop_id st) (led_ctrl_step_id st) (reset_blinking st)
    (init_done st) x (loop_sources st) (loop_next_id st) (sysfs_log st).

Definition set_loop (srcs : list timer_source) (next : positive) (st : led_ctrl_state)
  : led_ctrl_state :=
  mk_state (led_ctrl_curr st) (led_ctrl_breathe st) (led_ctrl_uses_sysfs st) (led_control st)
    (led_ctrl_stop_id st) (led_ctrl_step_id st) (reset_blinking st)
    (init_done st) (init_ack st) srcs next (sysfs_log st).

Definition set_log (x : list sysfs_write) (st : led_ctrl_state) : led_ctrl_state :=
  mk_state (led_ctrl_curr st) (led_ctrl_breathe st) (led_ctrl_uses_sysfs st) (led_control st)
    (led_ctrl_stop_id st) (led_ctrl_step_id st) (reset_blinking st)
    (init_done st) (init_ack st) (loop_sources st) (loop_next_id st) x.

(** [g_timeout_add]: attaches a new source and returns its id, which is
    greater than zero. *)
Definition g_timeout_add (interval : Z) (cb : timer_cb) (st : led_ctrl_state)
  : led_ctrl_state * Z :=
  let id := Z.pos (loop_next_id st) in
  (set_loop (loop_sources st ++ [mk_source id interval cb])
            (Pos.succ (loop_next_id st)) st, id).

(** [g_source_remove]: detaches the source with the given id. *)
Definition g_source_remove (id : Z) (st : led_ctrl_state) : led_ctrl_state :=
  set_loop (List.filter (fun s => negb (src_id s =? id)) (loop_sources st))
           (loop_next_id st) st.

(** [led_ctrl_set_rgb_blink]: change blinking attributes of RGB led. *)
Definition led_ctrl_set_rgb_blink (on off : Z) (st : led_ctrl_state) : led_ctrl_state :=
  set_log (led_control_blink (led_control st) on off (sysfs_log st)) st.

(** [led_ctrl_set_rgb_value]: change intensity attributes of RGB led. *)
Definition led_ctrl_set_rgb_value (r g b : Z) (st : led_ctrl_state) : led_ctrl_state :=
  set_log (led_control_value (led_control st) r g b (sysfs_log st)) st.

(** [clamp_to_range]: clamp integer values to given range. *)
Definition clamp_to_range (lo hi val : Z) : Z :=
  if val <=? lo then lo else if val <=? hi then val else hi.

(** What the calls that leave the controller return: the outcome of
    probing sysfs ([led_control_probe]) and of the libhybris fallback
    ([mce_hybris_modlights_load], [mce_light_device_open], [set_light]). *)
Record hybris_env : Type := mk_env {
  env_sysfs_probe : option led_control_t;
  env_modlights_load : bool;
  env_indicator_open : bool;
  env_set_light : bool
}.

(* ================================================================== *)
(** ** The sysfs files behind the RGB led control *)

(** The probing layer under [led_control_t]: the control files are
    opened through the descriptor table of the process, and every write
    goes to the file its descriptor was opened on. *)
Module Sysfs.

Import Stdlib.Strings.String.

Definition path : Type := String.string.

(** What the file system answers for a path while the led files are
    probed: whether [open(path, O_RDONLY)] succeeds, the number
    [strtol] parses from what [read] returns ([None]: [read] fails),
    and whether [open(path, O_WRONLY|O_APPEND)] succeeds. *)
Record filesystem : Type := mk_filesystem {
  fs_readable : path -> bool;
  fs_number : path -> option Z;
  fs_appendable : path -> bool
}.

(** The process: its open descriptors with the file each one is open
    on, and the writes that reached a file, as the integers printed. *)
Record process : Type := mk_process {
  fd_table : list (Z * path);
  file_log : list (path * list Z)
}.

(** [open] returns the lowest descriptor that is not open. *)
Fixpoint lowest_free_from (fuel : nat) (n : Z) (used : list Z) : Z :=
  match fuel with
  | O => n
  | S fuel =>
      if existsb (Z.eqb n) used then lowest_free_from fuel (n + 1) used else n
  end.

Definition lowest_free (used : list Z) : Z :=
  lowest_free_from (List.length used) 0 used.

Definition os_open (p : path) (ps : process) : Z * process :=
  let fd := lowest_free (map fst (fd_table ps)) in
  (fd, {| fd_table := fd_table ps ++ [(fd, p)]; file_log := file_log ps |}).

(** [close]; a descriptor that is not open is left alone (EBADF). *)
Definition os_close (fd : Z) (ps : process) : process :=
  {| fd_table := List.filter (fun e => negb (fst e =? fd)) (fd_table ps);
     file_log := file_log ps |}.

(** [write] and [dprintf]: one write to the file behind [fd]; nothing
    is written through a descriptor that is not open (EBADF). *)
Definition os_write (fd : Z) (text : list Z) (ps : process) : process :=
  match List.find (fun e => fst e =? fd) (fd_table ps) with
  | Some e => {| fd_table := fd_table ps;
                 file_log := file_log ps ++ [(snd e, text)] |}
  | None => ps
  end.

(** [led_util_read_number]; the [long] from [strtol] is narrowed to
    [int]. *)
Definition led_util_read_number (fs : filesystem) (p : path) (ps : process)
  : process * Z :=
  if negb (fs_readable fs p) then (ps, -1)
  else
    let '(fd, ps) := os_open p ps in
    match fs_number fs p with
    | None => (os_close fd ps, -1)
    | Some n => (os_close fd ps, int_wrap n)
    end.

(** [led_util_close_file]: the new value of [*fd_ptr] is returned. *)
Definition led_util_close_file (fd : Z) (ps : process) : process * Z :=
  if negb (fd =? -1) then (os_close fd ps, -1) else (ps, fd).

(** [led_util_open_file]: the new value of [*fd_ptr] and the result. *)
Definition led_util_open_file (fs : filesystem) (fd : Z) (p : path)
  (ps : process) : process * Z * bool :=
  let '(ps, _) := led_util_close_file fd ps in
  if fs_appendable fs p then
    let '(fd, ps) := os_open p ps in (ps, fd, true)
  else (ps, -1, false).

(* ------------------------------------------------------------------ *)
(** *** vanilla sysfs controls for one channel *)

Record led_paths_vanilla_t : Type := mk_paths_vanilla {
  vp_max : path;
  vp_val : path;
  vp_on : path;
  vp_off : path
}.

Record led_state_vanilla_t : Type := mk_state_vanilla {
  van_maxval : Z;
  van_fd_val : Z;
  van_fd_on : Z;
  van_fd_off : Z
}.

Definition led_state_vanilla_init : led_state_vanilla_t :=
  {| van_maxval := -1; van_fd_val := -1; van_fd_on := -1; van_fd_off := -1 |}.

Definition led_state_vanilla_close (self : led_state_vanilla_t) (ps : process)
  : process * led_state_vanilla_t :=
  let '(ps, fd_on) := led_util_close_file (van_fd_on self) ps in
  let '(ps, fd_off) := led_util_close_file (van_fd_off self) ps in
  let '(ps, fd_val) := led_util_close_file (van_fd_val self) ps in
  (ps, {| van_maxval := van_maxval self; van_fd_val := fd_val;
          van_fd_on := fd_on; van_fd_off := fd_off |}).

Definition led_state_vanilla_probe (fs : filesystem)
  (self : led_state_vanilla_t) (p : led_paths_vanilla_t) (ps : process)
  : process * led_state_vanilla_t * bool :=
  let cleanup (ps : process) (self : led_state_vanilla_t) :=
    let '(ps, self) := led_state_vanilla_close self ps in (ps, self, false) in
  let '(ps, self) := led_state_vanilla_close self ps in
  let '(ps, maxval) := led_util_read_number fs (vp_max p) ps in
  let self := {| van_maxval := maxval; van_fd_val := van_fd_val self;
                 van_fd_on := van_fd_on self; van_fd_off := van_fd_off self |} in
  if maxval <=? 0 then cleanup ps self
  else
    let '(ps, fd, ok) := led_util_open_file fs (van_fd_val self) (vp_val p) ps in
    let self := {| van_maxval := van_maxval self; van_fd_val := fd;
                   van_fd_on := van_fd_on self; van_fd_off := van_fd_off self |} in
    if negb ok then cleanup ps self
    else
      let '(ps, fd, ok) := led_util_open_file fs (van_fd_on self) (vp_on p) ps in
      let self := {| van_maxval := van_maxval self; van_fd_val := van_fd_val self;
                     van_fd_on := fd; van_fd_off := van_fd_off self |} in
      if negb ok then cleanup ps self
      else
        let '(ps, fd, ok) := led_util_open_file fs (van_fd_off self) (vp_off p) ps in
        let self := {| van_maxval := van_maxval self; van_fd_val := van_fd_val self;
                       van_fd_on := van_fd_on self; van_fd_off := fd |} in
        if negb ok then cleanup ps self
        else (ps, self, true).

Definition led_state_vanilla_set_value (self : led_state_vanilla_t) (value : Z)
  (ps : process) : process :=
  if negb (van_fd_val self =? -1) then
    os_write (van_fd_val self)
      [led_util_scale_value value (van_maxval self)] ps
  else ps.

Definition led_state_vanilla_set_blink (self : led_state_vanilla_t)
  (on_ms off_ms : Z) (ps : process) : process :=
  if negb (van_fd_on self =? -1) && negb (van_fd_off self =? -1) then
    let ps := os_write (van_fd_on self) [on_ms] ps in
    os_write (van_fd_off self) [off_ms] ps
  else ps.

(* ------------------------------------------------------------------ *)
(** *** hammerhead sysfs controls for one channel *)

Record led_paths_hammerhead_t : Type := mk_paths_hammerhead {
  hp_max : path;
  hp_val : path;
  hp_on_off : path;
  hp_enable : path
}.

Record led_state_hammerhead_t : Type := mk_state_hammerhead {
  ham_maxval : Z;
  ham_fd_val : Z;
  ham_fd_on_off : Z;
  ham_fd_enable : Z
}.

Definition led_state_hammerhead_init : led_state_hammerhead_t :=
  {| ham_maxval := -1; ham_fd_val := -1; ham_fd_on_off := -1;
     ham_fd_enable := -1 |}.

Definition led_state_hammerhead_close (self : led_state_hammerhead_t)
  (ps : process) : process * led_state_hammerhead_t :=
  let '(ps, fd_val) := led_util_close_file (ham_fd_val self) ps in
  let '(ps, fd_on_off) := led_util_close_file (ham_fd_on_off self) ps in
  let '(ps, fd_enable) := led_util_close_file (ham_fd_enable self) ps in
  (ps, {| ham_maxval := ham_maxval self; ham_fd_val := fd_val;
          ham_fd_on_off := fd_on_off; ham_fd_enable := fd_enable |}).

Definition led_state_hammerhead_probe (fs : filesystem)
  (self : led_state_hammerhead_t) (p : led_paths_hammerhead_t) (ps : process)
  : process * led_state_hammerhead_t * bool :=
  let cleanup (ps : process) (self : led_state_hammerhead_t) :=
    let '(ps, self) := led_state_hammerhead_close self ps in (ps, self, false) in
  let '(ps, self) := led_state_hammerhead_close self ps in
  let '(ps, maxval) := led_util_read_number fs (hp_max p) ps in
  let self := {| ham_maxval := maxval; ham_fd_val := ham_fd_val self;
                 ham_fd_on_off := ham_fd_on_off self;
                 ham_fd_enable := ham_fd_enable self |} in
  if maxval <=? 0 then cleanup ps self
  else
    let '(ps, fd, ok) := led_util_open_file fs (ham_fd_val self) (hp_val p) ps in
    let self := {| ham_maxval := ham_maxval self; ham_fd_val := fd;
                   ham_fd_on_off := ham_fd_on_off self;
                   ham_fd_enable := ham_fd_enable self |} in
    if negb ok then cleanup ps self
    else
      let '(ps, fd, ok) :=
        led_util_open_file fs (ham_fd_on_off self) (hp_on_off p) ps in
      let self := {| ham_maxval := ham_maxval self; ham_fd_val := ham_fd_val self;
                     ham_fd_on_off := fd;
                     ham_fd_enable := ham_fd_enable self |} in
      if negb ok then cleanup ps self
      else
        let '(ps, fd, ok) :=
          led_util_open_file fs (ham_fd_enable self) (hp_enable p) ps in
        let self := {| ham_maxval := ham_maxval self;
                       ham_fd_val := ham_fd_val self;
                       ham_fd_on_off := ham_fd_on_off self;
                       ham_fd_enable := fd |} in
        if negb ok then cleanup ps self
        else (ps, self, true).

Definition led_state_hammerhead_set_enabled (self : led_state_hammerhead_t)
  (enable : bool) (ps : process) : process :=
  if negb (ham_fd_enable self =? -1) then
    os_write (ham_fd_enable self) [if enable then 1 else 0] ps
  else ps.

Definition led_state_hammerhead_set_value (self : led_state_hammerhead_t)
  (value : Z) (ps : process) : process :=
  if negb (ham_fd_val self =? -1) then
    os_write (ham_fd_val self)
      [led_util_scale_value value (ham_maxval self)] ps
  else ps.

(** The number of characters [printf] needs for ["%d"]. *)
Fixpoint decimal_digits (fuel : nat) (n : Z) : Z :=
  match fuel with
  | O => 1
  | S fuel => if n <? 10 then 1 else 1 + decimal_digits fuel (n / 10)
  end.

Definition decimal_length (n : Z) : Z :=
  if n <? 0 then 1 + decimal_digits 10 (- n) else decimal_digits 10 n.

(** [led_state_hammerhead_set_blink]: [len] is what [snprintf] returns
    for ["%d %d"], [sizeof tmp] is 32. *)
Definition led_state_hammerhead_set_blink (self : led_state_hammerhead_t)
  (on_ms off_ms : Z) (ps : process) : process :=
  if negb (ham_fd_on_off self =? -1) then
    let len := decimal_length on_ms + 1 + decimal_length off_ms in
    if (0 <? len) && (len <=? 32) then
      os_write (ham_fd_on_off self) [on_ms; off_ms] ps
    else ps
  else ps.

(* ------------------------------------------------------------------ *)
(** *** RGB led control: generic frontend *)

(** The functions a callback field of [led_control_t] can point to,
    by the type of the field, and the two arrays [data] can point
    to. *)
Inductive enable_fn : Type := PTR_hammerhead_enable_cb.
Inductive blink_fn : Type := PTR_vanilla_blink_cb | PTR_hammerhead_blink_cb.
Inductive value_fn : Type := PTR_vanilla_value_cb | PTR_hammerhead_value_cb.
Inductive close_fn : Type := PTR_vanilla_close_cb | PTR_hammerhead_close_cb.
Inductive data_ptr : Type := PTR_vanilla_state | PTR_hammerhead_state.

(** [led_control_t]; [None] is the null pointer. *)
Record led_control_t : Type := mk_led_control {
  name : option String.string;
  data : option data_ptr;
  enable : option enable_fn;
  blink : option blink_fn;
  value : option value_fn;
  close : option close_fn
}.

(** The process together with the arrays [state] of
    [led_control_vanilla_probe] and [led_control_hammerhead_probe],
    which have static storage. *)
Record world : Type := mk_world {
  proc : process;
  vanilla_state :
    led_state_vanilla_t * led_state_vanilla_t * led_state_vanilla_t;
  hammerhead_state :
    led_state_hammerhead_t * led_state_hammerhead_t * led_state_hammerhead_t
}.

Definition set_proc (ps : process) (w : world) : world :=
  {| proc := ps; vanilla_state := vanilla_state w;
     hammerhead_state := hammerhead_state w |}.

(** The callbacks. [data] is the array of the function's own backend:
    the probing functions store the two together. *)
Definition led_control_vanilla_blink_cb (on_ms off_ms : Z) (w : world) : world :=
  let '(s0, s1, s2) := vanilla_state w in
  let ps := led_state_vanilla_set_blink s0 on_ms off_ms (proc w) in
  let ps := led_state_vanilla_set_blink s1 on_ms off_ms ps in
  let ps := led_state_vanilla_set_blink s2 on_ms off_ms ps in
  set_proc ps w.

Definition led_control_vanilla_value_cb (r g b : Z) (w : world) : world :=
  let '(s0, s1, s2) := vanilla_state w in
  let ps := led_state_vanilla_set_value s0 r (proc w) in
  let ps := led_state_vanilla_set_value s1 g ps in
  let ps := led_state_vanilla_set_value s2 b ps in
  set_proc ps w.

Definition led_control_vanilla_close_cb (w : world) : world :=
  let '(s0, s1, s2) := vanilla_state w in
  let '(ps, s0) := led_state_vanilla_close s0 (proc w) in
  let '(ps, s1) := led_state_vanilla_close s1 ps in
  let '(ps, s2) := led_state_vanilla_close s2 ps in
  {| proc := ps; vanilla_state := (s0, s1, s2);
     hammerhead_state := hammerhead_state w |}.

Definition led_control_hammerhead_enable_cb (enable : bool) (w : world) : world :=
  let '(s0, s1, s2) := hammerhead_state w in
  let ps := led_state_hammerhead_set_enabled s0 enable (proc w) in
  let ps := led_state_hammerhead_set_enabled s1 enable ps in
  let ps := led_state_hammerhead_set_enabled s2 enable ps in
  set_proc ps w.

Definition led_control_hammerhead_blink_cb (on_ms off_ms : Z) (w : world)
  : world :=
  let '(s0, s1, s2) := hammerhead_state w in
  let ps := led_state_hammerhead_set_blink s0 on_ms off_ms (proc w) in
  let ps := led_state_hammerhead_set_blink s1 on_ms off_ms ps in
  let ps := led_state_hammerhead_set_blink s2 on_ms off_ms ps in
  set_proc ps w.

Definition led_control_hammerhead_value_cb (r g b : Z) (w : world) : world :=
  let '(s0, s1, s2) := hammerhead_state w in
  let ps := led_state_hammerhead_set_value s0 r (proc w) in
  let ps := led_state_hammerhead_set_value s1 g ps in
  let ps := led_state_hammerhead_set_value s2 b ps in
  set_proc ps w.

Definition led_control_hammerhead_close_cb (w : world) : world :=
  let '(s0, s1, s2) := hammerhead_state w in
  let '(ps, s0) := led_state_hammerhead_close s0 (proc w) in
  let '(ps, s1) := led_state_hammerhead_close s1 ps in
  let '(ps, s2) := led_state_hammerhead_close s2 ps in
  {| proc := ps; vanilla_state := vanilla_state w;
     hammerhead_state := (s0, s1, s2) |}.

(** [led_control_enable] *)
Definition led_control_enable (self : led_control_t) (on : bool) (w : world)
  : world :=
  match enable self with
  | Some PTR_hammerhead_enable_cb => led_control_hammerhead_enable_cb on w
  | None => w
  end.

(** [led_control_blink] *)
Definition led_control_blink (self : led_control_t) (on_ms off_ms : Z)
  (w : world) : world :=
  match blink self with
  | Some f =>
      let w := led_control_enable self false w in
      match f with
      | PTR_vanilla_blink_cb => led_control_vanilla_blink_cb on_ms off_ms w
      | PTR_hammerhead_blink_cb => led_control_hammerhead_blink_cb on_ms off_ms w
      end
  | None => w
  end.

(** [led_control_value] *)
Definition led_control_value (self : led_control_t) (r g b : Z) (w : world)
  : world :=
  match value self with
  | Some f =>
      let w := led_control_enable self false w in
      let w :=
        match f with
        | PTR_vanilla_value_cb => led_control_vanilla_value_cb r g b w
        | PTR_hammerhead_value_cb => led_control_hammerhead_value_cb r g b w
        end in
      led_control_enable self true w
  | None => w
  end.

(** [led_control_init] *)
Definition led_control_init : led_control_t :=
  {| name := None; data := None; enable := None; blink := None;
     value := None; close := None |}.

(** [led_control_close]: the control object it leaves is returned. *)
Definition led_control_close (self : led_control_t) (w : world)
  : world * led_control_t :=
  let w :=
    match close self with
    | Some PTR_vanilla_close_cb => led_control_vanilla_close_cb w
    | Some PTR_hammerhead_close_cb => led_control_hammerhead_close_cb w
    | None => w
    end in
  (w, led_control_init).

(** The table [paths] of [led_control_vanilla_probe] has one set of
    paths. *)
Definition vanilla_path_set
  : led_paths_vanilla_t * led_paths_vanilla_t * led_paths_vanilla_t :=
    ({| vp_on := "/sys/class/leds/led:rgb_red/blink_delay_on";
        vp_off := "/sys/class/leds/led:rgb_red/blink_delay_off";
        vp_val := "/sys/class/leds/led:rgb_red/brightness";
        vp_max := "/sys/class/leds/led:rgb_red/max_brightness" |},
     {| vp_on := "/sys/class/leds/led:rgb_green/blink_delay_on";
        vp_off := "/sys/class/leds/led:rgb_green/blink_delay_off";
        vp_val := "/sys/class/leds/led:rgb_green/brightness";
        vp_max := "/sys/class/leds/led:rgb_green/max_brightness" |},
     {| vp_on := "/sys/class/leds/led:rgb_blue/blink_delay_on";
        vp_off := "/sys/class/leds/led:rgb_blue/blink_delay_off";
        vp_val := "/sys/class/leds/led:rgb_blue/brightness";
        vp_max := "/sys/class/leds/led:rgb_blue/max_brightness" |})%string.

Definition vanilla_paths
  : list (led_paths_vanilla_t * led_paths_vanilla_t * led_paths_vanilla_t) :=
  [vanilla_path_set].

(** The table [paths] of [led_control_hammerhead_probe] has one set
    of paths. *)
Definition hammerhead_path_set
  : led_paths_hammerhead_t * led_paths_hammerhead_t * led_paths_hammerhead_t :=
    ({| hp_max := "/sys/class/leds/red/max_brightness";
        hp_val := "/sys/class/leds/red/brightness";
        hp_on_off := "/sys/class/leds/red/on_off_ms";
        hp_enable := "/sys/class/leds/red/rgb_start" |},
     {| hp_max := "/sys/class/leds/green/max_brightness";
        hp_val := "/sys/class/leds/green/brightness";
        hp_on_off := "/sys/class/leds/green/on_off_ms";
        hp_enable := "/sys/class/leds/green/rgb_start" |},
     {| hp_max := "/sys/class/leds/blue/max_brightness";
        hp_val := "/sys/class/leds/blue/brightness";
        hp_on_off := "/sys/class/leds/blue/on_off_ms";
        hp_enable := "/sys/class/leds/blue/rgb_start" |})%string.

Definition hammerhead_paths
  : list (led_paths_hammerhead_t * led_paths_hammerhead_t *
          led_paths_hammerhead_t) :=
  [hammerhead_path_set].

(** The [for] loop of [led_control_vanilla_probe] over the sets of
    paths, left at the first set whose three channels probe. *)
Fixpoint vanilla_probe_loop (fs : filesystem)
  (sets : list (led_paths_vanilla_t * led_paths_vanilla_t * led_paths_vanilla_t))
  (w : world) : world * bool :=
  match sets with
  | [] => (w, false)
  | (p0, p1, p2) :: sets =>
      let '(s0, s1, s2) := vanilla_state w in
      let '(ps, s0, ok0) := led_state_vanilla_probe fs s0 p0 (proc w) in
      let '(ps, s1, ok1) :=
        if ok0 then led_state_vanilla_probe fs s1 p1 ps else (ps, s1, false) in
      let '(ps, s2, ok2) :=
        if ok1 then led_state_vanilla_probe fs s2 p2 ps else (ps, s2, false) in
      let w := {| proc := ps; vanilla_state := (s0, s1, s2);
                  hammerhead_state := hammerhead_state w |} in
      if ok2 then (w, true) else vanilla_probe_loop fs sets w
  end.

(** [led_control_vanilla_probe] *)
Definition led_control_vanilla_probe (fs : filesystem) (w : world)
  : world * led_control_t * bool :=
  let w := {| proc := proc w;
              vanilla_state := (led_state_vanilla_init, led_state_vanilla_init,
                                led_state_vanilla_init);
              hammerhead_state := hammerhead_state w |} in
  let self := {| name := Some "vanilla"%string;
                 data := Some PTR_vanilla_state;
                 enable := None;
                 blink := Some PTR_vanilla_blink_cb;
                 value := Some PTR_vanilla_value_cb;
                 close := Some PTR_vanilla_close_cb |} in
  let '(w, res) := vanilla_probe_loop fs vanilla_paths w in
  if negb res then
    let '(w, self) := led_control_close self w in (w, self, res)
  else (w, self, res).

Fixpoint hammerhead_probe_loop (fs : filesystem)
  (sets : list (led_paths_hammerhead_t * led_paths_hammerhead_t *
                led_paths_hammerhead_t))
  (w : world) : world * bool :=
  match sets with
  | [] => (w, false)
  | (p0, p1, p2) :: sets =>
      let '(s0, s1, s2) := hammerhead_state w in
      let '(ps, s0, ok0) := led_state_hammerhead_probe fs s0 p0 (proc w) in
      let '(ps, s1, ok1) :=
        if ok0 then led_state_hammerhead_probe fs s1 p1 ps else (ps, s1, false) in
      let '(ps, s2, ok2) :=
        if ok1 then led_state_hammerhead_probe fs s2 p2 ps else (ps, s2, false) in
      let w := {| proc := ps; vanilla_state := vanilla_state w;
                  hammerhead_state := (s0, s1, s2) |} in
      if ok2 then (w, true) else hammerhead_probe_loop fs sets w
  end.

(** [led_control_hammerhead_probe] *)
Definition led_control_hammerhead_probe (fs : filesystem) (w : world)
  : world * led_control_t * bool :=
  let w := {| proc := proc w;
              vanilla_state := vanilla_state w;
              hammerhead_state :=
                (led_state_hammerhead_init, led_state_hammerhead_init,
                 led_state_hammerhead_init) |} in
  let self := {| name := Some "hammerhead"%string;
                 data := Some PTR_hammerhead_state;
                 enable := Some PTR_hammerhead_enable_cb;
                 blink := Some PTR_hammerhead_blink_cb;
                 value := Some PTR_hammerhead_value_cb;
                 close := Some PTR_hammerhead_close_cb |} in
  let '(w, res) := hammerhead_probe_loop fs hammerhead_paths w in
  if negb res then
    let '(w, self) := led_control_close self w in (w, self, res)
  else (w, self, res).

(** [led_control_probe]. The call of [led_control_init] it starts with
    is not seen: both probing functions assign every field of [self]. *)
Definition led_control_probe (fs : filesystem) (w : world)
  : world * led_control_t * bool :=
  let '(w, self, ok) := led_control_vanilla_probe fs w in
  if ok then (w, self, true)
  else led_control_hammerhead_probe fs w.

(** The control objects the two probing functions leave when they
    succeed. *)
Definition vanilla_control : led_control_t :=
  {| name := Some "vanilla"%string;
     data := Some PTR_vanilla_state;
     enable := None;
     blink := Some PTR_vanilla_blink_cb;
     value := Some PTR_vanilla_value_cb;
     close := Some PTR_vanilla_close_cb |}.

Definition hammerhead_control : led_control_t :=
  {| name := Some "hammerhead"%string;
     data := Some PTR_hammerhead_state;
     enable := Some PTR_hammerhead_enable_cb;
     blink := Some PTR_hammerhead_blink_cb;
     value := Some PTR_hammerhead_value_cb;
     close := Some PTR_hammerhead_close_cb |}.

End Sysfs.

(* ------------------------------------------------------------------ *)
(** *** Notions used in the statements about probing *)

(** What [led_util_read_number] returns for a path. *)
Definition sysfs_number (fs : Sysfs.filesystem) (p : Sysfs.path) : Z :=
  if Sysfs.fs_readable fs p then
    match Sysfs.fs_number fs p with
    | Some n => int_wrap n
    | None => -1
    end
  else -1.

(** The files of one channel are usable: [max_brightness] holds a
    positive number and the three control files open for appending. *)
Definition vanilla_channel_ok (fs : Sysfs.filesystem)
  (p : Sysfs.led_paths_vanilla_t) : bool :=
  (0 <? sysfs_number fs (Sysfs.vp_max p)) &&
  Sysfs.fs_appendable fs (Sysfs.vp_val p) &&
  Sysfs.fs_appendable fs (Sysfs.vp_on p) &&
  Sysfs.fs_appendable fs (Sysfs.vp_off p).

Definition hammerhead_channel_ok (fs : Sysfs.filesystem)
  (p : Sysfs.led_paths_hammerhead_t) : bool :=
  (0 <? sysfs_number fs (Sysfs.hp_max p)) &&
  Sysfs.fs_appendable fs (Sysfs.hp_val p) &&
  Sysfs.fs_appendable fs (Sysfs.hp_on_off p) &&
  Sysfs.fs_appendable fs (Sysfs.hp_enable p).

Definition vanilla_files_ok (fs : Sysfs.filesystem) : bool :=
  let '(p0, p1, p2) := Sysfs.vanilla_path_set in
  vanilla_channel_ok fs p0 && vanilla_channel_ok fs p1 &&
  vanilla_channel_ok fs p2.

Definition hammerhead_files_ok (fs : Sysfs.filesystem) : bool :=
  let '(p0, p1, p2) := Sysfs.hammerhead_path_set in
  hammerhead_channel_ok fs p0 && hammerhead_channel_ok fs p1 &&
  hammerhead_channel_ok fs p2.

(** The control files of a channel, in the order they are opened. *)
Definition vanilla_channel_files (p : Sysfs.led_paths_vanilla_t)
  : list Sysfs.path :=
  [Sysfs.vp_val p; Sysfs.vp_on p; Sysfs.vp_off p].

Definition hammerhead_channel_files (p : Sysfs.led_paths_hammerhead_t)
  : list Sysfs.path :=
  [Sysfs.hp_val p; Sysfs.hp_on_off p; Sysfs.hp_enable p].

Definition vanilla_files : list Sysfs.path :=
  let '(p0, p1, p2) := Sysfs.vanilla_path_set in
  vanilla_channel_files p0 ++ vanilla_channel_files p1 ++
  vanilla_channel_files p2.

Definition hammerhead_files : list Sysfs.path :=
  let '(p0, p1, p2) := Sysfs.hammerhead_path_set in
  hammerhead_channel_files p0 ++ hammerhead_channel_files p1 ++
  hammerhead_channel_files p2.

(** The descriptors [news] were opened one after the other on a table
    that held [tbl]: each one is a valid descriptor that was not open
    at its time. *)
Fixpoint opened_on (tbl news : list (Z * Sysfs.path)) : Prop :=
  match news with
  | [] => True
  | e :: rest =>
      0 <= fst e /\ ~ In (fst e) (map fst tbl) /\ opened_on (tbl ++ [e]) rest
  end.

(** The table after the descriptors [fds] are closed. *)
Definition fd_closed (fds : list Z) (tbl : list (Z * Sysfs.path))
  : list (Z * Sysfs.path) :=
  List.filter (fun e => negb (existsb (Z.eqb (fst e)) fds)) tbl.

(** The descriptor a field holds, if any. *)
Definition live (fd : Z) : list Z := if fd =? -1 then [] else [fd].

(** The abstract control object that stands for a probed control: its
    backend and the [maxval] of the three channels. *)
Definition control_abs (self : Sysfs.led_control_t) (w : Sysfs.world)
  : led_control_t :=
  match Sysfs.value self with
  | Some Sysfs.PTR_vanilla_value_cb =>
      let '(s0, s1, s2) := Sysfs.vanilla_state w in
      mk_led_control (Some BACKEND_VANILLA) (Sysfs.van_maxval s0)
        (Sysfs.van_maxval s1) (Sysfs.van_maxval s2)
  | Some Sysfs.PTR_hammerhead_value_cb =>
      let '(s0, s1, s2) := Sysfs.hammerhead_state w in
      mk_led_control (Some BACKEND_HAMMERHEAD) (Sysfs.ham_maxval s0)
        (Sysfs.ham_maxval s1) (Sysfs.ham_maxval s2)
  | None => led_control_init
  end.

(** The file writes behind one entry of the trace of sysfs writes. *)
Definition sysfs_write_files (backend : led_backend) (wr : sysfs_write)
  : list (Sysfs.path * list Z) :=
  match backend with
  | BACKEND_VANILLA =>
      let '(p0, p1, p2) := Sysfs.vanilla_path_set in
      match wr with
      | WR_ENABLE _ => []
      | WR_BLINK on_ms off_ms =>
          [(Sysfs.vp_on p0, [on_ms]); (Sysfs.vp_off p0, [off_ms]);
           (Sysfs.vp_on p1, [on_ms]); (Sysfs.vp_off p1, [off_ms]);
           (Sysfs.vp_on p2, [on_ms]); (Sysfs.vp_off p2, [off_ms])]
      | WR_VALUE r g b =>
          [(Sysfs.vp_val p0, [r]); (Sysfs.vp_val p1, [g]);
           (Sysfs.vp_val p2, [b])]
      end
  | BACKEND_HAMMERHEAD =>
      let '(p0, p1, p2) := Sysfs.hammerhead_path_set in
      match wr with
      | WR_ENABLE e =>
          let v := if e then 1 else 0 in
          [(Sysfs.hp_enable p0, [v]); (Sysfs.hp_enable p1, [v]);
           (Sysfs.hp_enable p2, [v])]
      | WR_BLINK on_ms off_ms =>
          [(Sysfs.hp_on_off p0, [on_ms; off_ms]);
           (Sysfs.hp_on_off p1, [on_ms; off_ms]);
           (Sysfs.hp_on_off p2, [on_ms; off_ms])]
      | WR_VALUE r g b =>
          [(Sysfs.hp_val p0, [r]); (Sysfs.hp_val p1, [g]);
           (Sysfs.hp_val p2, [b])]
      end
  end.

(** A call of the frontend, on the probed control and on the abstract
    one. *)
Inductive control_call : Type :=
| CALL_enable (enable : bool)
| CALL_blink (on_ms off_ms : Z)
| CALL_value (r g b : Z).

Definition control_call_run (self : Sysfs.led_control_t) (w : Sysfs.world)
  (c : control_call) : Sysfs.world :=
  match c with
  | CALL_enable e => Sysfs.led_control_enable self e w
  | CALL_blink on_ms off_ms => Sysfs.led_control_blink self on_ms off_ms w
  | CALL_value r g b => Sysfs.led_control_value self r g b w
  end.

Definition control_call_log (ctl : led_control_t) (log : list sysfs_write)
  (c : control_call) : list sysfs_write :=
  match c with
  | CALL_enable e => led_control_enable ctl e log
  | CALL_blink on_ms off_ms => led_control_blink ctl on_ms off_ms log
  | CALL_value r g b => led_control_value ctl r g b log
  end.

(** The entries added to the descriptor table [tbl] by opening the
    files [files] one after the other. *)
Fixpoint open_seq (tbl : list (Z * Sysfs.path)) (files : list Sysfs.path)
  : list (Z * Sysfs.path) :=
  match files with
  | [] => []
  | p :: files =>
      let e := (Sysfs.lowest_free (map fst tbl), p) in
      e :: open_seq (tbl ++ [e]) files
  end.

(** The descriptors held by the channel states of a control, in the
    order the probe opens them. *)
Definition vanilla_state_fds (s : Sysfs.led_state_vanilla_t) : list Z :=
  [Sysfs.van_fd_val s; Sysfs.van_fd_on s; Sysfs.van_fd_off s].

Definition hammerhead_state_fds (s : Sysfs.led_state_hammerhead_t) : list Z :=
  [Sysfs.ham_fd_val s; Sysfs.ham_fd_on_off s; Sysfs.ham_fd_enable s].

Definition control_fds (self : Sysfs.led_control_t) (w : Sysfs.world) : list Z :=
  match Sysfs.data self with
  | Some Sysfs.PTR_vanilla_state =>
      let '(s0, s1, s2) := Sysfs.vanilla_state w in
      vanilla_state_fds s0 ++ vanilla_state_fds s1 ++ vanilla_state_fds s2
  | Some Sysfs.PTR_hammerhead_state =>
      let '(s0, s1, s2) := Sysfs.hammerhead_state w in
      hammerhead_state_fds s0 ++ hammerhead_state_fds s1 ++
      hammerhead_state_fds s2
  | None => []
  end.

(** The state of a channel after a successful probe on the table
    [tbl]. *)
Definition vanilla_probed (fs : Sysfs.filesystem)
  (p : Sysfs.led_paths_vanilla_t) (tbl : list (Z * Sysfs.path))
  : Sysfs.led_state_vanilla_t :=
  let fds := map fst (open_seq tbl (vanilla_channel_files p)) in
  Sysfs.mk_state_vanilla (sysfs_number fs (Sysfs.vp_max p))
    (nth 0 fds (-1)) (nth 1 fds (-1)) (nth 2 fds (-1)).

Definition hammerhead_probed (fs : Sysfs.filesystem)
  (p : Sysfs.led_paths_hammerhead_t) (tbl : list (Z * Sysfs.path))
  : Sysfs.led_state_hammerhead_t :=
  let fds := map fst (open_seq tbl (hammerhead_channel_files p)) in
  Sysfs.mk_state_hammerhead (sysfs_number fs (Sysfs.hp_max p))
    (nth 0 fds (-1)) (nth 1 fds (-1)) (nth 2 fds (-1)).

(** A channel state that holds no descriptor. *)
Definition vanilla_closed (s : Sysfs.led_state_vanilla_t) : Prop :=
  Sysfs.van_fd_val s = -1 /\ Sysfs.van_fd_on s = -1 /\ Sysfs.van_fd_off s = -1.

Definition hammerhead_closed (s : Sysfs.led_state_hammerhead_t) : Prop :=
  Sysfs.ham_fd_val s = -1 /\ Sysfs.ham_fd_on_off s = -1 /\
  Sysfs.ham_fd_enable s = -1.

(** The channel states after a successful probe of a backend on the
    table [tbl]. *)
Definition vanilla_probed_all (fs : Sysfs.filesystem) (tbl : list (Z * Sysfs.path))
  : Sysfs.led_state_vanilla_t * Sysfs.led_state_vanilla_t *
    Sysfs.led_state_vanilla_t :=
  let '(p0, p1, p2) := Sysfs.vanilla_path_set in
  (vanilla_probed fs p0 tbl,
   vanilla_probed fs p1 (tbl ++ open_seq tbl (vanilla_channel_files p0)),
   vanilla_probed fs p2
     (tbl ++ open_seq tbl (vanilla_channel_files p0 ++ vanilla_channel_files p1))).

Definition hammerhead_probed_all (fs : Sysfs.filesystem)
  (tbl : list (Z * Sysfs.path))
  : Sysfs.led_state_hammerhead_t * Sysfs.led_state_hammerhead_t *
    Sysfs.led_state_hammerhead_t :=
  let '(p0, p1, p2) := Sysfs.hammerhead_path_set in
  (hammerhead_probed fs p0 tbl,
   hammerhead_probed fs p1 (tbl ++ open_seq tbl (hammerhead_channel_files p0)),
   hammerhead_probed fs p2
     (tbl ++ open_seq tbl (hammerhead_channel_files p0 ++
                           hammerhead_channel_files p1))).

(** The file writes behind an entry of the trace of a control; a closed
    control writes nothing. *)
Definition control_write_files (ctl : led_control_t) (wr : sysfs_write)
  : list (Sysfs.path * list Z) :=
  match ctl_backend ctl with
  | Some backend => sysfs_write_files backend wr
  | None => []
  end.

(** The files a probe leaves open. *)
Definition probed_files (fs : Sysfs.filesystem) : list Sysfs.path :=
  if vanilla_files_ok fs then vanilla_files
  else if hammerhead_files_ok fs then hammerhead_files
  else [].

(** The world a successful probe leaves on the table [tbl], after the
    writes [log], and the abstract control that stands for it. *)
Definition vanilla_world (fs : Sysfs.filesystem) (tbl : list (Z * Sysfs.path))
  (hs : Sysfs.led_state_hammerhead_t * Sysfs.led_state_hammerhead_t *
        Sysfs.led_state_hammerhead_t)
  (log : list (Sysfs.path * list Z)) : Sysfs.world :=
  Sysfs.mk_world (Sysfs.mk_process (tbl ++ open_seq tbl vanilla_files) log)
    (vanilla_probed_all fs tbl) hs.

Definition hammerhead_world (fs : Sysfs.filesystem) (tbl : list (Z * Sysfs.path))
  (vs : Sysfs.led_state_vanilla_t * Sysfs.led_state_vanilla_t *
        Sysfs.led_state_vanilla_t)
  (log : list (Sysfs.path * list Z)) : Sysfs.world :=
  Sysfs.mk_world (Sysfs.mk_process (tbl ++ open_seq tbl hammerhead_files) log)
    vs (hammerhead_probed_all fs tbl).

Definition vanilla_abs (fs : Sysfs.filesystem) : led_control_t :=
  let '(p0, p1, p2) := Sysfs.vanilla_path_set in
  mk_led_control (Some BACKEND_VANILLA) (sysfs_number fs (Sysfs.vp_max p0))
    (sysfs_number fs (Sysfs.vp_max p1)) (sysfs_number fs (Sysfs.vp_max p2)).

Definition hammerhead_abs (fs : Sysfs.filesystem) : led_control_t :=
  let '(p0, p1, p2) := Sysfs.hammerhead_path_set in
  mk_led_control (Some BACKEND_HAMMERHEAD) (sysfs_number fs (Sysfs.hp_max p0))
    (sysfs_number fs (Sysfs.hp_max p1)) (sysfs_number fs (Sysfs.hp_max p2)).

(* ================================================================== *)
(** ** Calls through pointers *)

(** The functions of the libhybris side work on variables with static
    storage and call through pointers they have tested, or not. A
    function is a state transformer that ends with a value, or in the
    state in which it called through a null pointer. *)
Module Run.

Inductive outcome (S A : Type) : Type :=
| Ok (a : A) (st : S)
| Null_dereference (st : S).
Arguments Ok {S A} a st.
Arguments Null_dereference {S A} st.

Definition M (S A : Type) : Type := S -> outcome S A.

Definition ret {S A : Type} (a : A) : M S A := fun st => Ok a st.

Definition bind {S A B : Type} (m : M S A) (k : A -> M S B) : M S B :=
  fun st =>
    match m st with
    | Ok a st => k a st
    | Null_dereference st => Null_dereference st
    end.

Notation "'do' x <- m ;; k" := (bind m (fun x => k))
  (at level 10, x name, m at level 99, k at level 200).
Notation "'run' m ;; k" := (bind m (fun _ => k))
  (at level 10, m at level 99, k at level 200).

Definition get {S A : Type} (f : S -> A) : M S A := fun st => Ok (f st) st.

Definition put {S : Type} (f : S -> S) : M S unit := fun st => Ok tt (f st).

(** [p->...]: a call through the pointer [p]; [None] is the null
    pointer. *)
Definition deref {S X : Type} (p : option X) : M S X :=
  fun st =>
    match p with
    | Some o => Ok o st
    | None => Null_dereference st
    end.

Definition when {S : Type} (b : bool) (m : M S unit) : M S unit :=
  if b then m else ret tt.

Definition is_set {X : Type} (p : option X) : bool :=
  match p with Some _ => true | None => false end.

End Run.

(* ================================================================== *)
(** ** The libhybris side: frame buffer and lights *)

(** The functions that reach the Android HAL through libhybris. The
    module and device pointers are [option]s ([None] is the null
    pointer), the calls made into the HAL are recorded, and a call
    through a null pointer ends the run ([Run]). For the indicator led the
    functions are modelled on their libhybris side; what they do with
    the sysfs controls is the controller above. *)
Module Hal.

Import Run.

Inductive light_id : Type :=
| LIGHT_ID_BACKLIGHT
| LIGHT_ID_KEYBOARD
| LIGHT_ID_NOTIFICATIONS.

Inductive flash_mode : Type :=
| LIGHT_FLASH_NONE
| LIGHT_FLASH_TIMED
| LIGHT_FLASH_HARDWARE.

Inductive brightness_mode : Type :=
| BRIGHTNESS_MODE_USER
| BRIGHTNESS_MODE_SENSOR.

(** [struct light_state_t]; [color] is an [unsigned int]. *)
Record light_state_t : Type := mk_light_state {
  color : Z;
  flashMode : flash_mode;
  flashOnMS : Z;
  flashOffMS : Z;
  brightnessMode : brightness_mode
}.

Definition uint32 (x : Z) : Z := x mod 2 ^ 32.

(** The objects a pointer of this part can point to. *)
Inductive hw_object : Type :=
| MOD_FB
| MOD_LIGHTS
| DEV_FB
| DEV_LIGHT (id : light_id).

(** The calls made into the HAL. *)
Inductive hal_call : Type :=
| CALL_get_module_fb
| CALL_get_module_lights
| CALL_fb_open
| CALL_fb_close
| CALL_enableScreen (state : bool)
| CALL_light_open (id : light_id)
| CALL_light_close (id : light_id)
| CALL_set_light (id : light_id) (lst : light_state_t).

(** What the HAL answers; the first argument is the number of calls
    made before. [hw_get_module] and [open] leave the pointer null when
    they fail. [env_probe_sysfs_files] is the result of
    [led_ctrl_probe_sysfs_files]. *)
Record hal_env : Type := mk_hal_env {
  env_get_module_fb : nat -> bool;
  env_get_module_lights : nat -> bool;
  env_fb_open : nat -> bool;
  env_enableScreen : nat -> bool -> Z;
  env_light_open : nat -> light_id -> bool;
  env_set_light : nat -> light_id -> light_state_t -> Z;
  env_probe_sysfs_files : bool
}.

(** The variables with static storage: the module and device pointers
    and the [done] and [ack] flags of the functions. *)
Record hal_state : Type := mk_hal_state {
  modfb_load_done : bool;
  mod_fb : option hw_object;
  framebuffer_init_done : bool;
  dev_fb : option hw_object;
  modlights_load_done : bool;
  mod_lights : option hw_object;
  backlight_init_done : bool;
  dev_backlight : option hw_object;
  keypad_init_done : bool;
  dev_keypad : option hw_object;
  indicator_init_done : bool;
  indicator_init_ack : bool;
  dev_indicator : option hw_object;
  led_ctrl_uses_sysfs : bool;
  hal_calls : list hal_call
}.

Definition hal_state_init : hal_state :=
  {| modfb_load_done := false; mod_fb := None;
     framebuffer_init_done := false; dev_fb := None;
     modlights_load_done := false; mod_lights := None;
     backlight_init_done := false; dev_backlight := None;
     keypad_init_done := false; dev_keypad := None;
     indicator_init_done := false; indicator_init_ack := false;
     dev_indicator := None; led_ctrl_uses_sysfs := false;
     hal_calls := [] |}.

Definition set_modfb_load_done (v : bool) (st : hal_state) : hal_state :=
  let '(mk_hal_state _ b c d e f g h i j k l m n o) := st in
  mk_hal_state v b c d e f g h i j k l m n o.
Definition set_mod_fb (v : option hw_object) (st : hal_state) : hal_state :=
  let '(mk_hal_state a _ c d e f g h i j k l m n o) := st in
  mk_hal_state a v c d e f g h i j k l m n o.
Definition set_framebuffer_init_done (v : bool) (st : hal_state) : hal_state :=
  let '(mk_hal_state a b _ d e f g h i j k l m n o) := st in
  mk_hal_state a b v d e f g h i j k l m n o.
Definition set_dev_fb (v : option hw_object) (st : hal_state) : hal_state :=
  let '(mk_hal_state a b c _ e f g h i j k l m n o) := st in
  mk_hal_state a b c v e f g h i j k l m n o.
Definition set_modlights_load_done (v : bool) (st : hal_state) : hal_state :=
  let '(mk_hal_state a b c d _ f g h i j k l m n o) := st in
  mk_hal_state a b c d v f g h i j k l m n o.
Definition set_mod_lights (v : option hw_object) (st : hal_state) : hal_state :=
  let '(mk_hal_state a b c d e _ g h i j k l m n o) := st in
  mk_hal_state a b c d e v g h i j k l m n o.
Definition set_backlight_init_done (v : bool) (st : hal_state) : hal_state :=
  let '(mk_hal_state a b c d e f _ h i j k l m n o) := st in
  mk_hal_state a b c d e f v h i j k l m n o.
Definition set_dev_backlight (v : option hw_object) (st : hal_state) : hal_state :=
  let '(mk_hal_state a b c d e f g _ i j k l m n o) := st in
  mk_hal_state a b c d e f g v i j k l m n o.
Definition set_keypad_init_done (v : bool) (st : hal_state) : hal_state :=
  let '(mk_hal_state a b c d e f g h _ j k l m n o) := st in
  mk_hal_state a b c d e f g h v j k l m n o.
Definition set_dev_keypad (v : option hw_object) (st : hal_state) : hal_state :=
  let '(mk_hal_state a b c d e f g h i _ k l m n o) := st in
  mk_hal_state a b c d e f g h i v k l m n o.
Definition set_indicator_init_done (v : bool) (st : hal_state) : hal_state :=
  let '(mk_hal_state a b c d e f g h i j _ l m n o) := st in
  mk_hal_state a b c d e f g h i j v l m n o.
Definition set_indicator_init_ack (v : bool) (st : hal_state) : hal_state :=
  let '(mk_hal_state a b c d e f g h i j k _ m n o) := st in
  mk_hal_state a b c d e f g h i j k v m n o.
Definition set_dev_indicator (v : option hw_object) (st : hal_state) : hal_state :=
  let '(mk_hal_state a b c d e f g h i j k l _ n o) := st in
  mk_hal_state a b c d e f g h i j k l v n o.
Definition set_led_ctrl_uses_sysfs (v : bool) (st : hal_state) : hal_state :=
  let '(mk_hal_state a b c d e f g h i j k l m _ o) := st in
  mk_hal_state a b c d e f g h i j k l m v o.
Definition set_hal_calls (v : list hal_call) (st : hal_state) : hal_state :=
  let '(mk_hal_state a b c d e f g h i j k l m n _) := st in
  mk_hal_state a b c d e f g h i j k l m n v.

Definition M (A : Type) : Type := Run.M hal_state A.

(** A call into the HAL: it is recorded, and its number selects the
    answer. *)
Definition hal (c : hal_call) : M nat :=
  fun st => Ok (List.length (hal_calls st))
               (set_hal_calls (hal_calls st ++ [c]) st).

(* ------------------------------------------------------------------ *)
(** *** FRAMEBUFFER module *)

(** [mce_hybris_modfb_load] *)
Definition mce_hybris_modfb_load (env : hal_env) : M bool :=
  do done <- get modfb_load_done ;;
  run when (negb done)
    (run put (set_modfb_load_done true) ;;
     do n <- hal CALL_get_module_fb ;;
     put (set_mod_fb (if env_get_module_fb env n then Some MOD_FB else None))) ;;
  do p <- get mod_fb ;;
  ret (is_set p).

(** [mce_framebuffer_open (mod_fb, &dev_fb)] *)
Definition mce_framebuffer_open (env : hal_env) : M unit :=
  do p <- get mod_fb ;;
  run deref p ;;
  do n <- hal CALL_fb_open ;;
  put (set_dev_fb (if env_fb_open env n then Some DEV_FB else None)).

(** [mce_framebuffer_close (dev_fb)] *)
Definition mce_framebuffer_close : M unit :=
  do p <- get dev_fb ;;
  run deref p ;;
  run hal CALL_fb_close ;;
  ret tt.

(** [mce_hybris_framebuffer_init] *)
Definition mce_hybris_framebuffer_init (env : hal_env) : M bool :=
  do done <- get framebuffer_init_done ;;
  run when (negb done)
    (run put (set_framebuffer_init_done true) ;;
     do loaded <- mce_hybris_modfb_load env ;;
     when loaded (mce_framebuffer_open env)) ;;
  do p <- get dev_fb ;;
  ret (is_set p).

(** [mce_hybris_framebuffer_quit] *)
Definition mce_hybris_framebuffer_quit : M unit :=
  do p <- get dev_fb ;;
  when (is_set p)
    (run mce_framebuffer_close ;;
     put (set_dev_fb None)).

(** [mce_hybris_framebuffer_set_power] *)
Definition mce_hybris_framebuffer_set_power (env : hal_env) (state : bool)
  : M bool :=
  do ok <- mce_hybris_framebuffer_init env ;;
  if negb ok then ret false
  else
    do p <- get dev_fb ;;
    run deref p ;;
    do n <- hal (CALL_enableScreen state) ;;
    if env_enableScreen env n state <? 0 then ret false else ret true.

(** [mce_hybris_modfb_unload] *)
Definition mce_hybris_modfb_unload : M unit := mce_hybris_framebuffer_quit.

(* ------------------------------------------------------------------ *)
(** *** LIGHTS module *)

(** [mce_hybris_modlights_load] *)
Definition mce_hybris_modlights_load (env : hal_env) : M bool :=
  do done <- get modlights_load_done ;;
  run when (negb done)
    (run put (set_modlights_load_done true) ;;
     do n <- hal CALL_get_module_lights ;;
     put (set_mod_lights
            (if env_get_module_lights env n then Some MOD_LIGHTS else None))) ;;
  do p <- get mod_lights ;;
  ret (is_set p).

(** [mce_light_device_open (mod_lights, id, device)]: the pointer the
    device variable gets. *)
Definition mce_light_device_open (env : hal_env) (id : light_id)
  : M (option hw_object) :=
  do p <- get mod_lights ;;
  run deref p ;;
  do n <- hal (CALL_light_open id) ;;
  ret (if env_light_open env n id then Some (DEV_LIGHT id) else None).

(** [mce_light_device_close (device)] *)
Definition mce_light_device_close (device : option hw_object) (id : light_id)
  : M unit :=
  run deref device ;;
  run hal (CALL_light_close id) ;;
  ret tt.

(** [device->set_light (device, &lst)]: the value returned. *)
Definition set_light (env : hal_env) (device : option hw_object)
  (id : light_id) (lst : light_state_t) : M Z :=
  run deref device ;;
  do n <- hal (CALL_set_light id lst) ;;
  ret (env_set_light env n id lst).

(** [mce_hybris_backlight_init] *)
Definition mce_hybris_backlight_init (env : hal_env) : M bool :=
  do done <- get backlight_init_done ;;
  run when (negb done)
    (run put (set_backlight_init_done true) ;;
     do loaded <- mce_hybris_modlights_load env ;;
     when loaded
       (do dev <- mce_light_device_open env LIGHT_ID_BACKLIGHT ;;
        put (set_dev_backlight dev))) ;;
  do p <- get dev_backlight ;;
  ret (is_set p).

(** [mce_hybris_backlight_quit] *)
Definition mce_hybris_backlight_quit : M unit :=
  do p <- get dev_backlight ;;
  when (is_set p)
    (run mce_light_device_close p LIGHT_ID_BACKLIGHT ;;
     put (set_dev_backlight None)).

(** The light state of a backlight at brightness [lev]:
    [(0xff << 24) | (lev << 16) | (lev << 8) | (lev << 0)] as the
    [unsigned int] that [color] is, no flashing. *)
Definition brightness_state (lev : Z) : light_state_t :=
  {| color := uint32 (Z.lor (Z.lor (Z.lor (Z.shiftl 255 24) (Z.shiftl lev 16))
                               (Z.shiftl lev 8)) (Z.shiftl lev 0));
     flashMode := LIGHT_FLASH_NONE;
     flashOnMS := 0;
     flashOffMS := 0;
     brightnessMode := BRIGHTNESS_MODE_USER |}.

(** [mce_hybris_backlight_set_brightness] *)
Definition mce_hybris_backlight_set_brightness (env : hal_env) (level : Z)
  : M bool :=
  let lev := if level <? 0 then 0 else if 255 <? level then 255 else level in
  do ok <- mce_hybris_backlight_init env ;;
  if negb ok then ret false
  else
    do p <- get dev_backlight ;;
    do rc <- set_light env p LIGHT_ID_BACKLIGHT (brightness_state lev) ;;
    if rc <? 0 then ret false else ret true.

(** [mce_hybris_keypad_init] *)
Definition mce_hybris_keypad_init (env : hal_env) : M bool :=
  do done <- get keypad_init_done ;;
  run when (negb done)
    (run put (set_keypad_init_done true) ;;
     do loaded <- mce_hybris_modlights_load env ;;
     when loaded
       (do dev <- mce_light_device_open env LIGHT_ID_KEYBOARD ;;
        put (set_dev_keypad dev))) ;;
  do p <- get dev_keypad ;;
  ret (is_set p).

(** [mce_hybris_keypad_quit] *)
Definition mce_hybris_keypad_quit : M unit :=
  do p <- get dev_keypad ;;
  when (is_set p)
    (run mce_light_device_close p LIGHT_ID_KEYBOARD ;;
     put (set_dev_keypad None)).

(** [mce_hybris_keypad_set_brightness] *)
Definition mce_hybris_keypad_set_brightness (env : hal_env) (level : Z)
  : M bool :=
  let lev := if level <? 0 then 0 else if 255 <? level then 255 else level in
  do ok <- mce_hybris_keypad_init env ;;
  if negb ok then ret false
  else
    do p <- get dev_keypad ;;
    do rc <- set_light env p LIGHT_ID_KEYBOARD (brightness_state lev) ;;
    if rc <? 0 then ret false else ret true.

(** [mce_hybris_indicator_init]: with sysfs controls the request for
    black goes to the controller. *)
Definition mce_hybris_indicator_init (env : hal_env) : M bool :=
  do done <- get indicator_init_done ;;
  if done then get indicator_init_ack
  else
    run put (set_indicator_init_done true) ;;
    run put (set_led_ctrl_uses_sysfs (env_probe_sysfs_files env)) ;;
    do uses_sysfs <- get led_ctrl_uses_sysfs ;;
    if uses_sysfs then
      run put (set_indicator_init_ack true) ;;
      get indicator_init_ack
    else
      do loaded <- mce_hybris_modlights_load env ;;
      if negb loaded then get indicator_init_ack
      else
        do dev <- mce_light_device_open env LIGHT_ID_NOTIFICATIONS ;;
        run put (set_dev_indicator dev) ;;
        if negb (is_set dev) then get indicator_init_ack
        else
          run put (set_indicator_init_ack true) ;;
          get indicator_init_ack.

(** [mce_hybris_indicator_quit]: the release of the sysfs controls is
    in the controller. *)
Definition mce_hybris_indicator_quit : M unit :=
  do p <- get dev_indicator ;;
  when (is_set p)
    (run mce_light_device_close p LIGHT_ID_NOTIFICATIONS ;;
     put (set_dev_indicator None)).

(** The light state of the indicator led for a pattern:
    [(0xff << 24) | (r << 16) | (g << 8) | (b << 0)] as the
    [unsigned int] that [color] is, flashing in hardware when both
    periods are positive. *)
Definition pattern_state (r g b ms_on ms_off : Z) : light_state_t :=
  let flash := (0 <? ms_on) && (0 <? ms_off) in
  {| color := uint32 (Z.lor (Z.lor (Z.lor (Z.shiftl 255 24) (Z.shiftl r 16))
                               (Z.shiftl g 8)) (Z.shiftl b 0));
     flashMode := if flash then LIGHT_FLASH_HARDWARE else LIGHT_FLASH_NONE;
     flashOnMS := if flash then ms_on else 0;
     flashOffMS := if flash then ms_off else 0;
     brightnessMode := BRIGHTNESS_MODE_USER |}.

(** [mce_hybris_indicator_set_pattern]: with sysfs controls the request
    goes to the controller. *)
Definition mce_hybris_indicator_set_pattern (env : hal_env)
  (r g b ms_on ms_off : Z) : M bool :=
  let ms_on := clamp_to_range 0 60000 ms_on in
  let ms_off := clamp_to_range 0 60000 ms_off in
  let short := (ms_on <? 50) || (ms_off <? 50) in
  let ms_on := if short then 0 else ms_on in
  let ms_off := if short then 0 else ms_off in
  let r := clamp_to_range 0 255 r in
  let g := clamp_to_range 0 255 g in
  let b := clamp_to_range 0 255 b in
  do uses_sysfs <- get led_ctrl_uses_sysfs ;;
  if uses_sysfs then ret true
  else
    do ok <- mce_hybris_indicator_init env ;;
    if negb ok then ret false
    else
      do p <- get dev_indicator ;;
      do rc <- set_light env p LIGHT_ID_NOTIFICATIONS
                 (pattern_state r g b ms_on ms_off) ;;
      if rc <? 0 then ret false else ret true.

(** [mce_hybris_modlights_unload] *)
Definition mce_hybris_modlights_unload : M unit :=
  run mce_hybris_backlight_quit ;;
  run mce_hybris_keypad_quit ;;
  mce_hybris_indicator_quit.

(** [mce_hybris_quit], without the sensors. *)
Definition mce_hybris_quit : M unit :=
  run mce_hybris_modfb_unload ;;
  mce_hybris_modlights_unload.

(** The calls a user of the plugin can make. *)
Inductive hal_op : Type :=
| OP_framebuffer_init
| OP_framebuffer_quit
| OP_framebuffer_set_power (state : bool)
| OP_backlight_init
| OP_backlight_quit
| OP_backlight_set_brightness (level : Z)
| OP_keypad_init
| OP_keypad_quit
| OP_keypad_set_brightness (level : Z)
| OP_indicator_init
| OP_indicator_quit
| OP_indicator_set_pattern (r g b ms_on ms_off : Z)
| OP_quit.

Definition hal_op_run (env : hal_env) (op : hal_op) : M unit :=
  match op with
  | OP_framebuffer_init => run mce_hybris_framebuffer_init env ;; ret tt
  | OP_framebuffer_quit => mce_hybris_framebuffer_quit
  | OP_framebuffer_set_power s =>
      run mce_hybris_framebuffer_set_power env s ;; ret tt
  | OP_backlight_init => run mce_hybris_backlight_init env ;; ret tt
  | OP_backlight_quit => mce_hybris_backlight_quit
  | OP_backlight_set_brightness l =>
      run mce_hybris_backlight_set_brightness env l ;; ret tt
  | OP_keypad_init => run mce_hybris_keypad_init env ;; ret tt
  | OP_keypad_quit => mce_hybris_keypad_quit
  | OP_keypad_set_brightness l =>
      run mce_hybris_keypad_set_brightness env l ;; ret tt
  | OP_indicator_init => run mce_hybris_indicator_init env ;; ret tt
  | OP_indicator_quit => mce_hybris_indicator_quit
  | OP_indicator_set_pattern r g b ms_on ms_off =>
      run mce_hybris_indicator_set_pattern env r g b ms_on ms_off ;; ret tt
  | OP_quit => mce_hybris_quit
  end.

Fixpoint hal_ops_run (env : hal_env) (ops : list hal_op) : M unit :=
  match ops with
  | [] => ret tt
  | op :: ops => run hal_op_run env op ;; hal_ops_run env ops
  end.

End Hal.

(* ================================================================== *)
(** ** The libhybris side: sensors *)

(** The sensor functions as the main thread runs them. The worker
    thread that polls for events writes none of the variables below;
    it is started and cancelled here and not modelled further. *)
Module Sensors.

Import Run.

(** [struct sensor_t], the fields that are read. *)
Record sensor_t : Type := mk_sensor {
  handle : Z;
  type : Z
}.

(** [hardware/sensors.h] *)
Definition SENSOR_TYPE_LIGHT : Z := 5.
Definition SENSOR_TYPE_PROXIMITY : Z := 8.

(** The [for] loop of [mce_hybris_modsensors_get_sensor] from index
    [i]; the pointer [&sensor_lut[i]] it leaves in [res] is given by
    the index, [None] is the null pointer. A read past the end of the
    table is out of the model. *)
Fixpoint get_sensor_loop (fuel : nat) (i : Z) (sensor_lut : list sensor_t)
  (sensor_cnt ty : Z) : option Z :=
  match fuel with
  | O => None
  | S fuel =>
      if i <? sensor_cnt then
        match sensor_lut !! Z.to_nat i with
        | Some s =>
            if type s =? ty then Some i
            else get_sensor_loop fuel (i + 1) sensor_lut sensor_cnt ty
        | None => None
        end
      else None
  end.

(** [mce_hybris_modsensors_get_sensor] on the table [sensor_lut] of
    [sensor_cnt] entries. *)
Definition mce_hybris_modsensors_get_sensor (sensor_lut : list sensor_t)
  (sensor_cnt ty : Z) : option Z :=
  get_sensor_loop (Z.to_nat sensor_cnt) 0 sensor_lut sensor_cnt ty.

(** The calls made into the HAL and into pthread. *)
Inductive sensors_call : Type :=
| CALL_get_module_sensors
| CALL_get_sensors_list
| CALL_sensors_open
| CALL_sensors_close
| CALL_activate (h : Z) (enabled : bool)
| CALL_start_thread
| CALL_pthread_cancel (tid : Z)
| CALL_pthread_join (tid : Z).

(** What the calls answer; the first argument is the number of calls
    made before. [env_get_sensors_list] gives the count returned and
    the table; [env_start_thread] the thread id, 0 on failure. *)
Record sensors_env : Type := mk_sensors_env {
  env_get_module_sensors : nat -> bool;
  env_get_sensors_list : nat -> Z * list sensor_t;
  env_sensors_open : nat -> bool;
  env_activate : nat -> Z -> bool -> Z;
  env_start_thread : nat -> Z;
  env_pthread_cancel : nat -> Z
}.

Inductive sensors_object : Type := MOD_SENSORS | DEV_POLL.

(** The variables with static storage. A pointer into the sensor table
    is given by the entry it points to; a hook by the number the user
    gave it. *)
Record sensors_state : Type := mk_sensors_state {
  modsensors_load_done : bool;
  mod_sensors : option sensors_object;
  sensor_lut : list sensor_t;
  sensor_cnt : Z;
  ps_sensor : option sensor_t;
  ps_hook : option nat;
  als_sensor : option sensor_t;
  als_hook : option nat;
  sensors_init_done : bool;
  dev_poll : option sensors_object;
  poll_tid : Z;
  sensors_calls : list sensors_call
}.

Definition sensors_state_init : sensors_state :=
  {| modsensors_load_done := false; mod_sensors := None;
     sensor_lut := []; sensor_cnt := 0;
     ps_sensor := None; ps_hook := None;
     als_sensor := None; als_hook := None;
     sensors_init_done := false; dev_poll := None; poll_tid := 0;
     sensors_calls := [] |}.

Definition set_modsensors_load_done (v : bool) (st : sensors_state)
  : sensors_state :=
  let '(mk_sensors_state _ b c d e f g h i j k l) := st in
  mk_sensors_state v b c d e f g h i j k l.
Definition set_mod_sensors (v : option sensors_object) (st : sensors_state)
  : sensors_state :=
  let '(mk_sensors_state a _ c d e f g h i j k l) := st in
  mk_sensors_state a v c d e f g h i j k l.
Definition set_sensor_lut (v : list sensor_t) (st : sensors_state)
  : sensors_state :=
  let '(mk_sensors_state a b _ d e f g h i j k l) := st in
  mk_sensors_state a b v d e f g h i j k l.
Definition set_sensor_cnt (v : Z) (st : sensors_state) : sensors_state :=
  let '(mk_sensors_state a b c _ e f g h i j k l) := st in
  mk_sensors_state a b c v e f g h i j k l.
Definition set_ps_sensor (v : option sensor_t) (st : sensors_state)
  : sensors_state :=
  let '(mk_sensors_state a b c d _ f g h i j k l) := st in
  mk_sensors_state a b c d v f g h i j k l.
Definition set_ps_hook (v : option nat) (st : sensors_state) : sensors_state :=
  let '(mk_sensors_state a b c d e _ g h i j k l) := st in
  mk_sensors_state a b c d e v g h i j k l.
Definition set_als_sensor (v : option sensor_t) (st : sensors_state)
  : sensors_state :=
  let '(mk_sensors_state a b c d e f _ h i j k l) := st in
  mk_sensors_state a b c d e f v h i j k l.
Definition set_als_hook (v : option nat) (st : sensors_state) : sensors_state :=
  let '(mk_sensors_state a b c d e f g _ i j k l) := st in
  mk_sensors_state a b c d e f g v i j k l.
Definition set_sensors_init_done (v : bool) (st : sensors_state)
  : sensors_state :=
  let '(mk_sensors_state a b c d e f g h _ j k l) := st in
  mk_sensors_state a b c d e f g h v j k l.
Definition set_dev_poll (v : option sensors_object) (st : sensors_state)
  : sensors_state :=
  let '(mk_sensors_state a b c d e f g h i _ k l) := st in
  mk_sensors_state a b c d e f g h i v k l.
Definition set_poll_tid (v : Z) (st : sensors_state) : sensors_state :=
  let '(mk_sensors_state a b c d e f g h i j _ l) := st in
  mk_sensors_state a b c d e f g h i j v l.
Definition set_sensors_calls (v : list sensors_call) (st : sensors_state)
  : sensors_state :=
  let '(mk_sensors_state a b c d e f g h i j k _) := st in
  mk_sensors_state a b c d e f g h i j k v.

Definition M (A : Type) : Type := Run.M sensors_state A.

(** A call into the HAL or pthread: it is recorded, and its number
    selects the answer. *)
Definition call (c : sensors_call) : M nat :=
  fun st => Ok (List.length (sensors_calls st))
               (set_sensors_calls (sensors_calls st ++ [c]) st).

(** The pointer [mce_hybris_modsensors_get_sensor (ty)] returns. *)
Definition get_sensor (ty : Z) : M (option sensor_t) :=
  do lut <- get sensor_lut ;;
  do cnt <- get sensor_cnt ;;
  ret match mce_hybris_modsensors_get_sensor lut cnt ty with
      | Some i => lut !! Z.to_nat i
      | None => None
      end.

(** [mce_hybris_modsensors_load] *)
Definition mce_hybris_modsensors_load (env : sensors_env) : M bool :=
  do done <- get modsensors_load_done ;;
  run when (negb done)
    (run put (set_modsensors_load_done true) ;;
     do n <- call CALL_get_module_sensors ;;
     run put (set_mod_sensors
                (if env_get_module_sensors env n then Some MOD_SENSORS
                 else None)) ;;
     do m <- get mod_sensors ;;
     when (is_set m)
       (run deref m ;;
        do n <- call CALL_get_sensors_list ;;
        run put (set_sensor_lut (snd (env_get_sensors_list env n))) ;;
        run put (set_sensor_cnt (fst (env_get_sensors_list env n))) ;;
        do als <- get_sensor SENSOR_TYPE_LIGHT ;;
        run put (set_als_sensor als) ;;
        do ps <- get_sensor SENSOR_TYPE_PROXIMITY ;;
        put (set_ps_sensor ps))) ;;
  do m <- get mod_sensors ;;
  ret (is_set m).

(** [dev_poll->activate (dev_poll, sensor->handle, enabled)]: the value
    returned. *)
Definition activate (env : sensors_env) (sensor : option sensor_t)
  (enabled : bool) : M Z :=
  do d <- get dev_poll ;;
  run deref d ;;
  do s <- deref sensor ;;
  do n <- call (CALL_activate (handle s) enabled) ;;
  ret (env_activate env n (handle s) enabled).

(** [mce_sensors_open (&mod_sensors->common, &dev_poll)] *)
Definition mce_sensors_open (env : sensors_env) : M unit :=
  do m <- get mod_sensors ;;
  run deref m ;;
  do n <- call CALL_sensors_open ;;
  put (set_dev_poll (if env_sensors_open env n then Some DEV_POLL else None)).

(** [mce_sensors_close (dev_poll)] *)
Definition mce_sensors_close : M unit :=
  do d <- get dev_poll ;;
  run deref d ;;
  run call CALL_sensors_close ;;
  ret tt.

(** [mce_hybris_sensors_init] *)
Definition mce_hybris_sensors_init (env : sensors_env) : M bool :=
  do done <- get sensors_init_done ;;
  run when (negb done)
    (run put (set_sensors_init_done true) ;;
     do loaded <- mce_hybris_modsensors_load env ;;
     when loaded
       (run mce_sensors_open env ;;
        do d <- get dev_poll ;;
        when (is_set d)
          (do ps <- get ps_sensor ;;
           run when (is_set ps) (run activate env ps false ;; ret tt) ;;
           do als <- get als_sensor ;;
           run when (is_set als) (run activate env als false ;; ret tt) ;;
           do n <- call CALL_start_thread ;;
           put (set_poll_tid (env_start_thread env n))))) ;;
  do d <- get dev_poll ;;
  ret (is_set d).

(** [mce_hybris_sensors_quit] *)
Definition mce_hybris_sensors_quit (env : sensors_env) : M unit :=
  do d <- get dev_poll ;;
  when (is_set d)
    (do tid <- get poll_tid ;;
     run when (negb (tid =? 0))
       (do n <- call (CALL_pthread_cancel tid) ;;
        run when (env_pthread_cancel env n =? 0)
          (run call (CALL_pthread_join tid) ;; ret tt) ;;
        put (set_poll_tid 0)) ;;
     do ps <- get ps_sensor ;;
     run when (is_set ps) (run activate env ps false ;; ret tt) ;;
     do als <- get als_sensor ;;
     run when (is_set als) (run activate env als false ;; ret tt) ;;
     run mce_sensors_close ;;
     put (set_dev_poll None)).

(** [mce_hybris_modsensors_unload] *)
Definition mce_hybris_modsensors_unload (env : sensors_env) : M unit :=
  mce_hybris_sensors_quit env.

(** [mce_hybris_ps_init] *)
Definition mce_hybris_ps_init (env : sensors_env) : M bool :=
  do ok <- mce_hybris_sensors_init env ;;
  if negb ok then ret false
  else
    do ps <- get ps_sensor ;;
    if negb (is_set ps) then ret false else ret true.

(** [mce_hybris_ps_quit] *)
Definition mce_hybris_ps_quit : M unit := put (set_ps_hook None).

(** [mce_hybris_ps_set_active] *)
Definition mce_hybris_ps_set_active (env : sensors_env) (state : bool)
  : M bool :=
  do ok <- mce_hybris_ps_init env ;;
  if negb ok then ret false
  else
    do ps <- get ps_sensor ;;
    do rc <- activate env ps state ;;
    if rc <? 0 then ret false else ret true.

(** [mce_hybris_ps_set_hook] *)
Definition mce_hybris_ps_set_hook (cb : option nat) : M unit :=
  put (set_ps_hook cb).

(** [mce_hybris_als_init] *)
Definition mce_hybris_als_init (env : sensors_env) : M bool :=
  do ok <- mce_hybris_sensors_init env ;;
  if negb ok then ret false
  else
    do als <- get als_sensor ;;
    if negb (is_set als) then ret false else ret true.

(** [mce_hybris_als_quit] *)
Definition mce_hybris_als_quit : M unit := put (set_als_hook None).

(** [mce_hybris_als_set_active] *)
Definition mce_hybris_als_set_active (env : sensors_env) (state : bool)
  : M bool :=
  do ok <- mce_hybris_als_init env ;;
  if negb ok then ret false
  else
    do als <- get als_sensor ;;
    do rc <- activate env als state ;;
    if rc <? 0 then ret false else ret true.

(** [mce_hybris_als_set_hook] *)
Definition mce_hybris_als_set_hook (cb : option nat) : M unit :=
  put (set_als_hook cb).

(** The calls a user of the plugin can make. *)
Inductive sensors_op : Type :=
| OP_ps_init
| OP_ps_quit
| OP_ps_set_active (state : bool)
| OP_ps_set_hook (cb : option nat)
| OP_als_init
| OP_als_quit
| OP_als_set_active (state : bool)
| OP_als_set_hook (cb : option nat)
| OP_quit.

Definition sensors_op_run (env : sensors_env) (op : sensors_op) : M unit :=
  match op with
  | OP_ps_init => run mce_hybris_ps_init env ;; ret tt
  | OP_ps_quit => mce_hybris_ps_quit
  | OP_ps_set_active s => run mce_hybris_ps_set_active env s ;; ret tt
  | OP_ps_set_hook cb => mce_hybris_ps_set_hook cb
  | OP_als_init => run mce_hybris_als_init env ;; ret tt
  | OP_als_quit => mce_hybris_als_quit
  | OP_als_set_active s => run mce_hybris_als_set_active env s ;; ret tt
  | OP_als_set_hook cb => mce_hybris_als_set_hook cb
  | OP_quit => mce_hybris_modsensors_unload env
  end.

Fixpoint sensors_ops_run (env : sensors_env) (ops : list sensors_op) : M unit :=
  match ops with
  | [] => ret tt
  | op :: ops => run sensors_op_run env op ;; sensors_ops_run env ops
  end.

End Sensors.

Section Controller.

(** A statement depends on the section variable only when it names it. *)
Set Default Proof Using "Type".

(** The curve samples [(uint8_t)(sinf(a) * 255.0f)] are computed in
    single precision by libm and are not part of the embedding:
    [sinf_sample rising i steps] stands for the value computed for
    [a = i * m_pi_2 / steps] on the rising ramp and for
    [a = m_pi_2 + i * m_pi_2 / steps] on the falling one, before the
    conversion to [uint8_t]. *)
Variable sinf_sample : bool -> Z -> Z -> Z.

(** One of the two [for] loops of [led_ctrl_generate_ramp]: [count]
    iterations starting at [i], each storing a sample at [value[k++]].
    A store past the end of the array is out of the model (the list
    is left as it is). *)
Fixpoint ramp_loop (rising : bool) (count : nat) (i steps k : Z)
  (value : list Z) : Z * list Z :=
  match count with
  | O => (k, value)
  | S count' =>
      ramp_loop rising count' (i + 1) steps (k + 1)
        (<[Z.to_nat k := uint8 (sinf_sample rising i steps)]> value)
  end.

(** [led_ctrl_generate_ramp]: generate intensity curve for use from
    breathing timer. *)
Definition led_ctrl_generate_ramp (ms_on ms_off : Z) (br : led_ctrl_breathe_t)
  : led_ctrl_breathe_t :=
  let t := int_add ms_on ms_off in
  let s := int_div (int_sub (int_add t LED_CTRL_MAX_STEPS) 1) LED_CTRL_MAX_STEPS in
  let s := if s <? LED_CTRL_BREATHING_DELAY then LED_CTRL_BREATHING_DELAY else s in
  let n := int_div (int_sub (int_add t s) 1) s in
  let steps_on := int_div (int_add (int_mul n ms_on) (int_div t 2)) t in
  let steps_off := int_sub n steps_on in
  let '(k, value) := ramp_loop true (Z.to_nat steps_on) 0 steps_on 0 (br_value br) in
  let '(k, value) := ramp_loop false (Z.to_nat steps_off) 0 steps_off k value in
  {| br_step := br_step br; br_steps := k; br_delay := s; br_value := value |}.

(** [led_ctrl_static_cb]: timer callback for setting led. The second
    component is the [gboolean] handed back to the main loop. *)
Definition led_ctrl_static_cb (st : led_ctrl_state) : led_ctrl_state * bool :=
  if led_ctrl_step_id st =? 0 then (st, false)
  else
    let st := set_step_id 0 st in
    let r := req_r (led_ctrl_curr st) in
    let g := req_g (led_ctrl_curr st) in
    let b := req_b (led_ctrl_curr st) in
    let l := req_level (led_ctrl_curr st) in
    let r := led_util_scale_value r l in
    let g := led_util_scale_value g l in
    let b := led_util_scale_value b l in
    let st := led_ctrl_set_rgb_blink (req_on (led_ctrl_curr st))
                                     (req_off (led_ctrl_curr st)) st in
    let st := led_ctrl_set_rgb_value r g b st in
    (st, false).

(** The index wrap at the head of [led_ctrl_step_cb]:
    [if( step >= steps ) step = 0]. *)
Definition breathe_wrap (br : led_ctrl_breathe_t) : led_ctrl_breathe_t :=
  if br_steps br <=? br_step br then br_set_step 0 br else br.

(** [led_ctrl_step_cb]: timer callback for taking a led breathing step. *)
Definition led_ctrl_step_cb (st : led_ctrl_state) : led_ctrl_state * bool :=
  if led_ctrl_step_id st =? 0 then (st, negb (led_ctrl_step_id st =? 0))
  else
    let st := set_breathe (breathe_wrap (led_ctrl_breathe st)) st in
    let r := req_r (led_ctrl_curr st) in
    let g := req_g (led_ctrl_curr st) in
    let b := req_b (led_ctrl_curr st) in
    let l := req_level (led_ctrl_curr st) in
    let r := led_util_scale_value r l in
    let g := led_util_scale_value g l in
    let b := led_util_scale_value b l in
    let i := br_step (led_ctrl_breathe st) in
    let st := set_breathe (br_set_step (i + 1) (led_ctrl_breathe st)) st in
    let v := br_read (br_value (led_ctrl_breathe st)) i in
    let r := led_util_scale_value r v in
    let g := led_util_scale_value g v in
    let b := led_util_scale_value b v in
    let st := led_ctrl_set_rgb_value r g b st in
    (st, negb (led_ctrl_step_id st =? 0)).

(** [led_ctrl_stop_cb]: timer callback from stopping/restarting led. *)
Definition led_ctrl_stop_cb (st : led_ctrl_state) : led_ctrl_state * bool :=
  if led_ctrl_stop_id st =? 0 then (st, false)
  else
    let st := set_stop_id 0 st in
    let st := if reset_blinking st then led_ctrl_set_rgb_blink 0 0 st else st in
    let st :=
      if negb (led_request_has_color (led_ctrl_curr st)) then
        set_reset_blinking true st
      else if 0 <? br_delay (led_ctrl_breathe st) then
        let '(st, id) := g_timeout_add (br_delay (led_ctrl_breathe st)) CB_step st in
        set_step_id id st
      else
        let '(st, id) := g_timeout_add LED_CTRL_KERNEL_DELAY CB_static st in
        set_step_id id st in
    let st :=
      if reset_blinking st then
        set_reset_blinking false (led_ctrl_set_rgb_value 0 0 0 st)
      else st in
    (st, false).

(** [led_ctrl_start]: start static/blinking/breathing led. *)
Definition led_ctrl_start (next : led_request_t) (st : led_ctrl_state)
  : led_ctrl_state :=
  let work := led_request_sanitize next in
  if led_request_is_equal (led_ctrl_curr st) work then st
  else
    let old_style := led_request_get_style (led_ctrl_curr st) in
    let new_style := led_request_get_style work in
    let restart :=
      negb (led_style_eqb old_style STYLE_BREATH &&
            led_style_eqb new_style STYLE_BREATH &&
            led_request_has_equal_timing (led_ctrl_curr st) work) in
    let st := set_curr work st in
    if restart then
      let st :=
        if negb (led_ctrl_step_id st =? 0) then
          set_step_id 0 (g_source_remove (led_ctrl_step_id st) st)
        else st in
      let st := set_breathe (br_set_delay 0 (led_ctrl_breathe st)) st in
      let st :=
        if led_style_eqb new_style STYLE_BREATH then
          set_breathe (led_ctrl_generate_ramp (req_on work) (req_off work)
                                              (led_ctrl_breathe st)) st
        else st in
      if led_ctrl_stop_id st =? 0 then
        let st := set_reset_blinking
                    (led_style_eqb old_style STYLE_BLINK ||
                     led_style_eqb new_style STYLE_BLINK) st in
        let '(st, id) := g_timeout_add LED_CTRL_KERNEL_DELAY CB_stop st in
        set_stop_id id st
      else st
    else st.

(** [led_ctrl_probe_sysfs_files]; what is found on the file system
    comes from the environment. *)
Definition led_ctrl_probe_sysfs_files (env : hybris_env) (st : led_ctrl_state)
  : led_ctrl_state * bool :=
  match env_sysfs_probe env with
  | Some ctl => (set_control ctl st, true)
  | None => (set_control led_control_init st, false)
  end.

(** [mce_hybris_indicator_init] *)
Definition mce_hybris_indicator_init (env : hybris_env) (st : led_ctrl_state)
  : led_ctrl_state * bool :=
  if init_done st then (st, init_ack st)
  else
    let st := set_init_done true st in
    let '(st, probed) := led_ctrl_probe_sysfs_files env st in
    let st := set_uses_sysfs probed st in
    if led_ctrl_uses_sysfs st then
      let req := req_set_color 0 0 0 (led_ctrl_curr st) in
      let st := led_ctrl_start req st in
      let st := set_init_ack true st in
      (st, init_ack st)
    else if negb (env_modlights_load env) then (st, init_ack st)
    else if negb (env_indicator_open env) then (st, init_ack st)
    else
      let st := set_init_ack true st in
      (st, init_ack st).

(** [mce_hybris_indicator_quit] (the sysfs part; the wait for the
    kernel takes time and changes nothing). *)
Definition mce_hybris_indicator_quit (st : led_ctrl_state) : led_ctrl_state :=
  if led_ctrl_uses_sysfs st then
    let st :=
      if negb (led_ctrl_step_id st =? 0) then
        set_step_id 0 (g_source_remove (led_ctrl_step_id st) st)
      else st in
    let st :=
      if negb (led_ctrl_stop_id st =? 0) then
        set_stop_id 0 (g_source_remove (led_ctrl_stop_id st) st)
      else st in
    let st := led_ctrl_set_rgb_blink 0 0 st in
    let st := led_ctrl_set_rgb_value 0 0 0 st in
    set_control led_control_init st
  else st.

(** [mce_hybris_indicator_set_pattern] *)
Definition mce_hybris_indicator_set_pattern (env : hybris_env)
  (r g b ms_on ms_off : Z) (st : led_ctrl_state) : led_ctrl_state * bool :=
  let ms_on := clamp_to_range 0 60000 ms_on in
  let ms_off := clamp_to_range 0 60000 ms_off in
  let short := (ms_on <? 50) || (ms_off <? 50) in
  let ms_on := if short then 0 else ms_on in
  let ms_off := if short then 0 else ms_off in
  let r := clamp_to_range 0 255 r in
  let g := clamp_to_range 0 255 g in
  let b := clamp_to_range 0 255 b in
  if led_ctrl_uses_sysfs st then
    let req := led_ctrl_curr st in
    let req := req_set_color r g b req in
    let req := req_set_timing ms_on ms_off (req_breathe req) req in
    let st := led_ctrl_start req st in
    (st, true)
  else
    let '(st, ok) := mce_hybris_indicator_init env st in
    if negb ok then (st, false)
    else if negb (env_set_light env) then (st, false)
    else (st, true).

(** [mce_hybris_indicator_enable_breathing] *)
Definition mce_hybris_indicator_enable_breathing (enable : bool)
  (st : led_ctrl_state) : led_ctrl_state :=
  if negb (led_ctrl_uses_sysfs st) then st
  else
    let work := req_set_breathe enable (led_ctrl_curr st) in
    led_ctrl_start work st.

(** [mce_hybris_indicator_set_brightness] *)
Definition mce_hybris_indicator_set_brightness (level : Z)
  (st : led_ctrl_state) : led_ctrl_state * bool :=
  if negb (led_ctrl_uses_sysfs st) then (st, true)
  else
    let level := clamp_to_range 1 255 level in
    let work := req_set_level level (led_ctrl_curr st) in
    (led_ctrl_start work st, true).

(** The function a source runs when its timeout expires. *)
Definition timer_cb_run (cb : timer_cb) (st : led_ctrl_state)
  : led_ctrl_state * bool :=
  match cb with
  | CB_stop => led_ctrl_stop_cb st
  | CB_step => led_ctrl_step_cb st
  | CB_static => led_ctrl_static_cb st
  end.

(** One dispatch of the GLib main loop for the source [id]: nothing
    happens when no such source is attached; otherwise its callback
    runs and a [FALSE] result detaches the source. *)
Definition main_loop_dispatch (id : Z) (st : led_ctrl_state) : led_ctrl_state :=
  match List.find (fun s => src_id s =? id) (loop_sources st) with
  | None => st
  | Some s =>
      let '(st', again) := timer_cb_run (src_cb s) st in
      if again then st' else g_source_remove id st'
  end.

(** The operations on the controller: the public entry points and the
    expiry of a timeout. *)
Inductive led_op : Type :=
| OP_init (env : hybris_env)
| OP_set_pattern (env : hybris_env) (r g b ms_on ms_off : Z)
| OP_enable_breathing (enable : bool)
| OP_set_brightness (level : Z)
| OP_timeout (id : Z)
| OP_quit.

Definition led_op_run (op : led_op) (st : led_ctrl_state) : led_ctrl_state :=
  match op with
  | OP_init env => fst (mce_hybris_indicator_init env st)
  | OP_set_pattern env r g b ms_on ms_off =>
      fst (mce_hybris_indicator_set_pattern env r g b ms_on ms_off st)
  | OP_enable_breathing enable => mce_hybris_indicator_enable_breathing enable st
  | OP_set_brightness level => fst (mce_hybris_indicator_set_brightness level st)
  | OP_timeout id => main_loop_dispatch id st
  | OP_quit => mce_hybris_indicator_quit st
  end.

(** The state after a sequence of operations, oldest first. *)
Definition led_ops_run (ops : list led_op) (st : led_ctrl_state) : led_ctrl_state :=
  fold_left (fun st op => led_op_run op st) ops st.

(* ================================================================ *)
(** ** Notions used in the statements *)

(** Ceiling of [a / b] for positive [b]. *)
Definition ceil_div (a b : Z) : Z := - ((- a) / b).

(** The integer nearest to [a / b] for positive [b] (halves go up):
    the floor of [a / b + 1 / 2]. *)
Definition round_nearest (a b : Z) : Z := (2 * a + b) / (2 * b).

(** [x] forced into the interval from [lo] to [hi]. *)
Definition clamp (lo hi x : Z) : Z := Z.max lo (Z.min x hi).

(** No channel of the request is positive. *)
Definition no_color (q : led_request_t) : Prop :=
  req_r q <= 0 /\ req_g q <= 0 /\ req_b q <= 0.

(** The color channels of a request lie in 0 ... 255. *)
Definition color_in_range (q : led_request_t) : Prop :=
  0 <= req_r q <= 255 /\ 0 <= req_g q <= 255 /\ 0 <= req_b q <= 255.

(** The periods of a request lie in what [set_pattern] lets through. *)
Definition timing_in_range (q : led_request_t) : Prop :=
  0 <= req_on q <= 60000 /\ 0 <= req_off q <= 60000.

(** The request [set_pattern] builds from the current state. *)
Definition set_pattern_request (r g b ms_on ms_off : Z) (curr : led_request_t)
  : led_request_t :=
  let on1 := clamp 0 60000 ms_on in
  let off1 := clamp 0 60000 ms_off in
  let short := (on1 <? 50) || (off1 <? 50) in
  {| req_r := clamp 0 255 r; req_g := clamp 0 255 g; req_b := clamp 0 255 b;
     req_on := if short then 0 else on1;
     req_off := if short then 0 else off1;
     req_level := req_level curr;
     req_breathe := req_breathe curr |}.

(** The index [led_ctrl_step_cb] reads [value[]] at when it runs in
    [st]; [None] when it leaves without reading. *)
Definition step_cb_index (st : led_ctrl_state) : option Z :=
  if led_ctrl_step_id st =? 0 then None
  else Some (br_step (breathe_wrap (led_ctrl_breathe st))).

(** The curve table is consistent: counters within the array, and a
    nonzero delay comes with a nonempty curve. *)
Definition ramp_ok (br : led_ctrl_breathe_t) : Prop :=
  0 <= br_step br <= LED_CTRL_MAX_STEPS /\
  0 <= br_steps br <= LED_CTRL_MAX_STEPS /\
  length (br_value br) = Z.to_nat LED_CTRL_MAX_STEPS /\
  (0 < br_delay br -> 1 <= br_steps br).

(** The attached sources agree with the two timer id variables. There
    are four shapes: nothing attached and both ids zero; only the stop
    timer attached; only the step timer attached, which needs a
    nonzero delay; only the one-shot timer of [led_ctrl_static_cb]
    attached. Ids handed out so far are below the next free one. *)
Definition timers_shape (srcs : list timer_source) (next : positive)
  (stop_id step_id delay : Z) : Prop :=
  (srcs = [] /\ stop_id = 0 /\ step_id = 0) \/
  (exists id iv, srcs = [mk_source id iv CB_stop] /\ stop_id = id /\ step_id = 0 /\
                 0 < id < Z.pos next) \/
  (exists id iv, srcs = [mk_source id iv CB_step] /\ stop_id = 0 /\ step_id = id /\
                 0 < id < Z.pos next /\ 0 < delay) \/
  (exists id iv, srcs = [mk_source id iv CB_static] /\ stop_id = 0 /\ step_id = id /\
                 0 < id < Z.pos next).

Definition timers_ok (st : led_ctrl_state) : Prop :=
  timers_shape (loop_sources st) (loop_next_id st) (led_ctrl_stop_id st)
    (led_ctrl_step_id st) (br_delay (led_ctrl_breathe st)).

(** The invariant of the controller. *)
Definition ctrl_inv (st : led_ctrl_state) : Prop :=
  timing_in_range (led_ctrl_curr st) /\
  ramp_ok (led_ctrl_breathe st) /\
  timers_ok st.

(** Inputs of the examples: a constant stand-in for the libm samples,
    an environment in which the vanilla backend is found, and a
    sequence of operations that starts breathing with a 2000 ms
    period, lets the step timer expire 50 times and then shortens the
    period to 280 ms. *)
Definition sample_full : bool -> Z -> Z -> Z := fun _ _ _ => 255.

(** Samples that tell the two ramps and the positions apart: the
    position on the rising ramp, 200 minus the position on the falling
    one. *)
Definition sample_linear : bool -> Z -> Z -> Z :=
  fun rising i _ => if rising then i else 200 - i.

Definition env_vanilla : hybris_env :=
  {| env_sysfs_probe :=
       Some {| ctl_backend := Some BACKEND_VANILLA;
               ctl_maxval_r := 255; ctl_maxval_g := 255; ctl_maxval_b := 255 |};
     env_modlights_load := false;
     env_indicator_open := false;
     env_set_light := false |}.

Definition ops_breathe : list led_op :=
  [OP_init env_vanilla;
   OP_set_pattern env_vanilla 255 0 0 1000 1000;
   OP_enable_breathing true;
   OP_timeout 1].

Definition ops_shorten : list led_op :=
  ops_breathe ++ repeat (OP_timeout 2) 50 ++
  [OP_set_pattern env_vanilla 255 0 0 140 140].

(** The controller while it breathes red, 50 steps into the curve. *)
Definition state_breathing : led_ctrl_state :=
  led_ops_run (ops_breathe ++ repeat (OP_timeout 2) 50) led_ctrl_state_init.

Definition request_red : led_request_t :=
  {| req_r := 255; req_g := 0; req_b := 0;
     req_on := 1000; req_off := 1000; req_level := 255; req_breathe := true |}.

Definition request_green : led_request_t :=
  {| req_r := 0; req_g := 255; req_b := 0;
     req_on := 1000; req_off := 1000; req_level := 255; req_breathe := true |}.

(** The trace of sysfs writes does not end in the middle of an update:
    its last entry, if any, is a value write or, on the hammerhead
    backend, the enable that follows a value write. *)
Definition log_settled (log : list sysfs_write) : Prop :=
  match last log with
  | None => True
  | Some (WR_VALUE _ _ _) => True
  | Some (WR_ENABLE true) => True
  | Some _ => False
  end.

(** The state after [n] expiries of the step timer. *)
Definition step_fires (n : nat) (st : led_ctrl_state) : led_ctrl_state :=
  Nat.iter n (fun s => fst (led_ctrl_step_cb s)) st.

(** The periods are both zero or both within 50 ... 60000 ms. *)
Definition timing_settled (q : led_request_t) : Prop :=
  (req_on q = 0 /\ req_off q = 0) \/
  (50 <= req_on q <= 60000 /\ 50 <= req_off q <= 60000).

(** The delay of the curve table follows the style of the current
    request. *)
Definition breathe_follows_style (st : led_ctrl_state) : Prop :=
  (led_request_get_style (led_ctrl_curr st) = STYLE_BREATH ->
   20 <= br_delay (led_ctrl_breathe st) /\ 1 <= br_steps (led_ctrl_breathe st)) /\
  (led_request_get_style (led_ctrl_curr st) <> STYLE_BREATH ->
   br_delay (led_ctrl_breathe st) = 0).

(** What holds of the parts of the state the timers do not touch: the
    current request is sanitized with level and periods in range; once
    sysfs is in use the probing is done and the channels are in range;
    before that nothing has been written or armed. *)
Definition request_inv (st : led_ctrl_state) : Prop :=
  led_request_sanitize (led_ctrl_curr st) = led_ctrl_curr st /\
  1 <= req_level (led_ctrl_curr st) <= 255 /\
  timing_settled (led_ctrl_curr st) /\
  breathe_follows_style st /\
  log_settled (sysfs_log st) /\
  (if led_ctrl_uses_sysfs st
   then color_in_range (led_ctrl_curr st) /\ init_done st = true
   else led_ctrl_curr st = led_ctrl_curr_init /\
        sysfs_log st = [] /\ loop_sources st = [] /\
        ctl_backend (led_control st) = None).

(** More inputs of the examples: an environment without any sysfs
    backend, the operations up to the first pending stop timer, and the
    operations up to a pending one-shot timer of the static callback. *)
Definition env_without_sysfs : hybris_env :=
  {| env_sysfs_probe := None;
     env_modlights_load := false;
     env_indicator_open := false;
     env_set_light := false |}.

Definition ops_init : list led_op := [OP_init env_vanilla].

Definition ops_static : list led_op :=
  [OP_init env_vanilla; OP_set_pattern env_vanilla 255 0 0 0 0; OP_timeout 1].

(* ------------------------------------------------------------------ *)
(** *** Notions used in the statements about the libhybris side *)

(** Byte [k] of a color, counted from the least significant one. *)
Definition color_byte (k : Z) (c : Z) : Z := Z.land (Z.shiftr c (8 * k)) 255.

(** The state a run ends in. *)
Definition final_state {S A : Type} (r : Run.outcome S A) : S :=
  match r with
  | Run.Ok _ st => st
  | Run.Null_dereference st => st
  end.

(** The run ended in a call through a null pointer. *)
Definition crashed {S A : Type} (r : Run.outcome S A) : bool :=
  match r with
  | Run.Ok _ _ => false
  | Run.Null_dereference _ => true
  end.

Definition is_set_pattern (op : Hal.hal_op) : bool :=
  match op with
  | Hal.OP_indicator_set_pattern _ _ _ _ _ => true
  | _ => false
  end.

(** What holds of the variables of [mce_hybris_indicator_init] in every
    state the calls can reach: before the first [init] nothing is set,
    and an open device means a successful [init] without sysfs. *)
Definition indicator_inv (st : Hal.hal_state) : Prop :=
  (Hal.indicator_init_done st = false ->
   Hal.indicator_init_ack st = false /\ Hal.dev_indicator st = None /\
   Hal.led_ctrl_uses_sysfs st = false) /\
  (Hal.dev_indicator st <> None ->
   Hal.indicator_init_done st = true /\ Hal.indicator_init_ack st = true /\
   Hal.led_ctrl_uses_sysfs st = false).

(** The periods [mce_hybris_indicator_set_pattern] works with: clamped
    to 0 ... 60000, and both 0 when one of them is below 50. *)
Definition pattern_period (ms ms_other : Z) : Z :=
  if (clamp 0 60000 ms <? 50) || (clamp 0 60000 ms_other <? 50) then 0
  else clamp 0 60000 ms.

(** The life of a HAL object, read off the calls: it is obtained
    ([hw_get_module] for a module, [open] for a device), then used
    (a module to open a device, a device for [set_light] or
    [enableScreen]), then closed. *)
Inductive call_role : Type := ROLE_obtain | ROLE_use | ROLE_close.

Inductive object_phase : Type := Fresh | Obtained | Closed | Violation.

Definition light_id_eqb (a b : Hal.light_id) : bool :=
  match a, b with
  | Hal.LIGHT_ID_BACKLIGHT, Hal.LIGHT_ID_BACKLIGHT => true
  | Hal.LIGHT_ID_KEYBOARD, Hal.LIGHT_ID_KEYBOARD => true
  | Hal.LIGHT_ID_NOTIFICATIONS, Hal.LIGHT_ID_NOTIFICATIONS => true
  | _, _ => false
  end.

(** What a call does with an object, if it is about it. *)
Definition role_of (x : Hal.hw_object) (c : Hal.hal_call) : option call_role :=
  match x, c with
  | Hal.MOD_FB, Hal.CALL_get_module_fb => Some ROLE_obtain
  | Hal.MOD_FB, Hal.CALL_fb_open => Some ROLE_use
  | Hal.MOD_LIGHTS, Hal.CALL_get_module_lights => Some ROLE_obtain
  | Hal.MOD_LIGHTS, Hal.CALL_light_open _ => Some ROLE_use
  | Hal.DEV_FB, Hal.CALL_fb_open => Some ROLE_obtain
  | Hal.DEV_FB, Hal.CALL_enableScreen _ => Some ROLE_use
  | Hal.DEV_FB, Hal.CALL_fb_close => Some ROLE_close
  | Hal.DEV_LIGHT id, Hal.CALL_light_open id' =>
      if light_id_eqb id id' then Some ROLE_obtain else None
  | Hal.DEV_LIGHT id, Hal.CALL_set_light id' _ =>
      if light_id_eqb id id' then Some ROLE_use else None
  | Hal.DEV_LIGHT id, Hal.CALL_light_close id' =>
      if light_id_eqb id id' then Some ROLE_close else None
  | _, _ => None
  end.

(** An object is obtained once, used only while it is held, and closed
    once; anything else is a violation. *)
Definition phase_step (x : Hal.hw_object) (ph : object_phase) (c : Hal.hal_call)
  : object_phase :=
  match role_of x c with
  | None => ph
  | Some ROLE_obtain => match ph with Fresh => Obtained | _ => Violation end
  | Some ROLE_use => match ph with Obtained => Obtained | _ => Violation end
  | Some ROLE_close => match ph with Obtained => Closed | _ => Violation end
  end.

Definition phase_of (x : Hal.hw_object) (calls : list Hal.hal_call)
  : object_phase :=
  fold_left (phase_step x) calls Fresh.

Definition conforms (x : Hal.hw_object) (calls : list Hal.hal_call) : bool :=
  match phase_of x calls with
  | Violation => false
  | _ => true
  end.

(** The [done] flag and the pointer variable of an object. *)
Definition object_done (x : Hal.hw_object) (st : Hal.hal_state) : bool :=
  match x with
  | Hal.MOD_FB => Hal.modfb_load_done st
  | Hal.MOD_LIGHTS => Hal.modlights_load_done st
  | Hal.DEV_FB => Hal.framebuffer_init_done st
  | Hal.DEV_LIGHT Hal.LIGHT_ID_BACKLIGHT => Hal.backlight_init_done st
  | Hal.DEV_LIGHT Hal.LIGHT_ID_KEYBOARD => Hal.keypad_init_done st
  | Hal.DEV_LIGHT Hal.LIGHT_ID_NOTIFICATIONS => Hal.indicator_init_done st
  end.

Definition object_pointer (x : Hal.hw_object) (st : Hal.hal_state)
  : option Hal.hw_object :=
  match x with
  | Hal.MOD_FB => Hal.mod_fb st
  | Hal.MOD_LIGHTS => Hal.mod_lights st
  | Hal.DEV_FB => Hal.dev_fb st
  | Hal.DEV_LIGHT Hal.LIGHT_ID_BACKLIGHT => Hal.dev_backlight st
  | Hal.DEV_LIGHT Hal.LIGHT_ID_KEYBOARD => Hal.dev_keypad st
  | Hal.DEV_LIGHT Hal.LIGHT_ID_NOTIFICATIONS => Hal.dev_indicator st
  end.

Definition protocol_inv (x : Hal.hw_object) (st : Hal.hal_state) : Prop :=
  (object_done x st = false -> phase_of x (Hal.hal_calls st) = Fresh) /\
  (object_pointer x st <> None -> phase_of x (Hal.hal_calls st) = Obtained) /\
  (phase_of x (Hal.hal_calls st) = Fresh \/
   phase_of x (Hal.hal_calls st) = Obtained \/
   phase_of x (Hal.hal_calls st) = Closed).

(** A HAL in which every call succeeds, with or without sysfs
    controls for the indicator led. *)
Definition hal_env_ok (sysfs : bool) : Hal.hal_env :=
  {| Hal.env_get_module_fb := fun _ => true;
     Hal.env_get_module_lights := fun _ => true;
     Hal.env_fb_open := fun _ => true;
     Hal.env_enableScreen := fun _ _ => 0;
     Hal.env_light_open := fun _ _ => true;
     Hal.env_set_light := fun _ _ _ => 0;
     Hal.env_probe_sysfs_files := sysfs |}.

(** A table of three sensors. *)
Definition sensor_lut_sample : list Sensors.sensor_t :=
  [Sensors.mk_sensor 1 1; Sensors.mk_sensor 2 8; Sensors.mk_sensor 3 5].

(** The entry of the sensor table that
    [mce_hybris_modsensors_get_sensor] points to for a type. *)
Definition sensor_found (lut : list Sensors.sensor_t) (cnt ty : Z)
  : option Sensors.sensor_t :=
  match Sensors.mce_hybris_modsensors_get_sensor lut cnt ty with
  | Some i => lut !! Z.to_nat i
  | None => None
  end.

(** The calls [mce_hybris_sensors_quit] makes for the worker thread and
    for a sensor. *)
Definition thread_stop_calls (env : Sensors.sensors_env) (n : nat) (tid : Z)
  : list Sensors.sensors_call :=
  if tid =? 0 then []
  else
    Sensors.CALL_pthread_cancel tid ::
    (if Sensors.env_pthread_cancel env n =? 0
     then [Sensors.CALL_pthread_join tid] else []).

Definition deactivate_calls (sensor : option Sensors.sensor_t)
  : list Sensors.sensors_call :=
  match sensor with
  | Some s => [Sensors.CALL_activate (Sensors.handle s) false]
  | None => []
  end.

(** A HAL with a light sensor and a proximity sensor, in which every
    call succeeds. *)
Definition sensors_env_ok : Sensors.sensors_env :=
  {| Sensors.env_get_module_sensors := fun _ => true;
     Sensors.env_get_sensors_list := fun _ => (3, sensor_lut_sample);
     Sensors.env_sensors_open := fun _ => true;
     Sensors.env_activate := fun _ _ _ => 0;
     Sensors.env_start_thread := fun _ => 7;
     Sensors.env_pthread_cancel := fun _ => 0 |}.

(** How many of the calls made satisfy [p]. *)
Definition calls_count (p : Sensors.sensors_call -> bool)
  (calls : list Sensors.sensors_call) : nat :=
  List.length (List.filter p calls).

Definition is_get_module_sensors (c : Sensors.sensors_call) : bool :=
  match c with Sensors.CALL_get_module_sensors => true | _ => false end.
Definition is_get_sensors_list (c : Sensors.sensors_call) : bool :=
  match c with Sensors.CALL_get_sensors_list => true | _ => false end.
Definition is_sensors_open (c : Sensors.sensors_call) : bool :=
  match c with Sensors.CALL_sensors_open => true | _ => false end.
Definition is_sensors_close (c : Sensors.sensors_call) : bool :=
  match c with Sensors.CALL_sensors_close => true | _ => false end.
Definition is_start_thread (c : Sensors.sensors_call) : bool :=
  match c with Sensors.CALL_start_thread => true | _ => false end.
Definition is_pthread_cancel (c : Sensors.sensors_call) : bool :=
  match c with Sensors.CALL_pthread_cancel _ => true | _ => false end.

(** What the sensor functions keep true of the static variables and of
    the calls made. *)
Definition sensors_inv (st : Sensors.sensors_state) : Prop :=
  let n p := calls_count p (Sensors.sensors_calls st) in
  Sensors.ps_sensor st =
    sensor_found (Sensors.sensor_lut st) (Sensors.sensor_cnt st)
      Sensors.SENSOR_TYPE_PROXIMITY /\
  Sensors.als_sensor st =
    sensor_found (Sensors.sensor_lut st) (Sensors.sensor_cnt st)
      Sensors.SENSOR_TYPE_LIGHT /\
  (if Sensors.modsensors_load_done st
   then n is_get_module_sensors = 1%nat /\
        n is_get_sensors_list =
          (if Run.is_set (Sensors.mod_sensors st) then 1%nat else 0%nat)
   else n is_get_module_sensors = 0%nat /\ n is_get_sensors_list = 0%nat /\
        Sensors.mod_sensors st = None /\
        Sensors.sensors_init_done st = false) /\
  (if Sensors.sensors_init_done st
   then n is_sensors_open =
          (if Run.is_set (Sensors.mod_sensors st) then 1%nat else 0%nat)
   else n is_sensors_open = 0%nat /\ n is_start_thread = 0%nat /\
        Sensors.dev_poll st = None) /\
  match Sensors.dev_poll st with
  | Some _ =>
      n is_start_thread = 1%nat /\ n is_sensors_close = 0%nat /\
      n is_pthread_cancel = 0%nat /\ Sensors.mod_sensors st <> None /\
      Sensors.sensors_init_done st = true
  | None =>
      (n is_start_thread <= 1)%nat /\
      n is_sensors_close = n is_start_thread /\
      (n is_pthread_cancel <= n is_start_thread)%nat /\
      Sensors.poll_tid st = 0
  end.

(* ================================================================ *)
(** ** C integer arithmetic: no reduction inside the range *)

Lemma int_wrap_id x : INT_MIN <= x <= INT_MAX -> int_wrap x = x.
Proof.
  unfold INT_MIN, INT_MAX, int_wrap. intros H.
  rewrite Z.mod_small by lia. lia.
Qed.

Lemma int_add_id a b : INT_MIN <= a + b <= INT_MAX -> int_add a b = a + b.
Proof. apply int_wrap_id. Qed.

Lemma int_sub_id a b : INT_MIN <= a - b <= INT_MAX -> int_sub a b = a - b.
Proof. apply int_wrap_id. Qed.

Lemma int_mul_id a b : INT_MIN <= a * b <= INT_MAX -> int_mul a b = a * b.
Proof. apply int_wrap_id. Qed.

(** Truncating and flooring division agree on non-negative operands. *)
Lemma int_div_nonneg a b :
  0 <= a <= INT_MAX -> 0 < b -> int_div a b = a / b.
Proof.
  intros Ha Hb. unfold int_div.
  rewrite Z.quot_div_nonneg by lia.
  apply int_wrap_id. unfold INT_MIN, INT_MAX in *.
  assert (0 <= a / b) by (apply Z.div_pos; lia).
  assert (a / b <= a) by (apply Z.div_le_upper_bound; nia).
  lia.
Qed.

(* ================================================================ *)
(** ** The request model *)

(** Case analysis on every integer comparison in the goal. *)
Ltac split_tests :=
  repeat match goal with
         | |- context [?a <? ?b] => destruct (Z.ltb_spec a b)
         | |- context [?a <=? ?b] => destruct (Z.leb_spec a b)
         | |- context [?a =? ?b] => destruct (Z.eqb_spec a b)
         end.

Ltac req_crush :=
  unfold no_color, led_request_sanitize, led_request_get_style,
    led_request_has_color, req_set_timing, req_set_breathe,
    LED_CTRL_BREATHING_DELAY, LED_CTRL_MIN_STEPS in *;
  cbn [req_r req_g req_b req_on req_off req_level req_breathe] in *;
  split_tests;
  cbn [negb orb andb req_r req_g req_b req_on req_off req_level req_breathe] in *.

Lemma has_color_false_iff q : led_request_has_color q = false <-> no_color q.
Proof.
  unfold led_request_has_color, no_color.
  rewrite !orb_false_iff, !Z.ltb_ge. tauto.
Qed.

Lemma has_color_true_iff q : led_request_has_color q = true <-> ~ no_color q.
Proof.
  rewrite <- has_color_false_iff. destruct (led_request_has_color q); split;
    congruence.
Qed.

Lemma sanitize_color q :
  req_r (led_request_sanitize q) = req_r q /\
  req_g (led_request_sanitize q) = req_g q /\
  req_b (led_request_sanitize q) = req_b q /\
  req_level (led_request_sanitize q) = req_level q.
Proof. destruct q. req_crush; auto. Qed.

Lemma sanitize_has_color q :
  led_request_has_color (led_request_sanitize q) = led_request_has_color q.
Proof.
  unfold led_request_has_color.
  destruct (sanitize_color q) as (-> & -> & -> & _). reflexivity.
Qed.

(** C2. Sanitization applies, in this order: a request with no positive
    channel gets both periods set to 0 and breathing cleared; otherwise
    a request with a non-positive period gets the same; otherwise a
    request with a period below 140 ms gets breathing cleared and keeps
    its periods; otherwise it is returned unchanged. Color channels and
    brightness level are never modified. *)
Theorem led_request_sanitize_rules (q : led_request_t) :
  let s := led_request_sanitize q in
  (req_r s = req_r q /\ req_g s = req_g q /\ req_b s = req_b q /\
   req_level s = req_level q) /\
  (no_color q ->
     req_on s = 0 /\ req_off s = 0 /\ req_breathe s = false) /\
  (~ no_color q -> req_on q <= 0 \/ req_off q <= 0 ->
     req_on s = 0 /\ req_off s = 0 /\ req_breathe s = false) /\
  (~ no_color q -> 0 < req_on q -> 0 < req_off q ->
   req_on q < 20 * 7 \/ req_off q < 20 * 7 ->
     req_on s = req_on q /\ req_off s = req_off q /\ req_breathe s = false) /\
  (~ no_color q -> 20 * 7 <= req_on q -> 20 * 7 <= req_off q -> s = q).
Proof.
  destruct q as [r g b on off level breathe]. cbv zeta.
  split; [apply sanitize_color|].
  req_crush; repeat split; intros; try reflexivity; try lia; tauto.
Qed.

(** C6. The style of a sanitized request is OFF exactly when no channel
    of the request is positive, whatever periods and breathing flag
    were supplied; otherwise STATIC when a period is not positive;
    otherwise BREATH when the breathing flag is set; otherwise BLINK. *)
Theorem led_request_get_style_spec (q : led_request_t) :
  let s := led_request_sanitize q in
  (led_request_get_style s = STYLE_OFF <-> no_color q) /\
  (no_color s <-> no_color q) /\
  (~ no_color s -> req_on s <= 0 \/ req_off s <= 0 ->
     led_request_get_style s = STYLE_STATIC) /\
  (~ no_color s -> 0 < req_on s -> 0 < req_off s -> req_breathe s = true ->
     led_request_get_style s = STYLE_BREATH) /\
  (~ no_color s -> 0 < req_on s -> 0 < req_off s -> req_breathe s = false ->
     led_request_get_style s = STYLE_BLINK).
Proof.
  cbv zeta.
  assert (Hc : no_color (led_request_sanitize q) <-> no_color q).
  { rewrite <- !has_color_false_iff. now rewrite sanitize_has_color. }
  split; [|split; [exact Hc|]].
  - rewrite <- Hc. generalize (led_request_sanitize q) as s. intros s.
    rewrite <- has_color_false_iff. unfold led_request_get_style.
    destruct (led_request_has_color s); cbn [negb];
      [|split; reflexivity].
    destruct (_ || _); [|destruct (req_breathe s)]; split; discriminate.
  - generalize (led_request_sanitize q) as s. intros s.
    unfold led_request_get_style. rewrite <- has_color_false_iff.
    destruct (led_request_has_color s); cbn [negb].
    + repeat split; intros _.
      * intros Ht. replace (_ || _) with true; [reflexivity|].
        symmetry. apply orb_true_iff. rewrite !Z.leb_le. exact Ht.
      * intros Hon Hoff ->.
        replace (_ || _) with false; [reflexivity|].
        symmetry. apply orb_false_iff. rewrite !Z.leb_gt. auto.
      * intros Hon Hoff ->.
        replace (_ || _) with false; [reflexivity|].
        symmetry. apply orb_false_iff. rewrite !Z.leb_gt. auto.
    + repeat split; intros H; exfalso; apply H; reflexivity.
Qed.

(** The four rules of sanitization, with the conditions under which
    each applies. *)
Lemma sanitize_cases (q : led_request_t) :
  (no_color q /\ led_request_sanitize q = req_set_timing 0 0 false q) \/
  (~ no_color q /\ (req_on q <= 0 \/ req_off q <= 0) /\
   led_request_sanitize q = req_set_timing 0 0 false q) \/
  (~ no_color q /\ 0 < req_on q /\ 0 < req_off q /\
   (req_on q < 140 \/ req_off q < 140) /\
   led_request_sanitize q = req_set_breathe false q) \/
  (~ no_color q /\ 140 <= req_on q /\ 140 <= req_off q /\
   led_request_sanitize q = q).
Proof.
  unfold led_request_sanitize.
  destruct (led_request_has_color q) eqn:Hc; cbn [negb].
  - apply has_color_true_iff in Hc.
    destruct (_ || _) eqn:H0.
    + apply orb_true_iff in H0. rewrite !Z.leb_le in H0. tauto.
    + apply orb_false_iff in H0. rewrite !Z.leb_gt in H0.
      unfold LED_CTRL_BREATHING_DELAY, LED_CTRL_MIN_STEPS.
      destruct (_ || _) eqn:H1.
      * apply orb_true_iff in H1. rewrite !Z.ltb_lt in H1.
        right; right; left. repeat split; try tauto; lia.
      * apply orb_false_iff in H1. rewrite !Z.ltb_ge in H1.
        right; right; right. repeat split; try tauto; lia.
  - apply has_color_false_iff in Hc. left. tauto.
Qed.

(** C10. Sanitization is idempotent; in a sanitized request the on
    period is positive exactly when the off period is, and a set
    breathing flag comes with both periods of at least 140 ms. *)
Theorem led_request_sanitize_idempotent (q : led_request_t) :
  let s := led_request_sanitize q in
  led_request_sanitize s = s /\
  (0 < req_on s <-> 0 < req_off s) /\
  (req_breathe s = true -> 140 <= req_on s /\ 140 <= req_off s).
Proof.
  cbv zeta.
  destruct (sanitize_cases q)
    as [(Hc & ->)|[(Hc & Ht & ->)|[(Hc & Hon & Hoff & Ht & ->)|(Hc & Hon & Hoff & ->)]]].
  - split; [|cbn; split; [lia|discriminate]].
    destruct (sanitize_cases (req_set_timing 0 0 false q))
      as [(_ & ->)|[(Hc' & _)|[(Hc' & _)|(Hc' & _)]]];
      try reflexivity; exfalso; apply Hc'; exact Hc.
  - split; [|cbn; split; [lia|discriminate]].
    destruct (sanitize_cases (req_set_timing 0 0 false q))
      as [(_ & ->)|[(_ & _ & ->)|[(_ & H1 & _)|(_ & H1 & _)]]];
      try reflexivity; cbn in H1; lia.
  - split; [|cbn; split; [lia|discriminate]].
    destruct (sanitize_cases (req_set_breathe false q))
      as [(Hc' & _)|[(_ & H1 & _)|[(_ & _ & _ & _ & ->)|(_ & H1 & H2 & _)]]];
      try reflexivity; cbn in *; try lia.
    exfalso; apply Hc; exact Hc'.
  - split; [|split; [lia|intros _; lia]].
    destruct (sanitize_cases q)
      as [(Hc' & _)|[(_ & H1 & _)|[(_ & _ & _ & H1 & _)|(_ & _ & _ & ->)]]];
      try reflexivity; try lia.
    exfalso; apply Hc; exact Hc'.
Qed.

(* ================================================================ *)
(** ** Channel scaling *)

Lemma int_div_id a b :
  INT_MIN <= a <= INT_MAX -> 0 < b -> int_div a b = Z.quot a b.
Proof.
  clear sinf_sample.
  intros Ha Hb. apply int_wrap_id. unfold INT_MIN, INT_MAX in *.
  Z.to_euclidean_division_equations; nia.
Qed.

(** [round_nearest a b] is an integer nearest to the rational [a / b]. *)
Lemma round_nearest_is_nearest a b :
  0 < b -> 2 * Z.abs (b * round_nearest a b - a) <= b.
Proof.
  clear sinf_sample.
  intros Hb. unfold round_nearest.
  Z.to_euclidean_division_equations; nia.
Qed.

(** The value computed before clamping, on inputs without overflow. *)
Lemma scale_value_unfold v m :
  INT_MIN <= v * m -> v * m + 128 <= INT_MAX ->
  led_util_scale_value v m =
    let out := Z.quot (v * m + 128) 255 in
    if out <? 0 then 0 else if out <? m then out else m.
Proof.
  intros Hlo Hhi. unfold led_util_scale_value. unfold INT_MIN, INT_MAX in *.
  rewrite int_mul_id by (unfold INT_MIN, INT_MAX; lia).
  rewrite int_add_id by (unfold INT_MIN, INT_MAX; lia).
  rewrite int_div_id by (unfold INT_MIN, INT_MAX; lia).
  reflexivity.
Qed.

(** C4 (as the code has it). For a channel maximum [m >= 0] and a value
    [v] whose product with [m], plus 128, fits an [int], the scaling
    function returns the floor of [(v * m + 128) / 255] clamped into
    0 ... m. This is [v * m / 255] rounded to the nearest integer and
    clamped, except when [v * m] leaves the remainder 127 modulo 255:
    there the code rounds up, one above the nearest integer. *)
Theorem led_util_scale_value_spec (v m : Z) :
  0 <= m -> INT_MIN <= v * m -> v * m + 128 <= INT_MAX ->
  led_util_scale_value v m = clamp 0 m ((v * m + 128) / 255) /\
  ((v * m) mod 255 <> 127 ->
     led_util_scale_value v m = clamp 0 m (round_nearest (v * m) 255)) /\
  ((v * m) mod 255 = 127 ->
     led_util_scale_value v m = clamp 0 m (round_nearest (v * m) 255 + 1)).
Proof.
  clear sinf_sample.
  intros Hm Hlo Hhi.
  rewrite scale_value_unfold by assumption.
  cbv zeta. unfold clamp, round_nearest.
  generalize dependent (v * m). intros x Hlo Hhi.
  unfold INT_MIN, INT_MAX in *.
  repeat split; intros; split_tests;
    Z.to_euclidean_division_equations; lia.
Qed.

(** The result always lies between 0 and a non-negative maximum. *)
Lemma led_util_scale_value_range v m :
  0 <= m -> 0 <= led_util_scale_value v m <= m.
Proof.
  intros Hm. unfold led_util_scale_value. cbv zeta. split_tests; lia.
Qed.

(** Witness of C4's statement at value 200 and maximum 100. *)
Lemma led_util_scale_value_spec_witness :
  (0 <= 100 /\ INT_MIN <= 200 * 100 /\ 200 * 100 + 128 <= INT_MAX) /\
  led_util_scale_value 200 100 = clamp 0 100 ((200 * 100 + 128) / 255).
Proof.
  split.
  - unfold INT_MIN, INT_MAX. lia.
  - refine (proj1 (led_util_scale_value_spec 200 100 _ _ _));
      unfold INT_MIN, INT_MAX; lia.
Defined.

(** Counterexample to C4 as stated: 127 scaled to the maximum 1 gives
    1, while 127 / 255 rounded to the nearest integer is 0. *)
Lemma led_util_scale_value_not_nearest :
  led_util_scale_value 127 1 = 1 /\
  clamp 0 1 (round_nearest (127 * 1) 255) = 0.
Proof. split; reflexivity. Qed.

(* ================================================================ *)
(** ** The ramp generator *)

Lemma ceil_div_eq a b : 0 < b -> ceil_div a b = (a + b - 1) / b.
Proof.
  clear sinf_sample.
  intros Hb. unfold ceil_div. Z.to_euclidean_division_equations; nia.
Qed.

(** Rounding by adding half of the divisor gives the nearest integer. *)
Lemma round_nearest_eq a b :
  0 < b -> 0 <= a -> round_nearest a b = (a + b / 2) / b.
Proof.
  intros Hb Ha. unfold round_nearest.
  symmetry. apply Z.div_unique_pos with (r := 2 * ((a + b / 2) mod b) + b mod 2).
  - pose proof (Z.mod_pos_bound (a + b / 2) b Hb).
    pose proof (Z.mod_pos_bound b 2 ltac:(lia)). lia.
  - pose proof (Z.div_mod (a + b / 2) b ltac:(lia)).
    pose proof (Z.div_mod b 2 ltac:(lia)). nia.
Qed.

Lemma ramp_loop_fst rising count : forall i steps k value,
  fst (ramp_loop rising count i steps k value) = k + Z.of_nat count.
Proof.
  induction count as [|count IH]; intros i steps k value.
  - cbn. lia.
  - cbn [ramp_loop]. rewrite IH. lia.
Qed.

Lemma ramp_loop_length rising count : forall i steps k value,
  length (snd (ramp_loop rising count i steps k value)) = length value.
Proof.
  induction count as [|count IH]; intros i steps k value.
  - reflexivity.
  - cbn [ramp_loop]. rewrite IH. apply length_insert.
Qed.

(** What [led_ctrl_generate_ramp] stores, in terms of the two loop
    counts, without any assumption on the periods. *)
Lemma generate_ramp_fields ms_on ms_off br :
  let t := int_add ms_on ms_off in
  let s0 := int_div (int_sub (int_add t LED_CTRL_MAX_STEPS) 1) LED_CTRL_MAX_STEPS in
  let s := if s0 <? LED_CTRL_BREATHING_DELAY then LED_CTRL_BREATHING_DELAY else s0 in
  let n := int_div (int_sub (int_add t s) 1) s in
  let steps_on := int_div (int_add (int_mul n ms_on) (int_div t 2)) t in
  let steps_off := int_sub n steps_on in
  let br' := led_ctrl_generate_ramp ms_on ms_off br in
  br_step br' = br_step br /\
  br_delay br' = s /\
  br_steps br' = Z.of_nat (Z.to_nat steps_on) + Z.of_nat (Z.to_nat steps_off) /\
  length (br_value br') = length (br_value br).
Proof.
  cbv zeta. unfold led_ctrl_generate_ramp.
  match goal with
  | |- context [ramp_loop true ?c ?i ?n ?k ?v] =>
      pose proof (ramp_loop_fst true c i n k v) as Hk1;
      pose proof (ramp_loop_length true c i n k v) as Hl1;
      destruct (ramp_loop true c i n k v) as [k1 v1]
  end.
  match goal with
  | |- context [ramp_loop false ?c ?i ?n ?k ?v] =>
      pose proof (ramp_loop_fst false c i n k v) as Hk2;
      pose proof (ramp_loop_length false c i n k v) as Hl2;
      destruct (ramp_loop false c i n k v) as [k2 v2]
  end.
  cbn [fst snd br_step br_steps br_delay br_value] in *.
  repeat split; try reflexivity; lia.
Qed.

(** The samples one loop stores: [count] entries from [value[k]] on,
    the one at [value[j]] computed for position [i + (j - k)]; every
    other entry is left as it was. *)
Lemma ramp_loop_value rising count : forall i steps k value,
  0 <= k -> k + Z.of_nat count <= Z.of_nat (length value) ->
  (forall j, k <= j < k + Z.of_nat count ->
     snd (ramp_loop rising count i steps k value) !! Z.to_nat j
     = Some (uint8 (sinf_sample rising (i + (j - k)) steps))) /\
  (forall j, 0 <= j -> j < k \/ k + Z.of_nat count <= j ->
     snd (ramp_loop rising count i steps k value) !! Z.to_nat j
     = value !! Z.to_nat j).
Proof.
  induction count as [|count IH]; intros i steps k value Hk Hlen.
  - cbn [ramp_loop snd]. split; [intros j Hj; lia|reflexivity].
  - cbn [ramp_loop].
    destruct (IH (i + 1) steps (k + 1)
                (<[Z.to_nat k := uint8 (sinf_sample rising i steps)]> value))
      as (H1 & H2); [lia|rewrite length_insert; lia|].
    split.
    + intros j Hj. destruct (Z.eq_dec j k) as [->|Hne].
      * rewrite H2 by lia. rewrite list_lookup_insert_eq by lia.
        do 3 f_equal. lia.
      * rewrite H1 by lia. do 3 f_equal. lia.
    + intros j Hj0 Hj. rewrite H2 by lia.
      apply list_lookup_insert_ne. lia.
Qed.

(** The table [led_ctrl_generate_ramp] leaves, in terms of the two loop
    counts: the rising samples, then the falling ones, then what was
    there before. *)
Lemma generate_ramp_value ms_on ms_off br :
  let t := int_add ms_on ms_off in
  let s0 := int_div (int_sub (int_add t LED_CTRL_MAX_STEPS) 1) LED_CTRL_MAX_STEPS in
  let s := if s0 <? LED_CTRL_BREATHING_DELAY then LED_CTRL_BREATHING_DELAY else s0 in
  let n := int_div (int_sub (int_add t s) 1) s in
  let steps_on := int_div (int_add (int_mul n ms_on) (int_div t 2)) t in
  let steps_off := int_sub n steps_on in
  let br' := led_ctrl_generate_ramp ms_on ms_off br in
  0 <= steps_on -> 0 <= steps_off ->
  steps_on + steps_off <= Z.of_nat (length (br_value br)) ->
  (forall k, 0 <= k < steps_on ->
     br_value br' !! Z.to_nat k = Some (uint8 (sinf_sample true k steps_on))) /\
  (forall k, steps_on <= k < steps_on + steps_off ->
     br_value br' !! Z.to_nat k
     = Some (uint8 (sinf_sample false (k - steps_on) steps_off))) /\
  (forall k, steps_on + steps_off <= k ->
     br_value br' !! Z.to_nat k = br_value br !! Z.to_nat k).
Proof.
  cbv zeta. unfold led_ctrl_generate_ramp.
  set (steps_on := int_div _ (int_add ms_on ms_off)).
  set (steps_off := int_sub _ steps_on).
  intros Hon Hoff Hlen.
  pose proof (ramp_loop_fst true (Z.to_nat steps_on) 0 steps_on 0 (br_value br))
    as Hk1.
  pose proof (ramp_loop_length true (Z.to_nat steps_on) 0 steps_on 0 (br_value br))
    as Hl1.
  destruct (ramp_loop_value true (Z.to_nat steps_on) 0 steps_on 0 (br_value br))
    as (Hin1 & Hout1); [lia|lia|].
  destruct (ramp_loop true (Z.to_nat steps_on) 0 steps_on 0 (br_value br))
    as [k1 v1].
  cbn [fst snd] in Hk1, Hl1, Hin1, Hout1.
  destruct (ramp_loop_value false (Z.to_nat steps_off) 0 steps_off k1 v1)
    as (Hin2 & Hout2); [lia|lia|].
  destruct (ramp_loop false (Z.to_nat steps_off) 0 steps_off k1 v1) as [k2 v2].
  cbn [fst snd br_value] in *.
  split; [|split].
  - intros k Hk. rewrite Hout2 by lia. rewrite Hin1 by lia.
    do 3 f_equal. lia.
  - intros k Hk. rewrite Hin2 by lia. do 3 f_equal. lia.
  - intros k Hk. rewrite Hout2 by lia. apply Hout1; lia.
Qed.

(** The arithmetic of the generator on periods without overflow. *)
Lemma generate_ramp_arith ms_on ms_off :
  0 <= ms_on -> 0 <= ms_off -> 0 < ms_on + ms_off ->
  257 * (ms_on + ms_off) <= INT_MAX ->
  let t := ms_on + ms_off in
  let s := Z.max (ceil_div t 256) 20 in
  let n := ceil_div t s in
  let steps_on := (n * ms_on + t / 2) / t in
  int_add ms_on ms_off = t /\
  (let s0 := int_div (int_sub (int_add t LED_CTRL_MAX_STEPS) 1) LED_CTRL_MAX_STEPS in
   if s0 <? LED_CTRL_BREATHING_DELAY then LED_CTRL_BREATHING_DELAY else s0) = s /\
  int_div (int_sub (int_add t s) 1) s = n /\
  int_div (int_add (int_mul n ms_on) (int_div t 2)) t = steps_on /\
  int_sub n steps_on = n - steps_on /\
  20 <= s /\ 1 <= n <= 256 /\ 0 <= steps_on <= n.
Proof.
  clear sinf_sample.
  intros Hon Hoff Ht Hmax. cbv zeta.
  unfold LED_CTRL_MAX_STEPS, LED_CTRL_BREATHING_DELAY.
  set (t := ms_on + ms_off) in *.
  assert (Hint : INT_MAX = 2147483647) by reflexivity.
  assert (Hmin : INT_MIN = -2147483648) by reflexivity.
  assert (Hs0 : int_div (int_sub (int_add t 256) 1) 256 = ceil_div t 256).
  { rewrite int_add_id, int_sub_id by lia.
    rewrite int_div_nonneg by lia.
    rewrite ceil_div_eq by lia. reflexivity. }
  assert (Hc : 1 <= ceil_div t 256 <= t /\ t <= 256 * ceil_div t 256).
  { rewrite ceil_div_eq by lia. Z.to_euclidean_division_equations. lia. }
  set (s := Z.max (ceil_div t 256) 20).
  assert (Hs : 20 <= s /\ s <= t + 20 /\ t <= 256 * s) by (unfold s; lia).
  assert (Hn0 : int_div (int_sub (int_add t s) 1) s = ceil_div t s).
  { rewrite int_add_id, int_sub_id by lia.
    rewrite int_div_nonneg by lia.
    rewrite ceil_div_eq by lia. reflexivity. }
  set (n := ceil_div t s).
  assert (Hn : 1 <= n <= 256).
  { unfold n. rewrite ceil_div_eq by lia. split.
    - apply Z.div_le_lower_bound; lia.
    - apply Z.lt_succ_r. apply Z.div_lt_upper_bound; lia. }
  assert (Hh : 0 <= t / 2 < t) by (Z.to_euclidean_division_equations; lia).
  assert (Hle : n * ms_on <= n * t).
  { apply Z.mul_le_mono_nonneg_l; unfold t; lia. }
  assert (Hp : 0 <= n * ms_on <= 256 * t).
  { split; [apply Z.mul_nonneg_nonneg; lia|].
    assert (n * t <= 256 * t) by (apply Z.mul_le_mono_nonneg_r; lia). lia. }
  assert (Hq : 0 <= (n * ms_on + t / 2) / t <= n).
  { split.
    - apply Z.div_pos; lia.
    - apply Z.lt_succ_r. apply Z.div_lt_upper_bound; [lia|].
      rewrite Z.mul_succ_r, (Z.mul_comm t n). lia. }
  assert (Et : int_add ms_on ms_off = t) by (apply int_add_id; lia).
  assert (Es : (if int_div (int_sub (int_add t 256) 1) 256 <? 20 then 20
                else int_div (int_sub (int_add t 256) 1) 256) = s).
  { rewrite Hs0. unfold s. split_tests; lia. }
  assert (Eon : int_div (int_add (int_mul n ms_on) (int_div t 2)) t
                = (n * ms_on + t / 2) / t).
  { rewrite int_mul_id by lia.
    rewrite (int_div_nonneg t 2) by lia.
    rewrite int_add_id by lia.
    apply int_div_nonneg; lia. }
  assert (Eoff : int_sub n ((n * ms_on + t / 2) / t) = n - (n * ms_on + t / 2) / t).
  { apply int_sub_id. lia. }
  repeat split; assumption || lia.
Qed.

(** For 1000 ms on and 1000 ms off the stored delay is 20 ms, with 100
    samples. *)
Lemma led_ctrl_generate_ramp_1000 br :
  br_delay (led_ctrl_generate_ramp 1000 1000 br) = 20 /\
  br_steps (led_ctrl_generate_ramp 1000 1000 br) = 100.
Proof.
  destruct (generate_ramp_fields 1000 1000 br) as (_ & Hd & Hs & _).
  cbv zeta in Hd, Hs. rewrite Hd, Hs. split; reflexivity.
Qed.

(** C3. For periods [ms_on >= 0] and [ms_off >= 0] with
    [t = ms_on + ms_off > 0] and [257 * t] within the range of [int]
    (the only caller passes periods between 140 and 60000) and the
    table of 256 entries, the generator stores the step delay
    [s = max (ceil (t / 256)) 20] and [n = ceil (t / s)] samples,
    [n = steps_on + steps_off] where [steps_on] is [n * ms_on / t]
    rounded to the nearest integer, computed as
    [(n * ms_on + t / 2) / t], and [steps_off = n - steps_on]: the
    entries [0 .. steps_on - 1] of the table are the samples of the
    rising ramp, the entries [steps_on .. n - 1] those of the falling
    ramp, and the entries from [n] on are left as they were. The count
    never exceeds the 256 entries of the table, whose length and step
    index are unchanged. For 1000 ms on and 1000 ms off the stored
    delay is 20. *)
Theorem led_ctrl_generate_ramp_spec (ms_on ms_off : Z) (br : led_ctrl_breathe_t) :
  0 <= ms_on -> 0 <= ms_off -> 0 < ms_on + ms_off ->
  257 * (ms_on + ms_off) <= INT_MAX ->
  length (br_value br) = Z.to_nat LED_CTRL_MAX_STEPS ->
  let t := ms_on + ms_off in
  let s := Z.max (ceil_div t 256) 20 in
  let n := ceil_div t s in
  let steps_on := round_nearest (n * ms_on) t in
  let steps_off := n - steps_on in
  let br' := led_ctrl_generate_ramp ms_on ms_off br in
  br_delay br' = s /\
  steps_on = (n * ms_on + t / 2) / t /\
  0 <= steps_on /\ 0 <= steps_off /\
  br_steps br' = steps_on + steps_off /\
  br_steps br' = n /\
  1 <= br_steps br' <= 256 /\
  length (br_value br') = length (br_value br) /\
  br_step br' = br_step br /\
  (forall k, 0 <= k < steps_on ->
     br_value br' !! Z.to_nat k = Some (uint8 (sinf_sample true k steps_on))) /\
  (forall k, steps_on <= k < n ->
     br_value br' !! Z.to_nat k
     = Some (uint8 (sinf_sample false (k - steps_on) steps_off))) /\
  (forall k, n <= k ->
     br_value br' !! Z.to_nat k = br_value br !! Z.to_nat k) /\
  br_delay (led_ctrl_generate_ramp 1000 1000 br) = 20.
Proof.
  intros Hon Hoff Ht Hmax Hlen. cbv zeta.
  pose proof (proj1 (led_ctrl_generate_ramp_1000 br)) as H1000.
  destruct (generate_ramp_arith ms_on ms_off Hon Hoff Ht Hmax)
    as (Et & Es & En & Eon & Eoff & Hs & Hn & Hq).
  destruct (generate_ramp_fields ms_on ms_off br) as (Fstep & Fdelay & Fsteps & Flen).
  pose proof (generate_ramp_value ms_on ms_off br) as Fval.
  cbv zeta in Et, Es, En, Eon, Eoff, Hs, Hn, Hq, Fstep, Fdelay, Fsteps, Flen, Fval.
  rewrite Et in *. rewrite Es in *. rewrite En in *. rewrite Eon in *.
  rewrite Eoff in *.
  assert (Hr : round_nearest (ceil_div (ms_on + ms_off)
                               (Z.max (ceil_div (ms_on + ms_off) 256) 20) * ms_on)
                             (ms_on + ms_off)
               = (ceil_div (ms_on + ms_off)
                    (Z.max (ceil_div (ms_on + ms_off) 256) 20) * ms_on
                  + (ms_on + ms_off) / 2) / (ms_on + ms_off)).
  { apply round_nearest_eq; [lia|]. apply Z.mul_nonneg_nonneg; lia. }
  rewrite Hr. rewrite Fsteps, !Z2Nat.id by lia.
  unfold LED_CTRL_MAX_STEPS in Hlen.
  destruct Fval as (Fon & Foff & Frest); [lia|lia|rewrite Hlen; lia|].
  split; [assumption|]. split; [reflexivity|]. split; [lia|]. split; [lia|].
  split; [reflexivity|]. split; [lia|]. split; [lia|]. split; [assumption|].
  split; [assumption|]. split; [exact Fon|].
  split; [intros k Hk; apply Foff; lia|].
  split; [intros k Hk; apply Frest; lia|]. exact H1000.
Qed.

(* ================================================================ *)
(** ** Starting a request *)

Lemma led_request_is_equal_eq x y :
  led_request_is_equal x y = true <-> x = y.
Proof.
  clear sinf_sample.
  unfold led_request_is_equal. rewrite !andb_true_iff, !Z.eqb_eq, eqb_true_iff.
  destruct x, y; cbn. split.
  - intros ((((((-> & ->) & ->) & ->) & ->) & ->) & ->). reflexivity.
  - intros [= -> -> -> -> -> -> ->]. tauto.
Qed.

Lemma led_request_is_equal_refl x : led_request_is_equal x x = true.
Proof. now apply led_request_is_equal_eq. Qed.

Lemma has_equal_timing_iff x y :
  led_request_has_equal_timing x y = true <->
  req_on x = req_on y /\ req_off x = req_off y.
Proof.
  unfold led_request_has_equal_timing.
  now rewrite andb_true_iff, !Z.eqb_eq.
Qed.

Lemma set_curr_same st : set_curr (led_ctrl_curr st) st = st.
Proof. destruct st; reflexivity. Qed.

(** A request of style BREATH has positive periods, the flag set, and
    is left alone by sanitization once it has passed it. *)
Lemma style_breath_inv x :
  led_request_get_style x = STYLE_BREATH ->
  ~ no_color x /\ 0 < req_on x /\ 0 < req_off x /\ req_breathe x = true.
Proof.
  unfold led_request_get_style. rewrite <- has_color_true_iff.
  destruct (led_request_has_color x); cbn [negb]; [|discriminate].
  destruct (_ || _) eqn:Ht; [discriminate|].
  apply orb_false_iff in Ht. rewrite !Z.leb_gt in Ht.
  destruct (req_breathe x); [tauto|discriminate].
Qed.

Lemma sanitize_breath_timing q :
  led_request_get_style (led_request_sanitize q) = STYLE_BREATH ->
  led_request_sanitize q = q /\ 140 <= req_on q /\ 140 <= req_off q.
Proof.
  intros Hs. apply style_breath_inv in Hs. destruct Hs as (_ & _ & _ & Hb).
  destruct (sanitize_cases q)
    as [(_ & E)|[(_ & _ & E)|[(_ & _ & _ & _ & E)|(_ & ? & ? & E)]]];
    rewrite E in Hb |- *; try discriminate Hb. auto.
Qed.

(** After [led_ctrl_start] the current state is the sanitized request. *)
Lemma led_ctrl_start_curr next st :
  led_ctrl_curr (led_ctrl_start next st) = led_request_sanitize next.
Proof.
  unfold led_ctrl_start.
  destruct (led_request_is_equal _ _) eqn:E.
  - now apply led_request_is_equal_eq in E.
  - cbv zeta. unfold g_timeout_add.
    repeat match goal with
           | |- context [if ?c then _ else _] => destruct c
           end; reflexivity.
Qed.

(** C5. A request whose sanitized form equals the current state field
    by field leaves the whole controller state as it is: current
    state, curve table, timer ids, attached sources and the trace of
    sysfs writes. Hence the second of two equal submissions changes
    nothing. *)
Theorem led_ctrl_start_same_is_noop (next : led_request_t) (st : led_ctrl_state) :
  (led_request_is_equal (led_ctrl_curr st) (led_request_sanitize next) = true ->
   led_ctrl_start next st = st) /\
  led_ctrl_start next (led_ctrl_start next st) = led_ctrl_start next st.
Proof.
  assert (Hnoop : forall s, led_request_is_equal (led_ctrl_curr s)
                              (led_request_sanitize next) = true ->
                            led_ctrl_start next s = s).
  { intros s Hs. unfold led_ctrl_start. now rewrite Hs. }
  split; [apply Hnoop|].
  apply Hnoop. rewrite led_ctrl_start_curr.
  apply led_request_is_equal_refl.
Qed.

(** C1. When the current state and the sanitized new request both have
    style BREATH and the new request has the periods of the current
    state, [led_ctrl_start] only replaces the current state by the
    sanitized request: the curve table with its step index, both timer
    ids, the attached sources, the blink reset flag and the trace of
    sysfs writes are as before. *)
Theorem led_ctrl_start_breathe_continues (next : led_request_t) (st : led_ctrl_state) :
  led_request_get_style (led_ctrl_curr st) = STYLE_BREATH ->
  led_request_get_style (led_request_sanitize next) = STYLE_BREATH ->
  req_on next = req_on (led_ctrl_curr st) ->
  req_off next = req_off (led_ctrl_curr st) ->
  let st' := led_ctrl_start next st in
  st' = set_curr (led_request_sanitize next) st /\
  led_ctrl_curr st' = led_request_sanitize next /\
  led_ctrl_breathe st' = led_ctrl_breathe st /\
  loop_sources st' = loop_sources st /\
  led_ctrl_step_id st' = led_ctrl_step_id st /\
  led_ctrl_stop_id st' = led_ctrl_stop_id st /\
  reset_blinking st' = reset_blinking st /\
  sysfs_log st' = sysfs_log st.
Proof.
  intros Hold Hnew Hon Hoff. cbv zeta.
  assert (E : led_ctrl_start next st = set_curr (led_request_sanitize next) st).
  { unfold led_ctrl_start.
    destruct (led_request_is_equal _ _) eqn:Heq.
    - apply led_request_is_equal_eq in Heq. rewrite <- Heq.
      symmetry. apply set_curr_same.
    - cbv zeta. rewrite Hold, Hnew.
      destruct (sanitize_breath_timing next Hnew) as (Es & _).
      replace (led_request_has_equal_timing _ _) with true; [reflexivity|].
      symmetry. apply has_equal_timing_iff. rewrite Es. auto. }
  rewrite E. repeat split.
Qed.

(* ================================================================ *)
(** ** The public entry points *)

Lemma clamp_to_range_spec lo hi v :
  lo <= hi -> clamp_to_range lo hi v = clamp lo hi v.
Proof.
  intros H. unfold clamp_to_range, clamp. split_tests; lia.
Qed.

Lemma set_pattern_sysfs env r g b ms_on ms_off st :
  led_ctrl_uses_sysfs st = true ->
  mce_hybris_indicator_set_pattern env r g b ms_on ms_off st
  = (led_ctrl_start (set_pattern_request r g b ms_on ms_off (led_ctrl_curr st)) st,
     true).
Proof.
  intros Hs. unfold mce_hybris_indicator_set_pattern, set_pattern_request.
  rewrite Hs. rewrite !clamp_to_range_spec by lia. reflexivity.
Qed.

Lemma set_pattern_request_in_range r g b ms_on ms_off curr :
  color_in_range (set_pattern_request r g b ms_on ms_off curr) /\
  timing_in_range (set_pattern_request r g b ms_on ms_off curr).
Proof.
  unfold color_in_range, timing_in_range, set_pattern_request, clamp.
  cbn [req_r req_g req_b req_on req_off].
  destruct (_ || _); lia.
Qed.

(** C8. With a sysfs backend active, [set_pattern] clamps both periods
    to 0 ... 60000, sets both to 0 when either clamped period is below
    50, clamps the three channels to 0 ... 255, hands the resulting
    request (level and breathing flag taken from the current state) to
    [led_ctrl_start] and returns true. *)
Theorem mce_hybris_indicator_set_pattern_spec (env : hybris_env)
  (r g b ms_on ms_off : Z) (st : led_ctrl_state) :
  led_ctrl_uses_sysfs st = true ->
  let on1 := clamp 0 60000 ms_on in
  let off1 := clamp 0 60000 ms_off in
  let short := (on1 <? 50) || (off1 <? 50) in
  let req :=
    {| req_r := clamp 0 255 r; req_g := clamp 0 255 g; req_b := clamp 0 255 b;
       req_on := if short then 0 else on1;
       req_off := if short then 0 else off1;
       req_level := req_level (led_ctrl_curr st);
       req_breathe := req_breathe (led_ctrl_curr st) |} in
  mce_hybris_indicator_set_pattern env r g b ms_on ms_off st
  = (led_ctrl_start req st, true).
Proof.
  intros Hs. cbv zeta. now rewrite set_pattern_sysfs.
Qed.

(** The request built by [set_pattern] has channels in 0 ... 255 and
    periods in 0 ... 60000, also after sanitization. *)
Lemma sanitize_timing_in_range q :
  timing_in_range q -> timing_in_range (led_request_sanitize q).
Proof.
  unfold timing_in_range.
  destruct (sanitize_cases q)
    as [(_ & ->)|[(_ & _ & ->)|[(_ & _ & _ & _ & ->)|(_ & _ & _ & ->)]]];
    cbn; lia.
Qed.

Lemma sanitize_color_in_range q :
  color_in_range q -> color_in_range (led_request_sanitize q).
Proof.
  unfold color_in_range. destruct (sanitize_color q) as (-> & -> & -> & _). auto.
Qed.

(** C9. The initial current state has the three channels at -1. A
    sanitized request whose channels lie in 0 ... 255 never compares
    equal to it, and every request built by [set_pattern] is of that
    kind. Hence [led_ctrl_start], run on a controller whose current
    state is still the initial one, does not skip such a request: it
    makes it the current state and leaves a stop timer pending. *)
Theorem initial_state_never_equal :
  (req_r led_ctrl_curr_init = -1 /\ req_g led_ctrl_curr_init = -1 /\
   req_b led_ctrl_curr_init = -1) /\
  (forall next, color_in_range (led_request_sanitize next) ->
     led_request_is_equal led_ctrl_curr_init (led_request_sanitize next) = false) /\
  (forall r g b ms_on ms_off curr,
     color_in_range (led_request_sanitize
                       (set_pattern_request r g b ms_on ms_off curr)) /\
     led_request_is_equal led_ctrl_curr_init
       (led_request_sanitize (set_pattern_request r g b ms_on ms_off curr)) = false) /\
  (forall st next,
     led_ctrl_curr st = led_ctrl_curr_init ->
     color_in_range (led_request_sanitize next) ->
     led_ctrl_curr (led_ctrl_start next st) = led_request_sanitize next /\
     led_ctrl_curr (led_ctrl_start next st) <> led_ctrl_curr st /\
     led_ctrl_stop_id (led_ctrl_start next st) <> 0).
Proof.
  assert (Hne : forall next, color_in_range (led_request_sanitize next) ->
     led_request_is_equal led_ctrl_curr_init (led_request_sanitize next) = false).
  { intros next (Hr & _). unfold led_request_is_equal.
    cbn [req_r led_ctrl_curr_init].
    destruct (Z.eqb_spec (-1) (req_r (led_request_sanitize next))); [lia|].
    reflexivity. }
  split; [repeat split|]. split; [exact Hne|]. split.
  - intros r g b ms_on ms_off curr.
    assert (Hc : color_in_range (led_request_sanitize
                                   (set_pattern_request r g b ms_on ms_off curr))).
    { apply sanitize_color_in_range. apply set_pattern_request_in_range. }
    split; [exact Hc|]. apply Hne, Hc.
  - intros st next Hinit Hc. specialize (Hne next Hc).
    split; [apply led_ctrl_start_curr|]. split.
    + rewrite led_ctrl_start_curr, Hinit. intros E.
      rewrite E, led_request_is_equal_refl in Hne. discriminate.
    + unfold led_ctrl_start. rewrite Hinit at 1. rewrite Hne. cbv zeta.
      rewrite Hinit at 1.
      change (led_request_get_style led_ctrl_curr_init) with STYLE_OFF.
      cbn [led_style_eqb andb negb]. unfold g_timeout_add.
      repeat match goal with
             | |- context [if ?c then _ else _] => destruct c eqn:?
             end; cbn; try discriminate;
        match goal with
        | H : (_ =? 0) = false |- _ => apply Z.eqb_neq in H; exact H
        end.
Qed.

(* ================================================================ *)
(** ** The invariant of the controller *)

(** Project fields out of states built by the setters. *)
Ltac st_step :=
  cbn [set_curr set_breathe set_uses_sysfs set_control set_stop_id
       set_step_id set_reset_blinking set_init_done set_init_ack set_loop
       set_log g_timeout_add g_source_remove led_ctrl_set_rgb_blink
       led_ctrl_set_rgb_value
       led_ctrl_curr led_ctrl_breathe led_ctrl_uses_sysfs led_control
       led_ctrl_stop_id led_ctrl_step_id reset_blinking init_done init_ack
       loop_sources loop_next_id sysfs_log fst snd
       br_set_step br_set_delay br_step br_steps br_delay br_value
       List.filter List.find app negb andb orb
       src_id src_interval src_cb] in *.

(** Decide one integer test of the goal from the hypotheses. *)
Ltac decide_test :=
  match goal with
  | |- context [?a =? ?b] =>
      destruct (Z.eqb_spec a b); try (exfalso; lia)
  | |- context [?a <? ?b] =>
      destruct (Z.ltb_spec a b); try (exfalso; lia)
  | |- context [?a <=? ?b] =>
      destruct (Z.leb_spec a b); try (exfalso; lia)
  end.

(** Decide a test on a boolean variable or on the color of a request
    held in a variable by cases. *)
Ltac decide_flag :=
  match goal with
  | |- context [led_request_has_color ?x] =>
      is_var x; destruct (led_request_has_color x) eqn:?
  | |- context [if ?b then _ else _] => is_var b; destruct b
  end.

Ltac st_run := st_step; repeat (first [decide_test | decide_flag]; st_step).

(** Establish one of the four shapes of the timers. *)
Ltac shape_solve :=
  unfold timers_shape;
  first
    [ left; solve [repeat split; reflexivity || lia]
    | right; left; do 2 eexists;
      solve [repeat split; reflexivity || lia]
    | right; right; left; do 2 eexists;
      solve [repeat split; reflexivity || lia]
    | right; right; right; do 2 eexists;
      solve [repeat split; reflexivity || lia] ].

(** Split the shape of the timers into its four cases. *)
Ltac shape_cases H :=
  destruct H as [(? & ? & ?)|[(?id & ?iv & ? & ? & ? & ?)|
                [(?id & ?iv & ? & ? & ? & ? & ?)|(?id & ?iv & ? & ? & ? & ?)]]];
  subst.

(** The generator on the periods of a BREATH request that came through
    [set_pattern]: a curve of 1 ... 256 samples with a delay of at
    least 20 ms; the step index is left as it was. *)
Lemma generate_ramp_ok ms_on ms_off br :
  0 < ms_on <= 60000 -> 0 < ms_off <= 60000 ->
  let br' := led_ctrl_generate_ramp ms_on ms_off br in
  br_step br' = br_step br /\
  20 <= br_delay br' /\
  1 <= br_steps br' <= 256 /\
  length (br_value br') = length (br_value br).
Proof.
  intros Hon Hoff. cbv zeta.
  assert (Hmax : 257 * (ms_on + ms_off) <= INT_MAX) by (unfold INT_MAX; lia).
  destruct (generate_ramp_arith ms_on ms_off ltac:(lia) ltac:(lia) ltac:(lia) Hmax)
    as (Et & Es & En & Eon & Eoff & Hs & Hn & Hq).
  destruct (generate_ramp_fields ms_on ms_off br) as (Fstep & Fdelay & Fsteps & Flen).
  cbv zeta in Et, Es, En, Eon, Eoff, Hs, Hn, Hq, Fstep, Fdelay, Fsteps, Flen.
  rewrite Et in *. rewrite Es in *. rewrite En in *. rewrite Eon in *.
  rewrite Eoff in *.
  rewrite Fsteps, !Z2Nat.id by lia.
  repeat split; try assumption; lia.
Qed.

(** The curve table after the "re-evaluate breathing constants" part
    of a restart. *)
Lemma ramp_ok_restart work br :
  timing_in_range work -> ramp_ok br ->
  ramp_ok (if led_style_eqb (led_request_get_style work) STYLE_BREATH
           then led_ctrl_generate_ramp (req_on work) (req_off work)
                  (br_set_delay 0 br)
           else br_set_delay 0 br).
Proof.
  intros (Hon & Hoff) (Hstep & Hsteps & Hlen & Hd).
  destruct (led_request_get_style work) eqn:Hst; cbn [led_style_eqb];
    try solve [unfold ramp_ok; cbn; repeat split; tauto || lia].
  apply style_breath_inv in Hst. destruct Hst as (_ & Hon' & Hoff' & _).
  destruct (generate_ramp_ok (req_on work) (req_off work) (br_set_delay 0 br))
    as (Fstep & Fdelay & Fsteps & Flen); [lia|lia|].
  unfold ramp_ok. rewrite Fstep, Flen. cbn [br_set_delay br_step br_value].
  unfold LED_CTRL_MAX_STEPS in *. repeat split; try tauto; lia.
Qed.

(** The steps below compute with the state, never with the curve. *)
Local Opaque led_ctrl_generate_ramp led_util_scale_value.

Lemma ctrl_inv_init : ctrl_inv led_ctrl_state_init.
Proof.
  split; [|split].
  - unfold timing_in_range. cbn. lia.
  - unfold ramp_ok, LED_CTRL_MAX_STEPS. cbn.
    split; [lia|split; [lia|split; [reflexivity|lia]]].
  - left. auto.
Qed.

(** [led_ctrl_start] keeps the invariant when the request has periods
    in 0 ... 60000. *)
Lemma led_ctrl_start_inv next st :
  timing_in_range next -> ctrl_inv st -> ctrl_inv (led_ctrl_start next st).
Proof.
  intros Hn (Hc & Hr & Ht).
  pose proof (sanitize_timing_in_range next Hn) as Hw.
  unfold led_ctrl_start.
  destruct (led_request_is_equal _ _); [unfold ctrl_inv; auto|].
  cbv zeta.
  set (work := led_request_sanitize next) in *.
  pose proof (ramp_ok_restart work (led_ctrl_breathe st) Hw Hr) as Hr'.
  destruct (negb (_ && _));
    destruct st as [curr br sysfs ctl stop step rb idone iack srcs nxt log];
    unfold ctrl_inv, timers_ok in *; st_step; [|auto].
  destruct (led_style_eqb (led_request_get_style work) STYLE_BREATH);
    shape_cases Ht; st_run;
    (split; [exact Hw|split; [exact Hr'|shape_solve]]).
Qed.

(** The curve table after one breathing step. *)
Lemma ramp_ok_step br :
  ramp_ok br -> 0 < br_delay br ->
  let i := br_step (breathe_wrap br) in
  0 <= i < br_steps br /\
  ramp_ok (br_set_step (i + 1) (breathe_wrap br)).
Proof.
  intros (Hstep & Hsteps & Hlen & Hd) Hdelay. specialize (Hd Hdelay).
  unfold breathe_wrap, ramp_ok, LED_CTRL_MAX_STEPS in *.
  destruct (Z.leb_spec (br_steps br) (br_step br));
    cbn [br_set_step br_step br_steps br_delay br_value];
    repeat split; try assumption; try lia.
Qed.

Lemma breathe_wrap_delay br : br_delay (breathe_wrap br) = br_delay br.
Proof. unfold breathe_wrap. now destruct (_ <=? _). Qed.

Lemma breathe_wrap_steps br : br_steps (breathe_wrap br) = br_steps br.
Proof. unfold breathe_wrap. now destruct (_ <=? _). Qed.

(** A dispatch of the main loop keeps the invariant, whichever source
    it is for. *)
Lemma main_loop_dispatch_inv id st :
  ctrl_inv st -> ctrl_inv (main_loop_dispatch id st).
Proof.
  intros (Hc & Hr & Ht).
  destruct st as [curr br sysfs ctl stop step rb idone iack srcs nxt log].
  unfold ctrl_inv, timers_ok in *. st_step.
  unfold main_loop_dispatch.
  shape_cases Ht; st_step; [split; [exact Hc|split; [exact Hr|shape_solve]]| | |].
  - (* the stop timer *)
    decide_test; st_step; [|split; [exact Hc|split; [exact Hr|shape_solve]]].
    subst. unfold timer_cb_run, led_ctrl_stop_cb. st_run;
      (split; [exact Hc|split; [exact Hr|shape_solve]]).
  - (* the step timer *)
    decide_test; st_step; [|split; [exact Hc|split; [exact Hr|shape_solve]]].
    subst. unfold timer_cb_run, led_ctrl_step_cb. st_run.
    destruct (ramp_ok_step br Hr ltac:(assumption)) as (_ & Hr').
    rewrite breathe_wrap_delay.
    split; [exact Hc|split; [exact Hr'|shape_solve]].
  - (* the timer of the static callback *)
    decide_test; st_step; [|split; [exact Hc|split; [exact Hr|shape_solve]]].
    subst. unfold timer_cb_run, led_ctrl_static_cb. st_run;
      (split; [exact Hc|split; [exact Hr|shape_solve]]).
Qed.

(** The invariant only looks at the current request, the curve table,
    the timer ids and the attached sources. *)
Lemma ctrl_inv_frame st st' :
  led_ctrl_curr st' = led_ctrl_curr st ->
  led_ctrl_breathe st' = led_ctrl_breathe st ->
  loop_sources st' = loop_sources st ->
  loop_next_id st' = loop_next_id st ->
  led_ctrl_stop_id st' = led_ctrl_stop_id st ->
  led_ctrl_step_id st' = led_ctrl_step_id st ->
  ctrl_inv st -> ctrl_inv st'.
Proof.
  unfold ctrl_inv, timers_ok. intros -> -> -> -> -> ->. auto.
Qed.

Lemma mce_hybris_indicator_init_inv env st :
  ctrl_inv st -> ctrl_inv (fst (mce_hybris_indicator_init env st)).
Proof.
  intros Hinv. unfold mce_hybris_indicator_init, led_ctrl_probe_sysfs_files.
  destruct (init_done st); [exact Hinv|].
  destruct (env_sysfs_probe env) as [ctl|]; st_step.
  - eapply ctrl_inv_frame;
      [..|apply led_ctrl_start_inv with
             (next := req_set_color 0 0 0 (led_ctrl_curr st))
             (st := set_uses_sysfs true (set_control ctl (set_init_done true st)))];
      try reflexivity.
    + apply Hinv.
    + eapply ctrl_inv_frame; [..|exact Hinv]; reflexivity.
  - destruct (env_modlights_load env), (env_indicator_open env); st_step;
      (eapply ctrl_inv_frame; [..|exact Hinv]; reflexivity).
Qed.

Lemma mce_hybris_indicator_set_pattern_inv env r g b ms_on ms_off st :
  ctrl_inv st ->
  ctrl_inv (fst (mce_hybris_indicator_set_pattern env r g b ms_on ms_off st)).
Proof.
  intros Hinv. destruct (led_ctrl_uses_sysfs st) eqn:Hs.
  - rewrite set_pattern_sysfs by exact Hs. cbn [fst].
    apply led_ctrl_start_inv; [|exact Hinv].
    apply set_pattern_request_in_range.
  - unfold mce_hybris_indicator_set_pattern. rewrite Hs.
    pose proof (mce_hybris_indicator_init_inv env st Hinv) as Hi.
    destruct (mce_hybris_indicator_init env st) as [st' ok]. cbn [fst] in Hi.
    destruct ok; cbn [negb]; [destruct (env_set_light env)|]; exact Hi.
Qed.

Lemma mce_hybris_indicator_enable_breathing_inv enable st :
  ctrl_inv st -> ctrl_inv (mce_hybris_indicator_enable_breathing enable st).
Proof.
  intros Hinv. unfold mce_hybris_indicator_enable_breathing.
  destruct (led_ctrl_uses_sysfs st); cbn [negb]; [|exact Hinv].
  apply led_ctrl_start_inv; [|exact Hinv]. apply Hinv.
Qed.

Lemma mce_hybris_indicator_set_brightness_inv level st :
  ctrl_inv st -> ctrl_inv (fst (mce_hybris_indicator_set_brightness level st)).
Proof.
  intros Hinv. unfold mce_hybris_indicator_set_brightness.
  destruct (led_ctrl_uses_sysfs st); cbn [negb fst]; [|exact Hinv].
  apply led_ctrl_start_inv; [|exact Hinv]. apply Hinv.
Qed.

Lemma mce_hybris_indicator_quit_inv st :
  ctrl_inv st -> ctrl_inv (mce_hybris_indicator_quit st).
Proof.
  intros (Hc & Hr & Ht). unfold mce_hybris_indicator_quit.
  destruct st as [curr br sysfs ctl stop step rb idone iack srcs nxt log].
  unfold ctrl_inv, timers_ok in *. st_step.
  destruct sysfs; [|auto].
  shape_cases Ht; st_run; (split; [exact Hc|split; [exact Hr|shape_solve]]).
Qed.

Lemma led_op_run_inv op st : ctrl_inv st -> ctrl_inv (led_op_run op st).
Proof.
  intros Hinv. destruct op; cbn [led_op_run].
  - now apply mce_hybris_indicator_init_inv.
  - now apply mce_hybris_indicator_set_pattern_inv.
  - now apply mce_hybris_indicator_enable_breathing_inv.
  - now apply mce_hybris_indicator_set_brightness_inv.
  - now apply main_loop_dispatch_inv.
  - now apply mce_hybris_indicator_quit_inv.
Qed.

Lemma led_ops_run_inv ops : forall st,
  ctrl_inv st -> ctrl_inv (led_ops_run ops st).
Proof.
  unfold led_ops_run.
  induction ops as [|op ops IH]; intros st Hinv; cbn [fold_left].
  - exact Hinv.
  - apply IH. now apply led_op_run_inv.
Qed.

(** Every state the operations can reach satisfies the invariant. *)
Lemma reachable_inv ops : ctrl_inv (led_ops_run ops led_ctrl_state_init).
Proof. apply led_ops_run_inv, ctrl_inv_init. Qed.

(** The step callback reads the curve at [step_cb_index] and leaves
    the index behind it in [step]. *)
Lemma led_ctrl_step_cb_index st i :
  step_cb_index st = Some i ->
  br_step (led_ctrl_breathe (fst (led_ctrl_step_cb st))) = i + 1.
Proof.
  unfold step_cb_index, led_ctrl_step_cb.
  destruct (led_ctrl_step_id st =? 0); [discriminate|].
  intros [= <-]. reflexivity.
Qed.

(** What the step callback does with the index it reads at: with the
    sample [v] at [step_cb_index], it writes the color scaled by the
    brightness level and by [v], leaves the index behind it in [step]
    and stays attached. *)
Lemma led_ctrl_step_cb_reads st i v :
  step_cb_index st = Some i ->
  br_value (led_ctrl_breathe st) !! Z.to_nat i = Some v ->
  let l := req_level (led_ctrl_curr st) in
  led_ctrl_step_cb st =
    (led_ctrl_set_rgb_value
       (led_util_scale_value (led_util_scale_value (req_r (led_ctrl_curr st)) l) v)
       (led_util_scale_value (led_util_scale_value (req_g (led_ctrl_curr st)) l) v)
       (led_util_scale_value (led_util_scale_value (req_b (led_ctrl_curr st)) l) v)
       (set_breathe (br_set_step (i + 1) (led_ctrl_breathe st)) st),
     true).
Proof.
  unfold step_cb_index, led_ctrl_step_cb, br_read. cbv zeta.
  destruct st as [curr br sysfs ctl stop step rb idone iack srcs nxt log].
  st_step. destruct (step =? 0); [discriminate|].
  intros [= <-] Hv. destruct br as [i k d value].
  unfold breathe_wrap in *. st_step.
  destruct (k <=? i); st_step; rewrite Hv; reflexivity.
Qed.

(** C7 (as the code has it). In every state reachable from the initial
    one by the public entry points and timer expiries, the stored step
    count and the stored step index are at most 256, and whenever the
    step timer is attached the index at which [led_ctrl_step_cb] reads
    the curve is at least 0 and strictly below the stored step count
    (the callback first resets an index that is not below the count):
    the table has a sample at that index, and the callback writes the
    color scaled by that sample and leaves the index behind it in
    [step]. The stored index itself is not bounded by the stored
    count. *)
Theorem step_index_in_bounds (ops : list led_op) :
  let st := led_ops_run ops led_ctrl_state_init in
  0 <= br_steps (led_ctrl_breathe st) <= 256 /\
  0 <= br_step (led_ctrl_breathe st) <= 256 /\
  length (br_value (led_ctrl_breathe st)) = 256%nat /\
  forall s i,
    In s (loop_sources st) -> src_cb s = CB_step ->
    step_cb_index st = Some i ->
    0 <= i < br_steps (led_ctrl_breathe st) /\
    exists v,
      br_value (led_ctrl_breathe st) !! Z.to_nat i = Some v /\
      let l := req_level (led_ctrl_curr st) in
      led_ctrl_step_cb st =
        (led_ctrl_set_rgb_value
           (led_util_scale_value
              (led_util_scale_value (req_r (led_ctrl_curr st)) l) v)
           (led_util_scale_value
              (led_util_scale_value (req_g (led_ctrl_curr st)) l) v)
           (led_util_scale_value
              (led_util_scale_value (req_b (led_ctrl_curr st)) l) v)
           (set_breathe (br_set_step (i + 1) (led_ctrl_breathe st)) st),
         true).
Proof.
  cbv zeta. destruct (reachable_inv ops) as (_ & Hr & Ht).
  set (st := led_ops_run ops led_ctrl_state_init) in *.
  pose proof Hr as (Hstep & Hsteps & Hlen & _).
  unfold LED_CTRL_MAX_STEPS in *.
  split; [exact Hsteps|]. split; [exact Hstep|]. split; [exact Hlen|].
  intros s i Hin Hcb Hidx.
  assert (Hi : 0 <= i < br_steps (led_ctrl_breathe st)).
  { unfold step_cb_index in Hidx.
    destruct (led_ctrl_step_id st =? 0); [discriminate|].
    injection Hidx as <-.
    unfold timers_ok in Ht.
    destruct Ht as [(E & _)|[(id & iv & E & _)|
                   [(id & iv & E & _ & _ & _ & Hd)|(id & iv & E & _)]]];
      rewrite E in Hin; cbn [In] in Hin.
    - contradiction.
    - destruct Hin as [<-|[]]. discriminate.
    - apply ramp_ok_step; assumption.
    - destruct Hin as [<-|[]]. discriminate. }
  split; [exact Hi|].
  destruct (br_value (led_ctrl_breathe st) !! Z.to_nat i) as [v|] eqn:Ev.
  - exists v. split; [reflexivity|].
    exact (led_ctrl_step_cb_reads st i v Hidx Ev).
  - apply lookup_ge_None in Ev. lia.
Qed.

(* ================================================================ *)
(** ** What a request submission leaves alone *)

(** Decide every test of the goal by cases, projecting as it goes. *)
Ltac if_cases :=
  st_step;
  repeat (match goal with
          | |- context [if ?c then _ else _] => destruct c eqn:?
          end; st_step).

(** [led_ctrl_start] writes nothing to sysfs and leaves the backend,
    the sysfs flag and the init flags alone. *)
Lemma led_ctrl_start_frame next st :
  sysfs_log (led_ctrl_start next st) = sysfs_log st /\
  led_control (led_ctrl_start next st) = led_control st /\
  led_ctrl_uses_sysfs (led_ctrl_start next st) = led_ctrl_uses_sysfs st /\
  init_done (led_ctrl_start next st) = init_done st /\
  init_ack (led_ctrl_start next st) = init_ack st.
Proof.
  unfold led_ctrl_start. cbv zeta. if_cases; repeat split.
Qed.

(** The curve table after [led_ctrl_start]. *)
Lemma led_ctrl_start_breathe next st :
  led_ctrl_breathe (led_ctrl_start next st) =
  let work := led_request_sanitize next in
  if led_request_is_equal (led_ctrl_curr st) work then led_ctrl_breathe st
  else if led_style_eqb (led_request_get_style (led_ctrl_curr st)) STYLE_BREATH &&
          led_style_eqb (led_request_get_style work) STYLE_BREATH &&
          led_request_has_equal_timing (led_ctrl_curr st) work
       then led_ctrl_breathe st
       else if led_style_eqb (led_request_get_style work) STYLE_BREATH
            then led_ctrl_generate_ramp (req_on work) (req_off work)
                   (br_set_delay 0 (led_ctrl_breathe st))
            else br_set_delay 0 (led_ctrl_breathe st).
Proof.
  unfold led_ctrl_start. cbv zeta.
  destruct (led_request_is_equal _ _); [reflexivity|].
  destruct (_ && _); cbn [negb]; [reflexivity|].
  destruct (led_style_eqb (led_request_get_style (led_request_sanitize next)) _);
    if_cases; reflexivity.
Qed.

(* ================================================================ *)
(** ** Channel scaling: end points and order *)

Lemma scale_value_full v : 0 <= v <= 255 -> led_util_scale_value v 255 = v.
Proof.
  clear sinf_sample.
  intros Hv. rewrite scale_value_unfold by (unfold INT_MIN, INT_MAX; lia).
  cbv zeta.
  assert (E : Z.quot (v * 255 + 128) 255 = v).
  { rewrite Z.quot_div_nonneg by lia.
    symmetry. apply Z.div_unique with (r := 128); lia. }
  rewrite E. split_tests; lia.
Qed.

(** X1: Scaling maps 0 to 0 and 255 to the maximum, is the identity for
    the maximum 255, and never reverses the order of two values. *)
Theorem led_util_scale_value_endpoints_monotone (m v w : Z) :
  0 <= m -> 255 * m + 128 <= INT_MAX ->
  0 <= v <= w -> w <= 255 ->
  led_util_scale_value 0 m = 0 /\
  led_util_scale_value 255 m = m /\
  led_util_scale_value v 255 = v /\
  led_util_scale_value v m <= led_util_scale_value w m.
Proof.
  clear sinf_sample.
  intros Hm Hmax Hv Hw. unfold INT_MAX in Hmax.
  assert (Hr : forall x, 0 <= x <= 255 ->
                 INT_MIN <= x * m /\ x * m + 128 <= INT_MAX).
  { intros x Hx. unfold INT_MIN, INT_MAX. nia. }
  split; [|split; [|split]].
  - rewrite scale_value_unfold by (apply Hr; lia). cbv zeta.
    replace (Z.quot (0 * m + 128) 255) with 0 by (rewrite Z.mul_0_l; reflexivity).
    split_tests; lia.
  - rewrite scale_value_unfold by (apply Hr; lia). cbv zeta.
    assert (E : Z.quot (255 * m + 128) 255 = m).
    { rewrite Z.quot_div_nonneg by lia.
      symmetry. apply Z.div_unique with (r := 128); lia. }
    rewrite E. split_tests; lia.
  - apply scale_value_full. lia.
  - rewrite !scale_value_unfold by (apply Hr; lia). cbv zeta.
    assert (Hq : Z.quot (v * m + 128) 255 <= Z.quot (w * m + 128) 255).
    { apply Z.quot_le_mono; [lia|]. nia. }
    assert (H0 : 0 <= Z.quot (v * m + 128) 255).
    { apply Z.quot_pos; nia. }
    split_tests; lia.
Qed.

(* ================================================================ *)
(** ** The timer callbacks *)

Lemma led_control_value_settled ctl r g b log log' :
  (ctl_backend ctl = None -> log' = log) ->
  log_settled log ->
  log_settled (led_control_value ctl r g b log').
Proof.
  intros Hclosed Hlog. unfold led_control_value, led_control_enable, log_settled.
  destruct (ctl_backend ctl) as [[|]|].
  - now rewrite last_snoc.
  - now rewrite last_snoc.
  - now rewrite Hclosed.
Qed.

Lemma led_control_blink_closed ctl on off log :
  ctl_backend ctl = None -> led_control_blink ctl on off log = log.
Proof. unfold led_control_blink. now intros ->. Qed.

Lemma led_control_value_closed ctl r g b log :
  ctl_backend ctl = None -> led_control_value ctl r g b log = log.
Proof. unfold led_control_value. now intros ->. Qed.

(** X2: The stop callback. With the stop timer pending it clears the
    timer id and the blink reset flag and keeps the current request
    and the curve. When the current request has no color it writes
    the value (0,0,0), after blink (0,0) when the reset flag was set,
    and arms no timer. When it has a color it arms one timer: the step
    timer at the curve delay when that is positive, else the one-shot
    timer of the static callback at 10 ms; it writes blink (0,0) and
    value (0,0,0) when the reset flag was set and nothing otherwise. *)
Theorem led_ctrl_stop_cb_spec (st : led_ctrl_state) :
  led_ctrl_stop_id st <> 0 ->
  let st' := fst (led_ctrl_stop_cb st) in
  let ctl := led_control st in
  let delay := br_delay (led_ctrl_breathe st) in
  snd (led_ctrl_stop_cb st) = false /\
  led_ctrl_stop_id st' = 0 /\
  reset_blinking st' = false /\
  led_ctrl_curr st' = led_ctrl_curr st /\
  led_ctrl_breathe st' = led_ctrl_breathe st /\
  (led_request_has_color (led_ctrl_curr st) = false ->
     loop_sources st' = loop_sources st /\
     led_ctrl_step_id st' = led_ctrl_step_id st /\
     sysfs_log st' =
       led_control_value ctl 0 0 0
         (if reset_blinking st then led_control_blink ctl 0 0 (sysfs_log st)
          else sysfs_log st)) /\
  (led_request_has_color (led_ctrl_curr st) = true ->
     loop_sources st' =
       loop_sources st ++
         [if 0 <? delay
          then mk_source (Z.pos (loop_next_id st)) delay CB_step
          else mk_source (Z.pos (loop_next_id st)) LED_CTRL_KERNEL_DELAY CB_static] /\
     led_ctrl_step_id st' = Z.pos (loop_next_id st) /\
     sysfs_log st' =
       if reset_blinking st
       then led_control_value ctl 0 0 0 (led_control_blink ctl 0 0 (sysfs_log st))
       else sysfs_log st).
Proof.
  intros Hid. cbv zeta. unfold led_ctrl_stop_cb.
  destruct st as [curr br sysfs ctl stop step rb idone iack srcs nxt log].
  st_step. destruct (Z.eqb_spec stop 0); [contradiction|].
  st_run; repeat split; intros; try discriminate; try reflexivity;
    exfalso; lia.
Qed.

(** X3: The static callback. With its timer pending it clears the timer
    id, attaches nothing, and writes the on/off periods of the current
    request followed by its color scaled by the brightness level (and
    then by the channel maxima). On a vanilla backend with maxima 255
    and at level 255 a color within 0 ... 255 is written as it is. *)
Theorem led_ctrl_static_cb_spec (st : led_ctrl_state) :
  led_ctrl_step_id st <> 0 ->
  let st' := fst (led_ctrl_static_cb st) in
  let q := led_ctrl_curr st in
  snd (led_ctrl_static_cb st) = false /\
  led_ctrl_step_id st' = 0 /\
  led_ctrl_stop_id st' = led_ctrl_stop_id st /\
  loop_sources st' = loop_sources st /\
  led_ctrl_curr st' = q /\
  led_ctrl_breathe st' = led_ctrl_breathe st /\
  sysfs_log st' =
    led_control_value (led_control st)
      (led_util_scale_value (req_r q) (req_level q))
      (led_util_scale_value (req_g q) (req_level q))
      (led_util_scale_value (req_b q) (req_level q))
      (led_control_blink (led_control st) (req_on q) (req_off q) (sysfs_log st)) /\
  (led_control st = mk_led_control (Some BACKEND_VANILLA) 255 255 255 ->
   req_level q = 255 -> color_in_range q ->
   sysfs_log st' =
     sysfs_log st ++ [WR_BLINK (req_on q) (req_off q);
                      WR_VALUE (req_r q) (req_g q) (req_b q)]).
Proof.
  intros Hid. cbv zeta. unfold led_ctrl_static_cb.
  destruct st as [curr br sysfs ctl stop step rb idone iack srcs nxt log].
  st_step. destruct (Z.eqb_spec step 0); [contradiction|]. st_step.
  repeat split.
  intros -> Hl (Hr & Hg & Hb). rewrite Hl.
  unfold led_control_value, led_control_blink, led_control_enable.
  cbn [ctl_backend ctl_maxval_r ctl_maxval_g ctl_maxval_b].
  rewrite (scale_value_full (req_r curr)), (scale_value_full (req_g curr)),
    (scale_value_full (req_b curr)) by lia.
  rewrite (scale_value_full (req_r curr)), (scale_value_full (req_g curr)),
    (scale_value_full (req_b curr)) by lia.
  now rewrite <- app_assoc.
Qed.

(** One breathing step: the index read, the index left behind and the
    index the next step will read. *)
Lemma led_ctrl_step_cb_next st :
  led_ctrl_step_id st <> 0 ->
  1 <= br_steps (led_ctrl_breathe st) ->
  0 <= br_step (led_ctrl_breathe st) ->
  let i := br_step (breathe_wrap (led_ctrl_breathe st)) in
  let st' := fst (led_ctrl_step_cb st) in
  0 <= i < br_steps (led_ctrl_breathe st) /\
  snd (led_ctrl_step_cb st) = true /\
  led_ctrl_step_id st' = led_ctrl_step_id st /\
  br_steps (led_ctrl_breathe st') = br_steps (led_ctrl_breathe st) /\
  br_step (led_ctrl_breathe st') = i + 1 /\
  br_step (breathe_wrap (led_ctrl_breathe st')) =
    (i + 1) mod br_steps (led_ctrl_breathe st) /\
  loop_sources st' = loop_sources st /\
  led_ctrl_curr st' = led_ctrl_curr st.
Proof.
  intros Hid Hsteps Hstep. cbv zeta. unfold led_ctrl_step_cb.
  destruct st as [curr br sysfs ctl stop step rb idone iack srcs nxt log].
  st_step. destruct (Z.eqb_spec step 0); [contradiction|]. st_step.
  destruct br as [i k d v]. unfold breathe_wrap in *. st_step.
  destruct (Z.leb_spec k i); st_step.
  - destruct (Z.leb_spec k (0 + 1)); st_step; repeat split; try lia.
    + assert (k = 1) as -> by lia. reflexivity.
    + rewrite Z.mod_small by lia. reflexivity.
  - destruct (Z.leb_spec k (i + 1)); st_step; repeat split; try lia.
    + assert (i + 1 = k) as -> by lia. now rewrite Z.mod_same by lia.
    + rewrite Z.mod_small by lia. reflexivity.
Qed.

(** The step callback leaves the table as it is. *)
Lemma led_ctrl_step_cb_value st :
  br_value (led_ctrl_breathe (fst (led_ctrl_step_cb st)))
  = br_value (led_ctrl_breathe st).
Proof.
  unfold led_ctrl_step_cb. cbv zeta.
  destruct st as [curr br sysfs ctl stop step rb idone iack srcs nxt log].
  st_step. destruct (step =? 0); st_step; [reflexivity|].
  unfold breathe_wrap. destruct (br_steps br <=? br_step br); reflexivity.
Qed.

Lemma step_fires_value n st :
  br_value (led_ctrl_breathe (step_fires n st)) = br_value (led_ctrl_breathe st).
Proof.
  induction n as [|n IH]; [reflexivity|].
  change (step_fires (S n) st) with (fst (led_ctrl_step_cb (step_fires n st))).
  rewrite led_ctrl_step_cb_value. exact IH.
Qed.

(** X4: The step timer walks the curve cyclically. With the step timer
    id set, a curve of at least one sample that fits the table and the
    wrapped index at [i0], the callback run after [n] earlier expiries
    reads the sample at [(i0 + n) mod steps]: the table has a sample
    there, and the callback writes the color scaled by the brightness
    level and by that sample, leaves the index behind it in [step] and
    returns true (the timer stays attached). The expiries change
    neither the table, the sample count, the attached sources nor the
    current request. *)
Theorem led_ctrl_step_cb_cycles (st : led_ctrl_state) (n : nat) :
  led_ctrl_step_id st <> 0 ->
  1 <= br_steps (led_ctrl_breathe st) ->
  0 <= br_step (led_ctrl_breathe st) ->
  br_steps (led_ctrl_breathe st)
    <= Z.of_nat (length (br_value (led_ctrl_breathe st))) ->
  let i0 := br_step (breathe_wrap (led_ctrl_breathe st)) in
  let stn := step_fires n st in
  let i := (i0 + Z.of_nat n) mod br_steps (led_ctrl_breathe st) in
  let l := req_level (led_ctrl_curr st) in
  step_cb_index stn = Some i /\
  (exists v,
     br_value (led_ctrl_breathe st) !! Z.to_nat i = Some v /\
     led_ctrl_step_cb stn =
       (led_ctrl_set_rgb_value
          (led_util_scale_value
             (led_util_scale_value (req_r (led_ctrl_curr st)) l) v)
          (led_util_scale_value
             (led_util_scale_value (req_g (led_ctrl_curr st)) l) v)
          (led_util_scale_value
             (led_util_scale_value (req_b (led_ctrl_curr st)) l) v)
          (set_breathe (br_set_step (i + 1) (led_ctrl_breathe stn)) stn),
        true)) /\
  snd (led_ctrl_step_cb stn) = true /\
  br_value (led_ctrl_breathe stn) = br_value (led_ctrl_breathe st) /\
  br_steps (led_ctrl_breathe stn) = br_steps (led_ctrl_breathe st) /\
  loop_sources stn = loop_sources st /\
  led_ctrl_curr stn = led_ctrl_curr st.
Proof.
  intros Hid Hsteps Hstep Hfit. cbv zeta.
  assert (H : led_ctrl_step_id (step_fires n st) <> 0 /\
              0 <= br_step (led_ctrl_breathe (step_fires n st)) /\
              br_steps (led_ctrl_breathe (step_fires n st))
              = br_steps (led_ctrl_breathe st) /\
              br_step (breathe_wrap (led_ctrl_breathe (step_fires n st)))
              = (br_step (breathe_wrap (led_ctrl_breathe st)) + Z.of_nat n)
                  mod br_steps (led_ctrl_breathe st) /\
              loop_sources (step_fires n st) = loop_sources st /\
              led_ctrl_curr (step_fires n st) = led_ctrl_curr st).
  { induction n as [|n IH].
    - cbn [step_fires Nat.iter]. repeat split; try assumption.
      destruct (led_ctrl_step_cb_next st Hid Hsteps Hstep) as (Hi & _).
      rewrite Z.add_0_r, Z.mod_small by exact Hi. reflexivity.
    - destruct IH as (Hid' & Hstep' & Esteps & Eidx & Esrc & Ecurr).
      assert (Hsteps' : 1 <= br_steps (led_ctrl_breathe (step_fires n st)))
        by (rewrite Esteps; exact Hsteps).
      destruct (led_ctrl_step_cb_next (step_fires n st) Hid' Hsteps' Hstep')
        as (Hi & _ & Fid & Fsteps & Fstep & Fidx & Fsrc & Fcurr).
      change (step_fires (S n) st) with (fst (led_ctrl_step_cb (step_fires n st))).
      rewrite Fid, Fsteps, Fstep, Fidx, Fsrc, Fcurr, Esteps, Eidx, Esrc, Ecurr.
      repeat split; try assumption; try lia.
      rewrite Z.add_mod_idemp_l by lia. f_equal. lia. }
  destruct H as (Hid' & Hstep' & Esteps & Eidx & Esrc & Ecurr).
  assert (Hsteps' : 1 <= br_steps (led_ctrl_breathe (step_fires n st)))
    by (rewrite Esteps; exact Hsteps).
  destruct (led_ctrl_step_cb_next (step_fires n st) Hid' Hsteps' Hstep')
    as (_ & Htrue & _).
  pose proof (step_fires_value n st) as Evalue.
  assert (Hidx : step_cb_index (step_fires n st)
                 = Some ((br_step (breathe_wrap (led_ctrl_breathe st)) + Z.of_nat n)
                         mod br_steps (led_ctrl_breathe st))).
  { unfold step_cb_index.
    destruct (Z.eqb_spec (led_ctrl_step_id (step_fires n st)) 0); [contradiction|].
    rewrite Eidx. reflexivity. }
  set (i := (br_step (breathe_wrap (led_ctrl_breathe st)) + Z.of_nat n)
            mod br_steps (led_ctrl_breathe st)) in *.
  assert (Hi : 0 <= i < br_steps (led_ctrl_breathe st))
    by (apply Z.mod_pos_bound; lia).
  split; [exact Hidx|]. split.
  - destruct (br_value (led_ctrl_breathe st) !! Z.to_nat i) as [v|] eqn:Ev.
    + exists v. split; [reflexivity|].
      rewrite <- Evalue in Ev.
      pose proof (led_ctrl_step_cb_reads (step_fires n st) i v Hidx Ev) as Hrd.
      cbv zeta in Hrd. rewrite Ecurr in Hrd. exact Hrd.
    + apply lookup_ge_None in Ev. lia.
  - repeat split; assumption.
Qed.

(* ================================================================ *)
(** ** Invariants of the request and of the write trace *)

Lemma led_style_eqb_eq x y : led_style_eqb x y = true <-> x = y.
Proof. destruct x, y; cbn; split; congruence. Qed.

Lemma sanitize_twice q :
  led_request_sanitize (led_request_sanitize q) = led_request_sanitize q.
Proof.
  destruct (sanitize_cases (led_request_sanitize q))
    as [(Hc & E)|[(Hc & Ht & E)|[(Hc & Hon & Hoff & Ht & E)|(_ & _ & _ & E)]]];
    rewrite E;
    destruct (sanitize_cases q)
      as [(Hc' & E')|[(Hc' & Ht' & E')|[(Hc' & Hon' & Hoff' & Ht' & E')|
                     (Hc' & Hon' & Hoff' & E')]]];
    rewrite E' in *; try reflexivity;
    unfold no_color in *;
    cbn [req_set_timing req_set_breathe req_r req_g req_b req_on req_off] in *;
    try lia; tauto.
Qed.

Lemma sanitize_timing_settled q :
  timing_settled q -> timing_settled (led_request_sanitize q).
Proof.
  unfold timing_settled.
  destruct (sanitize_cases q)
    as [(_ & ->)|[(_ & _ & ->)|[(_ & _ & _ & _ & ->)|(_ & _ & _ & ->)]]];
    cbn; lia.
Qed.

(** What the callbacks leave alone, and what they do to the trace. *)
Lemma timer_cb_run_frame cb st :
  let st' := fst (timer_cb_run cb st) in
  led_ctrl_curr st' = led_ctrl_curr st /\
  led_control st' = led_control st /\
  led_ctrl_uses_sysfs st' = led_ctrl_uses_sysfs st /\
  init_done st' = init_done st /\
  br_delay (led_ctrl_breathe st') = br_delay (led_ctrl_breathe st) /\
  br_steps (led_ctrl_breathe st') = br_steps (led_ctrl_breathe st) /\
  (ctl_backend (led_control st) = None -> sysfs_log st' = sysfs_log st) /\
  (log_settled (sysfs_log st) -> log_settled (sysfs_log st')).
Proof.
  cbv zeta.
  destruct st as [curr br sysfs ctl stop step rb idone iack srcs nxt log].
  destruct cb; unfold timer_cb_run, led_ctrl_stop_cb, led_ctrl_step_cb,
    led_ctrl_static_cb; st_run.
  all: try rewrite breathe_wrap_delay; try rewrite breathe_wrap_steps.
  all: repeat split; try reflexivity.
  all: try (intros Hc; rewrite ?led_control_value_closed, ?led_control_blink_closed
              by exact Hc; reflexivity).
  all: try (intros Hs; exact Hs).
  all: intros Hs; apply led_control_value_settled with (log := log);
    [intros Hc; rewrite ?led_control_blink_closed by exact Hc; reflexivity
    |exact Hs].
Qed.

Lemma main_loop_dispatch_frame id st :
  let st' := main_loop_dispatch id st in
  led_ctrl_curr st' = led_ctrl_curr st /\
  led_control st' = led_control st /\
  led_ctrl_uses_sysfs st' = led_ctrl_uses_sysfs st /\
  init_done st' = init_done st /\
  br_delay (led_ctrl_breathe st') = br_delay (led_ctrl_breathe st) /\
  br_steps (led_ctrl_breathe st') = br_steps (led_ctrl_breathe st) /\
  (ctl_backend (led_control st) = None -> sysfs_log st' = sysfs_log st) /\
  (log_settled (sysfs_log st) -> log_settled (sysfs_log st')).
Proof.
  cbv zeta. unfold main_loop_dispatch.
  destruct (List.find _ _) as [s|]; [|repeat split; auto].
  pose proof (timer_cb_run_frame (src_cb s) st) as H. cbv zeta in H.
  destruct (timer_cb_run (src_cb s) st) as [st' again]. cbn [fst] in H.
  destruct again; [exact H|].
  destruct st' as [curr br sysfs ctl stop step rb idone iack srcs nxt log].
  st_step. exact H.
Qed.

(** The request part of the invariant after [led_ctrl_start] on a
    request with level, periods and channels in range, once sysfs is in
    use. *)
Lemma led_ctrl_start_request_inv next st :
  1 <= req_level next <= 255 -> timing_settled next -> color_in_range next ->
  breathe_follows_style st -> log_settled (sysfs_log st) ->
  led_ctrl_uses_sysfs st = true -> init_done st = true ->
  request_inv (led_ctrl_start next st).
Proof.
  intros Hlevel Htiming Hcolor (Hbreath & Hother) Hlog Hsysfs Hdone.
  destruct (led_ctrl_start_frame next st) as (Flog & _ & Fsysfs & Fdone & _).
  pose proof (sanitize_timing_settled next Htiming) as Hts.
  unfold request_inv. rewrite led_ctrl_start_curr, Flog, Fsysfs, Fdone, Hsysfs.
  split; [apply sanitize_twice|].
  split; [destruct (sanitize_color next) as (_ & _ & _ & ->); exact Hlevel|].
  split; [exact Hts|].
  split; [|split; [exact Hlog|split; [now apply sanitize_color_in_range|exact Hdone]]].
  unfold breathe_follows_style.
  rewrite led_ctrl_start_curr, led_ctrl_start_breathe. cbv zeta.
  set (work := led_request_sanitize next) in *.
  destruct (led_request_is_equal (led_ctrl_curr st) work) eqn:Eeq.
  { apply led_request_is_equal_eq in Eeq. rewrite <- Eeq. auto. }
  destruct (led_style_eqb (led_request_get_style work) STYLE_BREATH) eqn:Enew.
  - apply led_style_eqb_eq in Enew.
    destruct (led_style_eqb (led_request_get_style (led_ctrl_curr st)) STYLE_BREATH
              && true && led_request_has_equal_timing (led_ctrl_curr st) work)
      eqn:Econt.
    + apply andb_true_iff in Econt. destruct Econt as (Eold & _).
      apply andb_true_iff in Eold. destruct Eold as (Eold & _).
      apply led_style_eqb_eq in Eold. split; [auto|congruence].
    + split; [|congruence]. intros _.
      destruct (style_breath_inv work Enew) as (_ & Hon & Hoff & _).
      assert (Hr : 0 < req_on work <= 60000 /\ 0 < req_off work <= 60000)
        by (unfold timing_settled in Hts; lia).
      destruct (generate_ramp_ok (req_on work) (req_off work)
                  (br_set_delay 0 (led_ctrl_breathe st)))
        as (_ & Hd & Hs & _); [lia|lia|]. lia.
  - rewrite andb_false_r. cbn [andb].
    split; [intros E; apply led_style_eqb_eq in E; congruence|reflexivity].
Qed.

Lemma request_inv_init : request_inv led_ctrl_state_init.
Proof.
  unfold request_inv, breathe_follows_style, timing_settled, log_settled.
  cbn. repeat split; try lia; discriminate.
Qed.

(** The request part of the invariant only looks at these fields. *)
Lemma request_inv_frame st st' :
  led_ctrl_curr st' = led_ctrl_curr st ->
  br_delay (led_ctrl_breathe st') = br_delay (led_ctrl_breathe st) ->
  br_steps (led_ctrl_breathe st') = br_steps (led_ctrl_breathe st) ->
  sysfs_log st' = sysfs_log st ->
  led_ctrl_uses_sysfs st' = led_ctrl_uses_sysfs st ->
  init_done st' = init_done st ->
  loop_sources st' = loop_sources st ->
  ctl_backend (led_control st') = ctl_backend (led_control st) ->
  request_inv st -> request_inv st'.
Proof.
  unfold request_inv, breathe_follows_style.
  intros -> -> -> -> -> -> -> ->. auto.
Qed.

Lemma main_loop_dispatch_request_inv id st :
  request_inv st -> request_inv (main_loop_dispatch id st).
Proof.
  intros Hinv.
  destruct (led_ctrl_uses_sysfs st) eqn:Hs.
  - destruct (main_loop_dispatch_frame id st)
      as (Fcurr & _ & Fsysfs & Fdone & Fdelay & Fsteps & _ & Flog).
    destruct Hinv as (H1 & H2 & H3 & H4 & H5 & H6).
    unfold request_inv, breathe_follows_style in *.
    rewrite Fcurr, Fsysfs, Fdone, Fdelay, Fsteps. rewrite Hs in *.
    auto 10.
  - assert (E : main_loop_dispatch id st = st).
    { destruct Hinv as (_ & _ & _ & _ & _ & H6). rewrite Hs in H6.
      destruct H6 as (_ & _ & Hsrc & _).
      unfold main_loop_dispatch. now rewrite Hsrc. }
    now rewrite E.
Qed.

Lemma mce_hybris_indicator_init_request_inv env st :
  request_inv st -> request_inv (fst (mce_hybris_indicator_init env st)).
Proof.
  intros Hinv. unfold mce_hybris_indicator_init, led_ctrl_probe_sysfs_files.
  destruct (init_done st) eqn:Hdone; [exact Hinv|].
  destruct Hinv as (H1 & H2 & H3 & H4 & H5 & H6).
  destruct (led_ctrl_uses_sysfs st) eqn:Hs; [destruct H6; congruence|].
  destruct H6 as (Hcurr & Hlog & Hsrc & Hctl).
  destruct (env_sysfs_probe env) as [ctl|]; st_step.
  - eapply request_inv_frame;
      [..|apply led_ctrl_start_request_inv with
             (next := req_set_color 0 0 0 (led_ctrl_curr st))
             (st := set_uses_sysfs true (set_control ctl (set_init_done true st)))];
      try reflexivity.
    + rewrite Hcurr. cbn. lia.
    + rewrite Hcurr. left. cbn. lia.
    + unfold color_in_range. cbn. lia.
    + exact H4.
    + exact H5.
  - destruct (env_modlights_load env), (env_indicator_open env); st_step;
      unfold request_inv, breathe_follows_style in *; st_step;
      auto 10.
Qed.

Lemma set_pattern_request_settled r g b ms_on ms_off curr :
  timing_settled (set_pattern_request r g b ms_on ms_off curr).
Proof.
  unfold timing_settled, set_pattern_request, clamp.
  cbn [req_on req_off].
  destruct (Z.ltb_spec (Z.max 0 (Z.min ms_on 60000)) 50),
           (Z.ltb_spec (Z.max 0 (Z.min ms_off 60000)) 50);
    cbn [orb]; lia.
Qed.

Lemma mce_hybris_indicator_set_pattern_request_inv env r g b ms_on ms_off st :
  request_inv st ->
  request_inv (fst (mce_hybris_indicator_set_pattern env r g b ms_on ms_off st)).
Proof.
  intros Hinv. destruct (led_ctrl_uses_sysfs st) eqn:Hs.
  - rewrite set_pattern_sysfs by exact Hs. cbn [fst].
    destruct Hinv as (H1 & H2 & H3 & H4 & H5 & H6). rewrite Hs in H6.
    apply led_ctrl_start_request_inv;
      [exact H2|apply set_pattern_request_settled
      |apply set_pattern_request_in_range|exact H4|exact H5|exact Hs|apply H6].
  - unfold mce_hybris_indicator_set_pattern. rewrite Hs.
    pose proof (mce_hybris_indicator_init_request_inv env st Hinv) as Hi.
    destruct (mce_hybris_indicator_init env st) as [st' ok]. cbn [fst] in Hi.
    destruct ok; cbn [negb]; [destruct (env_set_light env)|]; exact Hi.
Qed.

Lemma mce_hybris_indicator_enable_breathing_request_inv enable st :
  request_inv st -> request_inv (mce_hybris_indicator_enable_breathing enable st).
Proof.
  intros Hinv. unfold mce_hybris_indicator_enable_breathing.
  destruct (led_ctrl_uses_sysfs st) eqn:Hs; cbn [negb]; [|exact Hinv].
  destruct Hinv as (H1 & H2 & H3 & H4 & H5 & H6). rewrite Hs in H6.
  apply led_ctrl_start_request_inv;
    [exact H2|exact H3|apply H6|exact H4|exact H5|exact Hs|apply H6].
Qed.

Lemma mce_hybris_indicator_set_brightness_request_inv level st :
  request_inv st ->
  request_inv (fst (mce_hybris_indicator_set_brightness level st)).
Proof.
  intros Hinv. unfold mce_hybris_indicator_set_brightness.
  destruct (led_ctrl_uses_sysfs st) eqn:Hs; cbn [negb fst]; [|exact Hinv].
  destruct Hinv as (H1 & H2 & H3 & H4 & H5 & H6). rewrite Hs in H6.
  apply led_ctrl_start_request_inv;
    [|exact H3|apply H6|exact H4|exact H5|exact Hs|apply H6].
  cbn [req_set_level req_level]. rewrite clamp_to_range_spec by lia.
  unfold clamp. lia.
Qed.

Lemma mce_hybris_indicator_quit_request_inv st :
  request_inv st -> request_inv (mce_hybris_indicator_quit st).
Proof.
  intros Hinv. unfold mce_hybris_indicator_quit.
  destruct (led_ctrl_uses_sysfs st) eqn:Hs; [|exact Hinv].
  destruct Hinv as (H1 & H2 & H3 & H4 & H5 & H6). rewrite Hs in H6.
  destruct st as [curr br sysfs ctl stop step rb idone iack srcs nxt log].
  unfold request_inv, breathe_follows_style in *. st_step. subst sysfs.
  assert (Hlog : forall l, (ctl_backend ctl = None -> l = log) ->
                           log_settled (led_control_value ctl 0 0 0 l)).
  { intros l Hl. now apply led_control_value_settled with (log := log). }
  st_run;
    (split; [exact H1|split; [exact H2|split; [exact H3|split; [exact H4|
     split; [|split; apply H6]]]]];
     apply Hlog; intros Hc; now rewrite led_control_blink_closed).
Qed.

Lemma led_op_run_request_inv op st :
  request_inv st -> request_inv (led_op_run op st).
Proof.
  intros Hinv. destruct op; cbn [led_op_run].
  - now apply mce_hybris_indicator_init_request_inv.
  - now apply mce_hybris_indicator_set_pattern_request_inv.
  - now apply mce_hybris_indicator_enable_breathing_request_inv.
  - now apply mce_hybris_indicator_set_brightness_request_inv.
  - now apply main_loop_dispatch_request_inv.
  - now apply mce_hybris_indicator_quit_request_inv.
Qed.

Lemma reachable_request_inv ops :
  request_inv (led_ops_run ops led_ctrl_state_init).
Proof.
  unfold led_ops_run.
  assert (H : forall st, request_inv st ->
                request_inv (fold_left (fun st op => led_op_run op st) ops st)).
  { induction ops as [|op ops IH]; intros st Hinv; cbn [fold_left].
    - exact Hinv.
    - apply IH. now apply led_op_run_request_inv. }
  apply H, request_inv_init.
Qed.

(* ================================================================ *)
(** ** Properties of the reachable states *)

(** X5: In every reachable state the current request is a fixed point of
    sanitization, its level lies in 1 ... 255 and its periods are both
    zero or both within 50 ... 60000; once sysfs is in use its channels
    lie in 0 ... 255, and before that it is still the initial value. *)
Theorem current_request_well_formed (ops : list led_op) :
  let st := led_ops_run ops led_ctrl_state_init in
  let q := led_ctrl_curr st in
  led_request_sanitize q = q /\
  1 <= req_level q <= 255 /\
  ((req_on q = 0 /\ req_off q = 0) \/
   (50 <= req_on q <= 60000 /\ 50 <= req_off q <= 60000)) /\
  (led_ctrl_uses_sysfs st = true -> color_in_range q) /\
  (led_ctrl_uses_sysfs st = false -> q = led_ctrl_curr_init).
Proof.
  cbv zeta. destruct (reachable_request_inv ops) as (H1 & H2 & H3 & _ & _ & H6).
  split; [exact H1|]. split; [exact H2|]. split; [exact H3|].
  destruct (led_ctrl_uses_sysfs _); split; intros E; try discriminate E;
    apply H6.
Qed.

(** X6: In every reachable state the delay of the curve table tells
    whether the controller breathes: with a current request of style
    BREATH the delay is at least 20 ms and the curve has 1 ... 256
    samples; with any other style the delay is 0. *)
Theorem delay_follows_style (ops : list led_op) :
  let st := led_ops_run ops led_ctrl_state_init in
  (led_request_get_style (led_ctrl_curr st) = STYLE_BREATH ->
   20 <= br_delay (led_ctrl_breathe st) /\
   1 <= br_steps (led_ctrl_breathe st) <= 256) /\
  (led_request_get_style (led_ctrl_curr st) <> STYLE_BREATH ->
   br_delay (led_ctrl_breathe st) = 0).
Proof.
  cbv zeta.
  destruct (reachable_request_inv ops) as (_ & _ & _ & (Hb & Ho) & _).
  destruct (reachable_inv ops) as (_ & (_ & Hsteps & _) & _).
  unfold LED_CTRL_MAX_STEPS in Hsteps.
  split; [|exact Ho]. intros E. specialize (Hb E). lia.
Qed.

(** X7: In every reachable state the trace of sysfs writes does not end
    with a blink write or with a disable: each blink write and each
    disable is followed, within the same operation, by a value write
    (and on the hammerhead backend by the enable after it). *)
Theorem writes_end_with_value (ops : list led_op) :
  let st := led_ops_run ops led_ctrl_state_init in
  forall w, last (sysfs_log st) = Some w ->
            (exists r g b, w = WR_VALUE r g b) \/ w = WR_ENABLE true.
Proof.
  cbv zeta. intros w Hw.
  destruct (reachable_request_inv ops) as (_ & _ & _ & _ & Hlog & _).
  unfold log_settled in Hlog. rewrite Hw in Hlog.
  destruct w as [[|]| |r g b]; try contradiction; eauto.
Qed.

(** X8: As long as no sysfs backend is in use the controller has written
    nothing, has no timer attached, and its current request is the
    initial one. *)
Theorem no_sysfs_no_activity (ops : list led_op) :
  let st := led_ops_run ops led_ctrl_state_init in
  led_ctrl_uses_sysfs st = false ->
  sysfs_log st = [] /\ loop_sources st = [] /\
  led_ctrl_stop_id st = 0 /\ led_ctrl_step_id st = 0 /\
  led_ctrl_curr st = led_ctrl_curr_init /\
  ctl_backend (led_control st) = None.
Proof.
  cbv zeta. intros Hs.
  destruct (reachable_request_inv ops) as (_ & _ & _ & _ & _ & H6).
  destruct (reachable_inv ops) as (_ & _ & Ht).
  rewrite Hs in H6. destruct H6 as (Hcurr & Hlog & Hsrc & Hctl).
  unfold timers_ok in Ht. rewrite Hsrc in Ht.
  assert (Hids : led_ctrl_stop_id (led_ops_run ops led_ctrl_state_init) = 0 /\
                 led_ctrl_step_id (led_ops_run ops led_ctrl_state_init) = 0).
  { destruct Ht as [(_ & ? & ?)|[(? & ? & E & _)|[(? & ? & E & _)|(? & ? & E & _)]]];
      [auto|discriminate E..]. }
  repeat split; try assumption; apply Hids.
Qed.

(** X9: In every reachable state at most one timeout source is attached
    and at most one of the two timer ids is nonzero. A nonzero stop id
    means exactly the stop timer is attached under that id; a nonzero
    step id means exactly one timer of the step or the static callback
    is attached under that id, the step callback only with a positive
    curve delay. *)
Theorem timers_exclusive (ops : list led_op) :
  let st := led_ops_run ops led_ctrl_state_init in
  (length (loop_sources st) <= 1)%nat /\
  (led_ctrl_stop_id st = 0 \/ led_ctrl_step_id st = 0) /\
  (led_ctrl_stop_id st = 0 -> led_ctrl_step_id st = 0 -> loop_sources st = []) /\
  (led_ctrl_stop_id st <> 0 ->
   exists iv, loop_sources st = [mk_source (led_ctrl_stop_id st) iv CB_stop]) /\
  (led_ctrl_step_id st <> 0 ->
   exists iv cb, loop_sources st = [mk_source (led_ctrl_step_id st) iv cb] /\
                 cb <> CB_stop /\
                 (cb = CB_step -> 0 < br_delay (led_ctrl_breathe st))).
Proof.
  cbv zeta. destruct (reachable_inv ops) as (_ & _ & Ht).
  unfold timers_ok in Ht.
  destruct Ht as [(E & Ea & Eb)|[(id & iv & E & Ea & Eb & Hid)|
                 [(id & iv & E & Ea & Eb & Hid & Hd)|(id & iv & E & Ea & Eb & Hid)]]];
    rewrite E, Ea, Eb; cbn [length];
    (split; [lia|]); (split; [lia|]);
    (split; [intros; first [reflexivity|exfalso; lia]|]);
    (split;
     [intros H; first [exfalso; lia|now eexists]
     |intros H;
      first [exfalso; lia
            |do 2 eexists; split; [reflexivity|];
             split; [discriminate|];
             first [intros _; assumption|discriminate]]]).
Qed.

Lemma mce_hybris_indicator_init_log env st :
  sysfs_log (fst (mce_hybris_indicator_init env st)) = sysfs_log st.
Proof.
  unfold mce_hybris_indicator_init, led_ctrl_probe_sysfs_files.
  destruct (init_done st); [reflexivity|].
  destruct (env_sysfs_probe env) as [ctl|]; st_step.
  - destruct (led_ctrl_start_frame (req_set_color 0 0 0 (led_ctrl_curr st))
                (set_uses_sysfs true (set_control ctl (set_init_done true st))))
      as (-> & _). reflexivity.
  - destruct (env_modlights_load env), (env_indicator_open env); reflexivity.
Qed.

(** X10: Submitting a request writes nothing to sysfs: [led_ctrl_start],
    [set_pattern], [enable_breathing], [set_brightness] and [init]
    leave the trace of sysfs writes as it is (every write is made by a
    timer callback or by [quit]), and [set_brightness] always returns
    true. *)
Theorem request_submission_writes_nothing (st : led_ctrl_state) :
  (forall next, sysfs_log (led_ctrl_start next st) = sysfs_log st) /\
  (forall env r g b ms_on ms_off,
     sysfs_log (fst (mce_hybris_indicator_set_pattern env r g b ms_on ms_off st))
     = sysfs_log st) /\
  (forall enable,
     sysfs_log (mce_hybris_indicator_enable_breathing enable st) = sysfs_log st) /\
  (forall level,
     sysfs_log (fst (mce_hybris_indicator_set_brightness level st)) = sysfs_log st /\
     snd (mce_hybris_indicator_set_brightness level st) = true) /\
  (forall env, sysfs_log (fst (mce_hybris_indicator_init env st)) = sysfs_log st).
Proof.
  split; [intros next; apply led_ctrl_start_frame|].
  split.
  { intros env r g b ms_on ms_off.
    destruct (led_ctrl_uses_sysfs st) eqn:Hs.
    - rewrite set_pattern_sysfs by exact Hs. apply led_ctrl_start_frame.
    - unfold mce_hybris_indicator_set_pattern. rewrite Hs.
      pose proof (mce_hybris_indicator_init_log env st) as Hi.
      destruct (mce_hybris_indicator_init env st) as [st' ok]. cbn [fst] in Hi.
      destruct ok; cbn [negb]; [destruct (env_set_light env)|]; exact Hi. }
  split.
  { intros enable. unfold mce_hybris_indicator_enable_breathing.
    destruct (led_ctrl_uses_sysfs st); cbn [negb]; [|reflexivity].
    apply led_ctrl_start_frame. }
  split; [|intros env; apply mce_hybris_indicator_init_log].
  intros level. unfold mce_hybris_indicator_set_brightness.
  destruct (led_ctrl_uses_sysfs st); cbn [negb fst snd]; [|split; reflexivity].
  split; [apply led_ctrl_start_frame|reflexivity].
Qed.

(** With the probing done and the backend closed, no operation opens
    the backend again or writes. *)
Lemma closed_backend_stays op st :
  init_done st = true -> ctl_backend (led_control st) = None ->
  init_done (led_op_run op st) = true /\
  ctl_backend (led_control (led_op_run op st)) = None /\
  sysfs_log (led_op_run op st) = sysfs_log st.
Proof.
  intros Hdone Hctl.
  assert (Hinit : forall env, mce_hybris_indicator_init env st = (st, init_ack st)).
  { intros env. unfold mce_hybris_indicator_init. now rewrite Hdone. }
  assert (Hstart : forall next,
            init_done (led_ctrl_start next st) = true /\
            ctl_backend (led_control (led_ctrl_start next st)) = None /\
            sysfs_log (led_ctrl_start next st) = sysfs_log st).
  { intros next.
    destruct (led_ctrl_start_frame next st) as (-> & -> & _ & -> & _). auto. }
  destruct op; cbn [led_op_run].
  - rewrite Hinit. cbn [fst]. auto.
  - destruct (led_ctrl_uses_sysfs st) eqn:Hs.
    + rewrite set_pattern_sysfs by exact Hs. cbn [fst]. apply Hstart.
    + unfold mce_hybris_indicator_set_pattern. rewrite Hs, Hinit.
      destruct (init_ack st); cbn [negb]; [destruct (env_set_light env)|];
        cbn [fst]; auto.
  - unfold mce_hybris_indicator_enable_breathing.
    destruct (led_ctrl_uses_sysfs st); cbn [negb]; [apply Hstart|auto].
  - unfold mce_hybris_indicator_set_brightness.
    destruct (led_ctrl_uses_sysfs st); cbn [negb fst]; [apply Hstart|auto].
  - destruct (main_loop_dispatch_frame id st)
      as (_ & -> & _ & -> & _ & _ & Hlog & _). auto.
  - unfold mce_hybris_indicator_quit.
    destruct (led_ctrl_uses_sysfs st); [|auto].
    destruct st as [curr br sysfs ctl stop step rb idone iack srcs nxt log].
    st_step. st_run;
      (split; [exact Hdone|split; [reflexivity|]];
       now rewrite led_control_value_closed, led_control_blink_closed).
Qed.

Lemma closed_backend_stays_ops ops : forall st,
  init_done st = true -> ctl_backend (led_control st) = None ->
  init_done (led_ops_run ops st) = true /\
  ctl_backend (led_control (led_ops_run ops st)) = None /\
  sysfs_log (led_ops_run ops st) = sysfs_log st.
Proof.
  unfold led_ops_run.
  induction ops as [|op ops IH]; intros st Hdone Hctl; cbn [fold_left].
  - auto.
  - destruct (closed_backend_stays op st Hdone Hctl) as (Hd & Hc & Hl).
    destruct (IH _ Hd Hc) as (Hd' & Hc' & Hl'). rewrite Hl'. auto.
Qed.

(** The timers after [quit] with sysfs in use. *)
Lemma mce_hybris_indicator_quit_timers st :
  ctrl_inv st -> led_ctrl_uses_sysfs st = true ->
  let st' := mce_hybris_indicator_quit st in
  loop_sources st' = [] /\ led_ctrl_stop_id st' = 0 /\ led_ctrl_step_id st' = 0 /\
  ctl_backend (led_control st') = None /\
  init_done st' = init_done st /\
  sysfs_log st' =
    led_control_value (led_control st) 0 0 0
      (led_control_blink (led_control st) 0 0 (sysfs_log st)).
Proof.
  intros (_ & _ & Ht) Hs. cbv zeta. unfold mce_hybris_indicator_quit.
  rewrite Hs.
  destruct st as [curr br sysfs ctl stop step rb idone iack srcs nxt log].
  unfold timers_ok in Ht. st_step.
  shape_cases Ht; st_run; repeat split; exfalso; lia.
Qed.

(** X11: [quit] with sysfs in use detaches every timer, clears both timer
    ids, writes blink (0,0) and then value (0,0,0) and closes the
    backend. After that no sequence of operations writes to sysfs or
    opens the backend again. *)
Theorem quit_is_final (ops ops' : list led_op) :
  let st := led_ops_run ops led_ctrl_state_init in
  led_ctrl_uses_sysfs st = true ->
  let stq := mce_hybris_indicator_quit st in
  loop_sources stq = [] /\ led_ctrl_stop_id stq = 0 /\ led_ctrl_step_id stq = 0 /\
  sysfs_log stq =
    led_control_value (led_control st) 0 0 0
      (led_control_blink (led_control st) 0 0 (sysfs_log st)) /\
  ctl_backend (led_control stq) = None /\
  ctl_backend (led_control (led_ops_run ops' stq)) = None /\
  sysfs_log (led_ops_run ops' stq) = sysfs_log stq.
Proof.
  cbv zeta. intros Hs.
  destruct (reachable_request_inv ops) as (_ & _ & _ & _ & _ & H6).
  rewrite Hs in H6. destruct H6 as (_ & Hdone).
  destruct (mce_hybris_indicator_quit_timers _ (reachable_inv ops) Hs)
    as (Hsrc & Hstop & Hstep & Hctl & Hd & Hlog).
  rewrite Hdone in Hd.
  destruct (closed_backend_stays_ops ops' _ Hd Hctl) as (_ & Hc' & Hl').
  repeat split; assumption.
Qed.

(** X12: A request submitted in a reachable state while the stop timer is
    pending never arms a second timer and does not touch the pending
    one: the attached sources, the stop timer id and the blink reset
    flag chosen when the timer was armed stay as they are, the step
    timer id stays zero, nothing is written, and the request becomes the
    current one. *)
Theorem stop_pending_coalesces (ops : list led_op) (next : led_request_t) :
  let st := led_ops_run ops led_ctrl_state_init in
  led_ctrl_stop_id st <> 0 ->
  let st' := led_ctrl_start next st in
  loop_sources st' = loop_sources st /\
  led_ctrl_stop_id st' = led_ctrl_stop_id st /\
  led_ctrl_step_id st' = 0 /\
  reset_blinking st' = reset_blinking st /\
  sysfs_log st' = sysfs_log st /\
  led_ctrl_curr st' = led_request_sanitize next.
Proof.
  cbv zeta. intros Hstop.
  destruct (reachable_inv ops) as (_ & _ & Ht).
  set (st := led_ops_run ops led_ctrl_state_init) in *.
  assert (Hstep : led_ctrl_step_id st = 0).
  { unfold timers_ok in Ht.
    destruct Ht as [(_ & _ & E)|[(? & ? & _ & _ & E & _)|
                   [(? & ? & _ & E & _)|(? & ? & _ & E & _)]]];
      [exact E|exact E|contradiction|contradiction]. }
  destruct (led_ctrl_start_frame next st) as (Flog & _).
  split; [|split; [|split; [|split; [|split;
    [exact Flog|apply led_ctrl_start_curr]]]]];
    clear Flog; unfold led_ctrl_start;
    (destruct (led_request_is_equal _ _); [reflexivity || exact Hstep|]);
    cbv zeta;
    (destruct (negb (_ && _)); [|reflexivity || exact Hstep]);
    destruct (led_style_eqb (led_request_get_style (led_request_sanitize next)) _);
    destruct st as [curr br sysfs ctl stop step rb idone iack srcs nxt log];
    st_step; subst step;
    repeat (st_step; cbn [Z.eqb] in *; first [decide_test|decide_flag]);
    st_step; first [reflexivity|exfalso; lia].
Qed.

(** X13: A request accepted in a reachable state that is not the
    continuation of a breathing pattern (both styles BREATH with equal
    periods) cancels the step timer and leaves the stop timer as the
    only attached source; when no stop timer was pending, a new one is
    armed at 10 ms and the blink reset flag is set exactly when the old
    or the new style is BLINK. *)
Theorem led_ctrl_start_restart (ops : list led_op) (next : led_request_t) :
  let st := led_ops_run ops led_ctrl_state_init in
  let work := led_request_sanitize next in
  led_ctrl_curr st <> work ->
  ~ (led_request_get_style (led_ctrl_curr st) = STYLE_BREATH /\
     led_request_get_style work = STYLE_BREATH /\
     req_on (led_ctrl_curr st) = req_on work /\
     req_off (led_ctrl_curr st) = req_off work) ->
  let st' := led_ctrl_start next st in
  led_ctrl_step_id st' = 0 /\
  led_ctrl_stop_id st' <> 0 /\
  (exists iv, loop_sources st' = [mk_source (led_ctrl_stop_id st') iv CB_stop]) /\
  (led_ctrl_stop_id st = 0 ->
   loop_sources st' = [mk_source (led_ctrl_stop_id st') LED_CTRL_KERNEL_DELAY CB_stop] /\
   reset_blinking st' =
     led_style_eqb (led_request_get_style (led_ctrl_curr st)) STYLE_BLINK ||
     led_style_eqb (led_request_get_style work) STYLE_BLINK).
Proof.
  cbv zeta. intros Hne Hcont.
  destruct (reachable_inv ops) as (_ & _ & Ht).
  set (st := led_ops_run ops led_ctrl_state_init) in *.
  assert (Eeq : led_request_is_equal (led_ctrl_curr st)
                  (led_request_sanitize next) = false).
  { destruct (led_request_is_equal _ _) eqn:E; [|reflexivity].
    apply led_request_is_equal_eq in E. contradiction. }
  assert (Er : negb (led_style_eqb (led_request_get_style (led_ctrl_curr st))
                       STYLE_BREATH &&
                     led_style_eqb (led_request_get_style
                                      (led_request_sanitize next)) STYLE_BREATH &&
                     led_request_has_equal_timing (led_ctrl_curr st)
                       (led_request_sanitize next)) = true).
  { apply negb_true_iff. destruct (_ && _) eqn:E; [|reflexivity].
    apply andb_true_iff in E. destruct E as (E & E3).
    apply andb_true_iff in E. destruct E as (E1 & E2).
    apply led_style_eqb_eq in E1, E2. apply has_equal_timing_iff in E3.
    exfalso. apply Hcont. tauto. }
  unfold led_ctrl_start. rewrite Eeq. cbv zeta. rewrite Er.
  clear Eeq Er Hne Hcont.
  set (reset := led_style_eqb _ STYLE_BLINK || led_style_eqb _ STYLE_BLINK).
  clearbody reset.
  destruct (led_style_eqb (led_request_get_style (led_request_sanitize next)) _);
    destruct st as [curr br sysfs ctl stop step rb idone iack srcs nxt log];
    unfold timers_ok in Ht; st_step;
    shape_cases Ht;
    repeat (st_step; cbn [Z.eqb] in *; first [decide_test|decide_flag]);
    st_step;
    first [solve [exfalso; lia]
          |(split; [reflexivity|]); (split; [lia|]);
           (split; [eexists; reflexivity|]);
           intros H; first [exfalso; lia|split; reflexivity]].
Qed.

End Controller.

(* ================================================================== *)
(** ** The statements at concrete inputs *)

(** Outside the periods the caller passes: for [ms_on = -100] and
    [ms_off = 200] the period [t = 100] is positive and [n = 5], but the
    first loop does not run, the second runs [5 - (-4) = 9] times and 9
    samples are stored. *)
Lemma led_ctrl_generate_ramp_negative_on :
  0 < -100 + 200 /\
  ceil_div (-100 + 200) (Z.max (ceil_div (-100 + 200) 256) 20) = 5 /\
  br_steps (led_ctrl_generate_ramp sample_full (-100) 200 led_ctrl_breathe_init) = 9.
Proof. repeat split; vm_compute; reflexivity. Qed.

(** Witness of C3's statement at 1000 ms on and 3000 ms off: the delay
    is 20, and of the 200 samples the first 50 rise and the other 150
    fall. *)
Lemma led_ctrl_generate_ramp_spec_witness :
  let br' := led_ctrl_generate_ramp sample_linear 1000 3000
               led_ctrl_breathe_init in
  (0 <= 1000 /\ 0 <= 3000 /\ 0 < 1000 + 3000 /\
   257 * (1000 + 3000) <= INT_MAX /\
   length (br_value led_ctrl_breathe_init) = Z.to_nat LED_CTRL_MAX_STEPS) /\
  br_delay br' = 20 /\ br_steps br' = 200 /\
  br_value br' !! Z.to_nat 49 = Some 49 /\
  br_value br' !! Z.to_nat 50 = Some 200 /\
  br_value br' !! Z.to_nat 199 = Some 51 /\
  br_value br' !! Z.to_nat 200 = Some 0.
Proof.
  intros br'.
  assert (H1 : 0 <= 1000) by lia.
  assert (H2 : 0 <= 3000) by lia.
  assert (H3 : 0 < 1000 + 3000) by lia.
  assert (H4 : 257 * (1000 + 3000) <= INT_MAX) by (unfold INT_MAX; lia).
  assert (H5 : length (br_value led_ctrl_breathe_init)
               = Z.to_nat LED_CTRL_MAX_STEPS) by reflexivity.
  split; [auto|].
  pose proof (led_ctrl_generate_ramp_spec sample_linear 1000 3000
                led_ctrl_breathe_init H1 H2 H3 H4 H5) as H.
  cbv zeta in H.
  destruct H as (Hd & _ & _ & _ & _ & Hn & _ & _ & _ & Hon & Hoff & Hrest & _).
  split; [exact Hd|]. split; [exact Hn|].
  split; [exact (Hon 49 ltac:(vm_compute; split; [discriminate|reflexivity]))|].
  split; [exact (Hoff 50 ltac:(vm_compute; split; [discriminate|reflexivity]))|].
  split; [exact (Hoff 199 ltac:(vm_compute; split; [discriminate|reflexivity]))|].
  exact (Hrest 200 ltac:(vm_compute; discriminate)).
Defined.

(** Witness of C5's statement: the red breathing request submitted
    again while the controller breathes red. *)
Lemma led_ctrl_start_same_is_noop_witness :
  led_request_is_equal (led_ctrl_curr (state_breathing sample_full))
    (led_request_sanitize request_red) = true /\
  led_ctrl_start sample_full request_red (state_breathing sample_full)
  = state_breathing sample_full.
Proof.
  assert (H : led_request_is_equal (led_ctrl_curr (state_breathing sample_full))
                (led_request_sanitize request_red) = true)
    by (vm_compute; reflexivity).
  split; [exact H|].
  exact (proj1 (led_ctrl_start_same_is_noop sample_full request_red
                  (state_breathing sample_full)) H).
Defined.

(** Witness of C1's statement: the color changes from red to green
    while the controller breathes with 1000 ms on and 1000 ms off. *)
Lemma led_ctrl_start_breathe_continues_witness :
  (led_request_get_style (led_ctrl_curr (state_breathing sample_full)) = STYLE_BREATH /\
   led_request_get_style (led_request_sanitize request_green) = STYLE_BREATH /\
   req_on request_green = req_on (led_ctrl_curr (state_breathing sample_full)) /\
   req_off request_green = req_off (led_ctrl_curr (state_breathing sample_full))) /\
  led_ctrl_start sample_full request_green (state_breathing sample_full)
  = set_curr (led_request_sanitize request_green) (state_breathing sample_full).
Proof.
  assert (H1 : led_request_get_style (led_ctrl_curr (state_breathing sample_full))
               = STYLE_BREATH) by (vm_compute; reflexivity).
  assert (H2 : led_request_get_style (led_request_sanitize request_green)
               = STYLE_BREATH) by (vm_compute; reflexivity).
  assert (H3 : req_on request_green
               = req_on (led_ctrl_curr (state_breathing sample_full)))
    by (vm_compute; reflexivity).
  assert (H4 : req_off request_green
               = req_off (led_ctrl_curr (state_breathing sample_full)))
    by (vm_compute; reflexivity).
  split; [auto|].
  exact (proj1 (led_ctrl_start_breathe_continues sample_full request_green
                  (state_breathing sample_full) H1 H2 H3 H4)).
Defined.

(** Witness of C8's statement: a pattern set while the controller
    breathes red on the vanilla backend. *)
Lemma mce_hybris_indicator_set_pattern_spec_witness :
  led_ctrl_uses_sysfs (state_breathing sample_full) = true /\
  snd (mce_hybris_indicator_set_pattern sample_full env_vanilla
         300 (-5) 17 70000 49 (state_breathing sample_full)) = true.
Proof.
  assert (H : led_ctrl_uses_sysfs (state_breathing sample_full) = true)
    by (vm_compute; reflexivity).
  split; [exact H|].
  rewrite (mce_hybris_indicator_set_pattern_spec sample_full env_vanilla
             300 (-5) 17 70000 49 (state_breathing sample_full) H).
  reflexivity.
Defined.

(** Counterexample to C7 as stated: after breathing with a 2000 ms
    period for 50 steps and shortening the period to 280 ms, the curve
    has been regenerated with 14 samples while the stored step index is
    still 50. *)
Lemma step_index_exceeds_steps_after_restart :
  let br := led_ctrl_breathe
              (led_ops_run sample_full ops_shorten led_ctrl_state_init) in
  br_step br = 50 /\ br_steps br = 14 /\ br_steps br < br_step br.
Proof. cbv zeta. repeat split; vm_compute; reflexivity. Qed.

(** Witness of C7's statement: while the controller breathes red, 50
    steps into a curve of 100 samples, the step callback reads at
    index 50. *)
Lemma step_index_in_bounds_witness :
  let st := led_ops_run sample_full (ops_breathe ++ repeat (OP_timeout 2) 50)
              led_ctrl_state_init in
  (In (mk_source 2 20 CB_step) (loop_sources st) /\
   step_cb_index st = Some 50) /\
  0 <= 50 < br_steps (led_ctrl_breathe st).
Proof.
  cbv zeta.
  assert (H1 : In (mk_source 2 20 CB_step)
                 (loop_sources
                    (led_ops_run sample_full
                       (ops_breathe ++ repeat (OP_timeout 2) 50)
                       led_ctrl_state_init)))
    by (vm_compute; left; reflexivity).
  assert (H2 : step_cb_index
                 (led_ops_run sample_full
                    (ops_breathe ++ repeat (OP_timeout 2) 50)
                    led_ctrl_state_init) = Some 50)
    by (vm_compute; reflexivity).
  split; [split; [exact H1|exact H2]|].
  exact (proj1 (proj2 (proj2 (proj2
           (step_index_in_bounds sample_full
              (ops_breathe ++ repeat (OP_timeout 2) 50))))
           (mk_source 2 20 CB_step) 50 H1 eq_refl H2)).
Defined.

(* ================================================================== *)
(** ** Further statements at concrete inputs *)

(** Witness of the scaling end points at maximum 100. *)
Lemma led_util_scale_value_endpoints_monotone_witness :
  (0 <= 100 /\ 255 * 100 + 128 <= INT_MAX /\ 0 <= 10 <= 200 /\ 200 <= 255) /\
  led_util_scale_value 10 100 <= led_util_scale_value 200 100.
Proof.
  assert (H1 : 0 <= 100) by lia.
  assert (H2 : 255 * 100 + 128 <= INT_MAX) by (unfold INT_MAX; lia).
  assert (H3 : 0 <= 10 <= 200) by lia.
  assert (H4 : 200 <= 255) by lia.
  split; [auto|].
  exact (proj2 (proj2 (proj2
           (led_util_scale_value_endpoints_monotone 100 10 200 H1 H2 H3 H4)))).
Defined.

(** Witness of the stop callback's statement: the stop timer armed by
    [init]. *)
Lemma led_ctrl_stop_cb_spec_witness :
  led_ctrl_stop_id (led_ops_run sample_full ops_init led_ctrl_state_init) <> 0 /\
  led_ctrl_stop_id
    (fst (led_ctrl_stop_cb
            (led_ops_run sample_full ops_init led_ctrl_state_init))) = 0.
Proof.
  assert (H : led_ctrl_stop_id
                (led_ops_run sample_full ops_init led_ctrl_state_init) <> 0)
    by (vm_compute; discriminate).
  split; [exact H|].
  exact (proj1 (proj2 (led_ctrl_stop_cb_spec _ H))).
Defined.

(** Witness of the static callback's statement: static red, after the
    stop timer has expired. *)
Lemma led_ctrl_static_cb_spec_witness :
  led_ctrl_step_id (led_ops_run sample_full ops_static led_ctrl_state_init) <> 0 /\
  led_ctrl_step_id
    (fst (led_ctrl_static_cb
            (led_ops_run sample_full ops_static led_ctrl_state_init))) = 0.
Proof.
  assert (H : led_ctrl_step_id
                (led_ops_run sample_full ops_static led_ctrl_state_init) <> 0)
    by (vm_compute; discriminate).
  split; [exact H|].
  exact (proj1 (proj2 (led_ctrl_static_cb_spec _ H))).
Defined.

(** Witness of the cyclic walk: 70 steps further from index 50 of a
    curve of 100 samples the index is 20. *)
Lemma led_ctrl_step_cb_cycles_witness :
  (led_ctrl_step_id (state_breathing sample_full) <> 0 /\
   1 <= br_steps (led_ctrl_breathe (state_breathing sample_full)) /\
   0 <= br_step (led_ctrl_breathe (state_breathing sample_full)) /\
   br_steps (led_ctrl_breathe (state_breathing sample_full))
     <= Z.of_nat (length (br_value (led_ctrl_breathe
                                      (state_breathing sample_full))))) /\
  step_cb_index (step_fires 70 (state_breathing sample_full))
  = Some ((br_step (breathe_wrap (led_ctrl_breathe (state_breathing sample_full)))
           + Z.of_nat 70)
          mod br_steps (led_ctrl_breathe (state_breathing sample_full))).
Proof.
  assert (H1 : led_ctrl_step_id (state_breathing sample_full) <> 0)
    by (vm_compute; discriminate).
  assert (H2 : 1 <= br_steps (led_ctrl_breathe (state_breathing sample_full)))
    by (vm_compute; discriminate).
  assert (H3 : 0 <= br_step (led_ctrl_breathe (state_breathing sample_full)))
    by (vm_compute; discriminate).
  assert (H4 : br_steps (led_ctrl_breathe (state_breathing sample_full))
               <= Z.of_nat (length (br_value (led_ctrl_breathe
                                                (state_breathing sample_full)))))
    by (vm_compute; discriminate).
  split; [auto|].
  exact (proj1 (led_ctrl_step_cb_cycles (state_breathing sample_full) 70
                  H1 H2 H3 H4)).
Defined.

(** Witness of the settled trace: while breathing red the trace ends
    with a value write. *)
Lemma writes_end_with_value_witness :
  last (sysfs_log (led_ops_run sample_full
                     (ops_breathe ++ repeat (OP_timeout 2) 50)
                     led_ctrl_state_init)) = Some (WR_VALUE 255 0 0) /\
  ((exists r g b, WR_VALUE 255 0 0 = WR_VALUE r g b) \/
   WR_VALUE 255 0 0 = WR_ENABLE true).
Proof.
  assert (H : last (sysfs_log (led_ops_run sample_full
                                 (ops_breathe ++ repeat (OP_timeout 2) 50)
                                 led_ctrl_state_init))
              = Some (WR_VALUE 255 0 0)) by (vm_compute; reflexivity).
  split; [exact H|].
  exact (writes_end_with_value sample_full
           (ops_breathe ++ repeat (OP_timeout 2) 50) (WR_VALUE 255 0 0) H).
Defined.

(** Witness of the idle controller: probing found no sysfs backend. *)
Lemma no_sysfs_no_activity_witness :
  led_ctrl_uses_sysfs
    (led_ops_run sample_full
       [OP_init env_without_sysfs;
        OP_set_pattern env_without_sysfs 255 0 0 500 500;
        OP_enable_breathing true]
       led_ctrl_state_init) = false /\
  sysfs_log
    (led_ops_run sample_full
       [OP_init env_without_sysfs;
        OP_set_pattern env_without_sysfs 255 0 0 500 500;
        OP_enable_breathing true]
       led_ctrl_state_init) = [].
Proof.
  assert (H : led_ctrl_uses_sysfs
                (led_ops_run sample_full
                   [OP_init env_without_sysfs;
                    OP_set_pattern env_without_sysfs 255 0 0 500 500;
                    OP_enable_breathing true]
                   led_ctrl_state_init) = false) by (vm_compute; reflexivity).
  split; [exact H|].
  exact (proj1 (no_sysfs_no_activity sample_full _ H)).
Defined.

(** Witness of the final [quit]: quitting while breathing red, then
    asking for blue. *)
Lemma quit_is_final_witness :
  led_ctrl_uses_sysfs (led_ops_run sample_full ops_breathe led_ctrl_state_init)
  = true /\
  sysfs_log
    (led_ops_run sample_full
       [OP_set_pattern env_vanilla 0 0 255 0 0; OP_timeout 3; OP_timeout 4]
       (mce_hybris_indicator_quit
          (led_ops_run sample_full ops_breathe led_ctrl_state_init)))
  = sysfs_log
      (mce_hybris_indicator_quit
         (led_ops_run sample_full ops_breathe led_ctrl_state_init)).
Proof.
  assert (H : led_ctrl_uses_sysfs
                (led_ops_run sample_full ops_breathe led_ctrl_state_init) = true)
    by (vm_compute; reflexivity).
  split; [exact H|].
  exact (proj2 (proj2 (proj2 (proj2 (proj2 (proj2
           (quit_is_final sample_full ops_breathe
              [OP_set_pattern env_vanilla 0 0 255 0 0; OP_timeout 3; OP_timeout 4]
              H))))))).
Defined.

(** Witness of the coalescing: red requested while the stop timer armed
    by [init] is pending. *)
Lemma stop_pending_coalesces_witness :
  led_ctrl_stop_id (led_ops_run sample_full ops_init led_ctrl_state_init) <> 0 /\
  loop_sources
    (led_ctrl_start sample_full request_red
       (led_ops_run sample_full ops_init led_ctrl_state_init))
  = loop_sources (led_ops_run sample_full ops_init led_ctrl_state_init).
Proof.
  assert (H : led_ctrl_stop_id
                (led_ops_run sample_full ops_init led_ctrl_state_init) <> 0)
    by (vm_compute; discriminate).
  split; [exact H|].
  exact (proj1 (stop_pending_coalesces sample_full ops_init request_red H)).
Defined.

(** Witness of the restart: breathing red replaced by static green. *)
Lemma led_ctrl_start_restart_witness :
  let st := led_ops_run sample_full
              (ops_breathe ++ repeat (OP_timeout 2) 50) led_ctrl_state_init in
  let next := req_set_timing 0 0 false request_green in
  let work := led_request_sanitize next in
  (led_ctrl_curr st <> work /\
   ~ (led_request_get_style (led_ctrl_curr st) = STYLE_BREATH /\
      led_request_get_style work = STYLE_BREATH /\
      req_on (led_ctrl_curr st) = req_on work /\
      req_off (led_ctrl_curr st) = req_off work)) /\
  led_ctrl_step_id (led_ctrl_start sample_full next st) = 0.
Proof.
  intros st next work.
  assert (H1 : led_ctrl_curr st <> work) by (vm_compute; discriminate).
  assert (H2 : ~ (led_request_get_style (led_ctrl_curr st) = STYLE_BREATH /\
                  led_request_get_style work = STYLE_BREATH /\
                  req_on (led_ctrl_curr st) = req_on work /\
                  req_off (led_ctrl_curr st) = req_off work))
    by (intros (_ & H & _); vm_compute in H; discriminate H).
  split; [split; assumption|].
  pose proof (led_ctrl_start_restart sample_full
                (ops_breathe ++ repeat (OP_timeout 2) 50) next) as H.
  cbv zeta in H. exact (proj1 (H H1 H2)).
Defined.

(* ================================================================== *)
(** ** Probing the sysfs files *)

Lemma lowest_free_from_fresh (fuel : nat) (n : Z) (used : list Z) :
  0 <= n ->
  (forall k, 0 <= k < n -> In k used) ->
  Z.of_nat fuel + n = Z.of_nat (List.length used) ->
  0 <= Sysfs.lowest_free_from fuel n used /\
  ~ In (Sysfs.lowest_free_from fuel n used) used.
Proof.
  revert n. induction fuel as [|fuel IH]; intros n Hn Hall Hlen.
  - cbn [Sysfs.lowest_free_from]. split; [exact Hn|]. intros Hin.
    assert (Hincl : incl (seqZ 0 (n + 1)) used).
    { intros k Hk. apply list_elem_of_In in Hk. apply elem_of_seqZ in Hk.
      destruct (Z.eq_dec k n) as [->|]; [exact Hin|apply Hall; lia]. }
    apply List.NoDup_incl_length in Hincl; [|apply NoDup_ListNoDup, NoDup_seqZ].
    rewrite length_seqZ in Hincl. lia.
  - cbn [Sysfs.lowest_free_from].
    destruct (existsb (Z.eqb n) used) eqn:E.
    + apply IH; [lia| |lia].
      intros k Hk. destruct (Z.eq_dec k n) as [->|]; [|apply Hall; lia].
      apply existsb_exists in E. destruct E as (x & Hx & Ex).
      apply Z.eqb_eq in Ex. subst x. exact Hx.
    + split; [exact Hn|]. intros Hin.
      assert (existsb (Z.eqb n) used = true); [|congruence].
      apply existsb_exists. exists n. split; [exact Hin|apply Z.eqb_refl].
Qed.

Lemma lowest_free_fresh (used : list Z) :
  0 <= Sysfs.lowest_free used /\ ~ In (Sysfs.lowest_free used) used.
Proof.
  apply lowest_free_from_fresh; [lia|intros; lia|lia].
Qed.

Lemma opened_on_app (tbl a b : list (Z * Sysfs.path)) :
  opened_on tbl (a ++ b) <-> opened_on tbl a /\ opened_on (tbl ++ a) b.
Proof.
  revert tbl. induction a as [|e a IH]; intros tbl; cbn [opened_on app].
  - rewrite app_nil_r. tauto.
  - rewrite IH, <- app_assoc. cbn [app]. tauto.
Qed.

Lemma opened_on_fresh (tbl news : list (Z * Sysfs.path)) :
  opened_on tbl news ->
  Forall (fun e => 0 <= fst e /\ ~ In (fst e) (map fst tbl)) news.
Proof.
  revert tbl. induction news as [|e news IH]; intros tbl H; [constructor|].
  cbn [opened_on] in H. destruct H as (H0 & H1 & H2).
  constructor; [tauto|].
  apply IH in H2. eapply List.Forall_impl; [|exact H2].
  intros x (Hx & Hn). split; [exact Hx|].
  intros Hin. apply Hn. rewrite map_app, in_app_iff. tauto.
Qed.

Lemma opened_on_nodup (tbl news : list (Z * Sysfs.path)) :
  opened_on tbl news -> NoDup (map fst news).
Proof.
  revert tbl. induction news as [|e news IH]; intros tbl H; cbn [map].
  - constructor.
  - cbn [opened_on] in H. destruct H as (_ & _ & H2).
    constructor; [|eapply IH; exact H2].
    apply opened_on_fresh in H2. intros Hin.
    apply list_elem_of_In, in_map_iff in Hin. destruct Hin as (x & Ex & Hx).
    rewrite List.Forall_forall in H2. destruct (H2 x Hx) as (_ & Hn).
    apply Hn. rewrite map_app, in_app_iff, Ex. cbn. tauto.
Qed.

Lemma open_seq_opened_on (tbl : list (Z * Sysfs.path)) (files : list Sysfs.path) :
  opened_on tbl (open_seq tbl files).
Proof.
  revert tbl. induction files as [|p files IH]; intros tbl; cbn; [exact I|].
  pose proof (lowest_free_fresh (map fst tbl)) as (H0 & H1).
  split; [exact H0|]. split; [exact H1|]. apply IH.
Qed.

Lemma open_seq_files (tbl : list (Z * Sysfs.path)) (files : list Sysfs.path) :
  map snd (open_seq tbl files) = files.
Proof.
  revert tbl. induction files as [|p files IH]; intros tbl; cbn; [reflexivity|].
  f_equal. apply IH.
Qed.

Lemma open_seq_app (tbl : list (Z * Sysfs.path)) (a b : list Sysfs.path) :
  open_seq tbl (a ++ b) = open_seq tbl a ++ open_seq (tbl ++ open_seq tbl a) b.
Proof.
  revert tbl. induction a as [|p a IH]; intros tbl; cbn [open_seq app].
  - rewrite app_nil_r. reflexivity.
  - cbv zeta. rewrite IH, <- app_assoc. reflexivity.
Qed.

Lemma fd_closed_nil (tbl : list (Z * Sysfs.path)) : fd_closed [] tbl = tbl.
Proof.
  unfold fd_closed. induction tbl as [|e tbl IH]; cbn; [reflexivity|].
  f_equal. exact IH.
Qed.

Lemma fd_closed_app (F G : list Z) (tbl : list (Z * Sysfs.path)) :
  fd_closed G (fd_closed F tbl) = fd_closed (F ++ G) tbl.
Proof.
  unfold fd_closed. induction tbl as [|e tbl IH]; cbn [List.filter]; [reflexivity|].
  rewrite existsb_app.
  destruct (existsb (Z.eqb (fst e)) F); cbn [negb orb List.filter]; [exact IH|].
  destruct (existsb (Z.eqb (fst e)) G); cbn [negb]; [exact IH|].
  f_equal. exact IH.
Qed.

Lemma fd_closed_old (F : list Z) (old : list (Z * Sysfs.path)) :
  Forall (fun f => ~ In f (map fst old)) F -> fd_closed F old = old.
Proof.
  intros HF. unfold fd_closed.
  induction old as [|e old IH]; cbn [List.filter]; [reflexivity|].
  destruct (existsb (Z.eqb (fst e)) F) eqn:E; cbn [negb].
  - exfalso. apply existsb_exists in E. destruct E as (f & Hf & Ef).
    apply Z.eqb_eq in Ef. rewrite List.Forall_forall in HF.
    apply (HF f Hf). cbn. left. exact Ef.
  - f_equal. apply IH. eapply List.Forall_impl; [|exact HF].
    intros f Hf Hin. apply Hf. cbn. right. exact Hin.
Qed.

Lemma fd_closed_news (F : list Z) (news : list (Z * Sysfs.path)) :
  Forall (fun e => In (fst e) F) news -> fd_closed F news = [].
Proof.
  intros HF. unfold fd_closed.
  induction news as [|e news IH]; cbn [List.filter]; [reflexivity|].
  apply Forall_cons in HF. destruct HF as (He & HF).
  assert (E : existsb (Z.eqb (fst e)) F = true).
  { apply existsb_exists. exists (fst e). split; [exact He|apply Z.eqb_refl]. }
  rewrite E. cbn [negb]. apply IH, HF.
Qed.

Lemma fd_closed_fresh (F : list Z) (old news : list (Z * Sysfs.path)) :
  Forall (fun f => ~ In f (map fst old)) F ->
  Forall (fun e => In (fst e) F) news ->
  fd_closed F (old ++ news) = old.
Proof.
  intros H1 H2. unfold fd_closed. rewrite List.filter_app.
  fold (fd_closed F old). fold (fd_closed F news).
  rewrite fd_closed_old, fd_closed_news by assumption. apply app_nil_r.
Qed.

Lemma os_close_eq (fd : Z) (ps : Sysfs.process) :
  Sysfs.os_close fd ps =
  Sysfs.mk_process (fd_closed [fd] (Sysfs.fd_table ps)) (Sysfs.file_log ps).
Proof.
  unfold Sysfs.os_close, fd_closed. f_equal.
  apply List.filter_ext. intros e. cbn [existsb]. rewrite orb_false_r. reflexivity.
Qed.

Lemma led_util_close_file_eq (fd : Z) (ps : Sysfs.process) :
  Sysfs.led_util_close_file fd ps =
  (Sysfs.mk_process (fd_closed (live fd) (Sysfs.fd_table ps)) (Sysfs.file_log ps),
   -1).
Proof.
  unfold Sysfs.led_util_close_file, live.
  destruct (Z.eqb_spec fd (-1)) as [->|Hne]; cbn [negb].
  - rewrite fd_closed_nil. destruct ps; reflexivity.
  - rewrite os_close_eq. reflexivity.
Qed.

Lemma led_util_read_number_eq (fs : Sysfs.filesystem) (p : Sysfs.path)
  (ps : Sysfs.process) :
  Sysfs.led_util_read_number fs p ps = (ps, sysfs_number fs p).
Proof.
  unfold Sysfs.led_util_read_number, sysfs_number.
  destruct (Sysfs.fs_readable fs p); cbn [negb]; [|reflexivity].
  unfold Sysfs.os_open.
  assert (E : forall fd,
             fd = Sysfs.lowest_free (map fst (Sysfs.fd_table ps)) ->
             Sysfs.os_close fd
               {| Sysfs.fd_table := Sysfs.fd_table ps ++ [(fd, p)];
                  Sysfs.file_log := Sysfs.file_log ps |} = ps).
  { intros fd ->. rewrite os_close_eq. cbn [Sysfs.fd_table Sysfs.file_log].
    rewrite fd_closed_fresh.
    - destruct ps; reflexivity.
    - repeat constructor. apply lowest_free_fresh.
    - repeat constructor. }
  destruct (Sysfs.fs_number fs p); rewrite E; reflexivity.
Qed.

Lemma led_util_open_file_eq (fs : Sysfs.filesystem) (p : Sysfs.path)
  (ps : Sysfs.process) :
  Sysfs.led_util_open_file fs (-1) p ps =
  if Sysfs.fs_appendable fs p then
    (Sysfs.mk_process (Sysfs.fd_table ps ++ open_seq (Sysfs.fd_table ps) [p])
       (Sysfs.file_log ps),
     Sysfs.lowest_free (map fst (Sysfs.fd_table ps)), true)
  else (ps, -1, false).
Proof.
  unfold Sysfs.led_util_open_file. rewrite led_util_close_file_eq.
  cbn [live Z.eqb]. rewrite fd_closed_nil.
  destruct (Sysfs.fs_appendable fs p); [reflexivity|].
  destruct ps; reflexivity.
Qed.

Lemma live_closed : live (-1) = [].
Proof. reflexivity. Qed.

Lemma live_open (fd : Z) : 0 <= fd -> live fd = [fd].
Proof.
  intros H. unfold live. destruct (Z.eqb_spec fd (-1)); [lia|reflexivity].
Qed.

Lemma led_state_vanilla_close_eq (s : Sysfs.led_state_vanilla_t)
  (ps : Sysfs.process) :
  Sysfs.led_state_vanilla_close s ps =
  (Sysfs.mk_process
     (fd_closed (live (Sysfs.van_fd_on s) ++ live (Sysfs.van_fd_off s) ++
                 live (Sysfs.van_fd_val s)) (Sysfs.fd_table ps))
     (Sysfs.file_log ps),
   Sysfs.mk_state_vanilla (Sysfs.van_maxval s) (-1) (-1) (-1)).
Proof.
  unfold Sysfs.led_state_vanilla_close.
  rewrite !led_util_close_file_eq. cbn [Sysfs.fd_table Sysfs.file_log].
  rewrite !fd_closed_app, <- ?app_assoc. reflexivity.
Qed.

Lemma led_state_hammerhead_close_eq (s : Sysfs.led_state_hammerhead_t)
  (ps : Sysfs.process) :
  Sysfs.led_state_hammerhead_close s ps =
  (Sysfs.mk_process
     (fd_closed (live (Sysfs.ham_fd_val s) ++ live (Sysfs.ham_fd_on_off s) ++
                 live (Sysfs.ham_fd_enable s)) (Sysfs.fd_table ps))
     (Sysfs.file_log ps),
   Sysfs.mk_state_hammerhead (Sysfs.ham_maxval s) (-1) (-1) (-1)).
Proof.
  unfold Sysfs.led_state_hammerhead_close.
  rewrite !led_util_close_file_eq. cbn [Sysfs.fd_table Sysfs.file_log].
  rewrite !fd_closed_app, <- ?app_assoc. reflexivity.
Qed.

(** Closing the descriptors opened last gives the table back. *)
Lemma fd_closed_open_seq (F : list Z) (tbl : list (Z * Sysfs.path))
  (files : list Sysfs.path) :
  (forall f, In f F <-> In f (map fst (open_seq tbl files))) ->
  fd_closed F (tbl ++ open_seq tbl files) = tbl.
Proof.
  intros HF.
  pose proof (opened_on_fresh _ _ (open_seq_opened_on tbl files)) as Hfr.
  rewrite List.Forall_forall in Hfr.
  apply fd_closed_fresh.
  - apply List.Forall_forall. intros f Hf. apply HF in Hf.
    apply in_map_iff in Hf. destruct Hf as (e & <- & He).
    apply (Hfr e He).
  - apply List.Forall_forall. intros e He. apply HF.
    apply in_map. exact He.
Qed.

Ltac fd_members :=
  let f := fresh "f" in
  intros f; cbn [In map fst open_seq app]; tauto.

(** Rewrites the table left by closing the descriptors opened on
    [files] after [tbl]. *)
Ltac close_opened tbl files :=
  match goal with
  | |- context [fd_closed ?F ?T] =>
      let E := fresh "E" in
      assert (E : fd_closed F T = tbl)
        by (apply (fd_closed_open_seq F tbl files); fd_members);
      rewrite E; clear E
  end.

Lemma led_state_vanilla_probe_eq (fs : Sysfs.filesystem) (m : Z)
  (p : Sysfs.led_paths_vanilla_t) (ps : Sysfs.process) :
  let tbl := Sysfs.fd_table ps in
  let news := open_seq tbl (vanilla_channel_files p) in
  Sysfs.led_state_vanilla_probe fs (Sysfs.mk_state_vanilla m (-1) (-1) (-1)) p ps =
  if vanilla_channel_ok fs p then
    (Sysfs.mk_process (tbl ++ news) (Sysfs.file_log ps),
     vanilla_probed fs p tbl, true)
  else
    (ps, Sysfs.mk_state_vanilla (sysfs_number fs (Sysfs.vp_max p)) (-1) (-1) (-1),
     false).
Proof.
  cbv zeta. unfold Sysfs.led_state_vanilla_probe, vanilla_channel_ok.
  rewrite led_state_vanilla_close_eq.
  cbn [Sysfs.van_fd_val Sysfs.van_fd_on Sysfs.van_fd_off Sysfs.van_maxval live
       Z.eqb app Sysfs.fd_table Sysfs.file_log].
  rewrite fd_closed_nil, led_util_read_number_eq.
  assert (Eps : {| Sysfs.fd_table := Sysfs.fd_table ps;
                   Sysfs.file_log := Sysfs.file_log ps |} = ps)
    by (destruct ps; reflexivity).
  rewrite Eps.
  set (n := sysfs_number fs (Sysfs.vp_max p)).
  destruct (Z.leb_spec n 0) as [Hn|Hn].
  { destruct (Z.ltb_spec 0 n); [lia|]. cbn [andb].
    rewrite led_state_vanilla_close_eq.
    cbn [Sysfs.van_fd_val Sysfs.van_fd_on Sysfs.van_fd_off Sysfs.van_maxval live
         Z.eqb app Sysfs.fd_table Sysfs.file_log].
    rewrite fd_closed_nil, Eps. reflexivity. }
  destruct (Z.ltb_spec 0 n); [|lia]. cbn [andb].
  cbn [Sysfs.van_fd_val Sysfs.van_fd_on Sysfs.van_fd_off Sysfs.van_maxval].
  rewrite led_util_open_file_eq.
  destruct (Sysfs.fs_appendable fs (Sysfs.vp_val p)); cbn [andb negb].
  2:{ rewrite led_state_vanilla_close_eq.
      cbn [Sysfs.van_fd_val Sysfs.van_fd_on Sysfs.van_fd_off Sysfs.van_maxval live
           Z.eqb app Sysfs.fd_table Sysfs.file_log].
      rewrite fd_closed_nil, Eps. reflexivity. }
  cbn [Sysfs.van_fd_val Sysfs.van_fd_on Sysfs.van_fd_off Sysfs.van_maxval].
  rewrite led_util_open_file_eq. cbn [Sysfs.fd_table Sysfs.file_log].
  pose proof (opened_on_fresh _ _
                (open_seq_opened_on (Sysfs.fd_table ps) (vanilla_channel_files p)))
    as Hfr.
  cbn [vanilla_channel_files open_seq] in Hfr. cbv zeta in Hfr.
  apply Forall_cons in Hfr. destruct Hfr as ((H1 & _) & Hfr).
  apply Forall_cons in Hfr. destruct Hfr as ((H2 & _) & Hfr).
  apply Forall_cons in Hfr. destruct Hfr as ((H3 & _) & _).
  cbn [fst] in H1, H2, H3.
  destruct (Sysfs.fs_appendable fs (Sysfs.vp_on p)); cbn [andb negb].
  2:{ rewrite led_state_vanilla_close_eq.
      cbn [Sysfs.van_fd_val Sysfs.van_fd_on Sysfs.van_fd_off Sysfs.van_maxval
           Sysfs.fd_table Sysfs.file_log].
      rewrite (live_open _ H1), !live_closed. cbn [app].
      close_opened (Sysfs.fd_table ps) [Sysfs.vp_val p].
      rewrite Eps. reflexivity. }
  cbn [Sysfs.van_fd_val Sysfs.van_fd_on Sysfs.van_fd_off Sysfs.van_maxval].
  rewrite led_util_open_file_eq. cbn [Sysfs.fd_table Sysfs.file_log].
  destruct (Sysfs.fs_appendable fs (Sysfs.vp_off p)); cbn [andb negb].
  2:{ rewrite led_state_vanilla_close_eq.
      cbn [Sysfs.van_fd_val Sysfs.van_fd_on Sysfs.van_fd_off Sysfs.van_maxval
           Sysfs.fd_table Sysfs.file_log].
      cbn [open_seq app] in H2 |- *. cbv zeta in H2 |- *.
      rewrite (live_open _ H1), (live_open _ H2), !live_closed. cbn [app].
      rewrite <- app_assoc.
      close_opened (Sysfs.fd_table ps) [Sysfs.vp_val p; Sysfs.vp_on p].
      rewrite Eps. reflexivity. }
  unfold vanilla_probed.
  cbn [vanilla_channel_files open_seq map fst nth app]. cbv zeta.
  rewrite <- !app_assoc. reflexivity.
Qed.

Lemma open_seq_nonneg (tbl : list (Z * Sysfs.path)) (files : list Sysfs.path)
  (f : Z) :
  In f (map fst (open_seq tbl files)) -> 0 <= f.
Proof.
  intros Hin. apply in_map_iff in Hin. destruct Hin as (e & <- & He).
  pose proof (opened_on_fresh _ _ (open_seq_opened_on tbl files)) as Hfr.
  rewrite List.Forall_forall in Hfr. apply (Hfr e He).
Qed.

Lemma vanilla_probed_live (fs : Sysfs.filesystem)
  (p : Sysfs.led_paths_vanilla_t) (tbl : list (Z * Sysfs.path)) (f : Z) :
  let s := vanilla_probed fs p tbl in
  In f (live (Sysfs.van_fd_on s) ++ live (Sysfs.van_fd_off s) ++
        live (Sysfs.van_fd_val s)) <->
  In f (map fst (open_seq tbl (vanilla_channel_files p))).
Proof.
  cbv zeta. unfold vanilla_probed.
  cbn [Sysfs.van_fd_on Sysfs.van_fd_off Sysfs.van_fd_val].
  set (fds := map fst (open_seq tbl (vanilla_channel_files p))).
  assert (Hnn : forall x, In x fds -> 0 <= x)
    by (intros x; apply open_seq_nonneg).
  assert (E : fds = [nth 0 fds (-1); nth 1 fds (-1); nth 2 fds (-1)])
    by reflexivity.
  rewrite !live_open by (apply Hnn; rewrite E; cbn; tauto).
  rewrite E at 4. cbn [In app]. tauto.
Qed.

Lemma led_state_hammerhead_probe_eq (fs : Sysfs.filesystem) (m : Z)
  (p : Sysfs.led_paths_hammerhead_t) (ps : Sysfs.process) :
  let tbl := Sysfs.fd_table ps in
  let news := open_seq tbl (hammerhead_channel_files p) in
  Sysfs.led_state_hammerhead_probe fs (Sysfs.mk_state_hammerhead m (-1) (-1) (-1)) p ps =
  if hammerhead_channel_ok fs p then
    (Sysfs.mk_process (tbl ++ news) (Sysfs.file_log ps),
     hammerhead_probed fs p tbl, true)
  else
    (ps, Sysfs.mk_state_hammerhead (sysfs_number fs (Sysfs.hp_max p)) (-1) (-1) (-1),
     false).
Proof.
  cbv zeta. unfold Sysfs.led_state_hammerhead_probe, hammerhead_channel_ok.
  rewrite led_state_hammerhead_close_eq.
  cbn [Sysfs.ham_fd_val Sysfs.ham_fd_on_off Sysfs.ham_fd_enable Sysfs.ham_maxval live
       Z.eqb app Sysfs.fd_table Sysfs.file_log].
  rewrite fd_closed_nil, led_util_read_number_eq.
  assert (Eps : {| Sysfs.fd_table := Sysfs.fd_table ps;
                   Sysfs.file_log := Sysfs.file_log ps |} = ps)
    by (destruct ps; reflexivity).
  rewrite Eps.
  set (n := sysfs_number fs (Sysfs.hp_max p)).
  destruct (Z.leb_spec n 0) as [Hn|Hn].
  { destruct (Z.ltb_spec 0 n); [lia|]. cbn [andb].
    rewrite led_state_hammerhead_close_eq.
    cbn [Sysfs.ham_fd_val Sysfs.ham_fd_on_off Sysfs.ham_fd_enable Sysfs.ham_maxval live
         Z.eqb app Sysfs.fd_table Sysfs.file_log].
    rewrite fd_closed_nil, Eps. reflexivity. }
  destruct (Z.ltb_spec 0 n); [|lia]. cbn [andb].
  cbn [Sysfs.ham_fd_val Sysfs.ham_fd_on_off Sysfs.ham_fd_enable Sysfs.ham_maxval].
  rewrite led_util_open_file_eq.
  destruct (Sysfs.fs_appendable fs (Sysfs.hp_val p)); cbn [andb negb].
  2:{ rewrite led_state_hammerhead_close_eq.
      cbn [Sysfs.ham_fd_val Sysfs.ham_fd_on_off Sysfs.ham_fd_enable Sysfs.ham_maxval live
           Z.eqb app Sysfs.fd_table Sysfs.file_log].
      rewrite fd_closed_nil, Eps. reflexivity. }
  cbn [Sysfs.ham_fd_val Sysfs.ham_fd_on_off Sysfs.ham_fd_enable Sysfs.ham_maxval].
  rewrite led_util_open_file_eq. cbn [Sysfs.fd_table Sysfs.file_log].
  pose proof (opened_on_fresh _ _
                (open_seq_opened_on (Sysfs.fd_table ps) (hammerhead_channel_files p)))
    as Hfr.
  cbn [hammerhead_channel_files open_seq] in Hfr. cbv zeta in Hfr.
  apply Forall_cons in Hfr. destruct Hfr as ((H1 & _) & Hfr).
  apply Forall_cons in Hfr. destruct Hfr as ((H2 & _) & Hfr).
  apply Forall_cons in Hfr. destruct Hfr as ((H3 & _) & _).
  cbn [fst] in H1, H2, H3.
  destruct (Sysfs.fs_appendable fs (Sysfs.hp_on_off p)); cbn [andb negb].
  2:{ rewrite led_state_hammerhead_close_eq.
      cbn [Sysfs.ham_fd_val Sysfs.ham_fd_on_off Sysfs.ham_fd_enable Sysfs.ham_maxval
           Sysfs.fd_table Sysfs.file_log].
      rewrite (live_open _ H1), !live_closed. cbn [app].
      close_opened (Sysfs.fd_table ps) [Sysfs.hp_val p].
      rewrite Eps. reflexivity. }
  cbn [Sysfs.ham_fd_val Sysfs.ham_fd_on_off Sysfs.ham_fd_enable Sysfs.ham_maxval].
  rewrite led_util_open_file_eq. cbn [Sysfs.fd_table Sysfs.file_log].
  destruct (Sysfs.fs_appendable fs (Sysfs.hp_enable p)); cbn [andb negb].
  2:{ rewrite led_state_hammerhead_close_eq.
      cbn [Sysfs.ham_fd_val Sysfs.ham_fd_on_off Sysfs.ham_fd_enable Sysfs.ham_maxval
           Sysfs.fd_table Sysfs.file_log].
      cbn [open_seq app] in H2 |- *. cbv zeta in H2 |- *.
      rewrite (live_open _ H1), (live_open _ H2), !live_closed. cbn [app].
      rewrite <- app_assoc.
      close_opened (Sysfs.fd_table ps) [Sysfs.hp_val p; Sysfs.hp_on_off p].
      rewrite Eps. reflexivity. }
  unfold hammerhead_probed.
  cbn [hammerhead_channel_files open_seq map fst nth app]. cbv zeta.
  rewrite <- !app_assoc. reflexivity.
Qed.

Lemma hammerhead_probed_live (fs : Sysfs.filesystem)
  (p : Sysfs.led_paths_hammerhead_t) (tbl : list (Z * Sysfs.path)) (f : Z) :
  let s := hammerhead_probed fs p tbl in
  In f (live (Sysfs.ham_fd_val s) ++ live (Sysfs.ham_fd_on_off s) ++
        live (Sysfs.ham_fd_enable s)) <->
  In f (map fst (open_seq tbl (hammerhead_channel_files p))).
Proof.
  cbv zeta. unfold hammerhead_probed.
  cbn [Sysfs.ham_fd_on_off Sysfs.ham_fd_enable Sysfs.ham_fd_val].
  set (fds := map fst (open_seq tbl (hammerhead_channel_files p))).
  assert (Hnn : forall x, In x fds -> 0 <= x)
    by (intros x; apply open_seq_nonneg).
  assert (E : fds = [nth 0 fds (-1); nth 1 fds (-1); nth 2 fds (-1)])
    by reflexivity.
  rewrite !live_open by (apply Hnn; rewrite E; cbn; tauto).
  rewrite E at 4. cbn [In app]. tauto.
Qed.

Lemma open_seq_snoc (tbl : list (Z * Sysfs.path)) (a b : list Sysfs.path) :
  (tbl ++ open_seq tbl a) ++ open_seq (tbl ++ open_seq tbl a) b
  = tbl ++ open_seq tbl (a ++ b).
Proof.
  rewrite open_seq_app, app_assoc. reflexivity.
Qed.

Lemma process_eta (ps : Sysfs.process) :
  {| Sysfs.fd_table := Sysfs.fd_table ps; Sysfs.file_log := Sysfs.file_log ps |}
  = ps.
Proof. destruct ps; reflexivity. Qed.

Lemma led_control_vanilla_probe_eq (fs : Sysfs.filesystem) (w : Sysfs.world) :
  let tbl := Sysfs.fd_table (Sysfs.proc w) in
  if vanilla_files_ok fs then
    Sysfs.led_control_vanilla_probe fs w =
    (Sysfs.mk_world
       (Sysfs.mk_process (tbl ++ open_seq tbl vanilla_files)
          (Sysfs.file_log (Sysfs.proc w)))
       (vanilla_probed_all fs tbl) (Sysfs.hammerhead_state w),
     Sysfs.vanilla_control, true)
  else
    exists s0 s1 s2,
      vanilla_closed s0 /\ vanilla_closed s1 /\ vanilla_closed s2 /\
      Sysfs.led_control_vanilla_probe fs w =
      (Sysfs.mk_world (Sysfs.proc w) (s0, s1, s2) (Sysfs.hammerhead_state w),
       Sysfs.led_control_init, false).
Proof.
  cbv zeta.
  unfold vanilla_files_ok, vanilla_files, vanilla_probed_all,
    Sysfs.led_control_vanilla_probe, Sysfs.vanilla_paths.
  destruct Sysfs.vanilla_path_set as [[p0 p1] p2].
  cbn [Sysfs.vanilla_probe_loop Sysfs.vanilla_state Sysfs.proc
       Sysfs.hammerhead_state].
  change Sysfs.led_state_vanilla_init
    with (Sysfs.mk_state_vanilla (-1) (-1) (-1) (-1)).
  set (tbl := Sysfs.fd_table (Sysfs.proc w)).
  rewrite led_state_vanilla_probe_eq. fold tbl.
  destruct (vanilla_channel_ok fs p0); cbn [andb].
  2:{ cbn [negb Sysfs.led_control_close Sysfs.close
           Sysfs.led_control_vanilla_close_cb Sysfs.vanilla_state Sysfs.proc
           Sysfs.hammerhead_state].
      rewrite !led_state_vanilla_close_eq.
      cbn [Sysfs.van_fd_val Sysfs.van_fd_on Sysfs.van_fd_off Sysfs.van_maxval
           Sysfs.fd_table Sysfs.file_log].
      rewrite !live_closed. cbn [app]. rewrite !fd_closed_nil, process_eta.
      do 3 eexists. split; [|split; [|split; [|reflexivity]]];
        repeat split. }
  rewrite led_state_vanilla_probe_eq. cbn [Sysfs.fd_table Sysfs.file_log].
  destruct (vanilla_channel_ok fs p1); cbn [andb].
  2:{ cbn [negb Sysfs.led_control_close Sysfs.close
           Sysfs.led_control_vanilla_close_cb Sysfs.vanilla_state Sysfs.proc
           Sysfs.hammerhead_state].
      rewrite !led_state_vanilla_close_eq.
      cbn [Sysfs.fd_table Sysfs.file_log]. rewrite !fd_closed_app.
      cbn [Sysfs.van_fd_val Sysfs.van_fd_on Sysfs.van_fd_off Sysfs.van_maxval].
      rewrite !live_closed, ?app_nil_r.
      rewrite fd_closed_open_seq by (intros f; apply vanilla_probed_live).
      unfold tbl. rewrite process_eta.
      do 3 eexists. split; [|split; [|split; [|reflexivity]]];
        repeat split. }
  rewrite led_state_vanilla_probe_eq. cbn [Sysfs.fd_table Sysfs.file_log].
  rewrite !open_seq_snoc.
  destruct (vanilla_channel_ok fs p2); cbn [andb].
  2:{ cbn [negb Sysfs.led_control_close Sysfs.close
           Sysfs.led_control_vanilla_close_cb Sysfs.vanilla_state Sysfs.proc
           Sysfs.hammerhead_state].
      rewrite !led_state_vanilla_close_eq.
      cbn [Sysfs.fd_table Sysfs.file_log]. rewrite !fd_closed_app.
      cbn [Sysfs.van_fd_val Sysfs.van_fd_on Sysfs.van_fd_off Sysfs.van_maxval].
      rewrite !live_closed, ?app_nil_r.
      rewrite fd_closed_open_seq.
      2:{ intros f. rewrite open_seq_app, map_app, !in_app_iff.
          rewrite <- (vanilla_probed_live fs p0 tbl f).
          rewrite <- (vanilla_probed_live fs p1 _ f).
          cbv zeta. rewrite !in_app_iff. tauto. }
      unfold tbl. rewrite process_eta.
      do 3 eexists. split; [|split; [|split; [|reflexivity]]];
        repeat split. }
  cbn [negb]. rewrite <- ?app_assoc. reflexivity.
Qed.

Lemma led_control_hammerhead_probe_eq (fs : Sysfs.filesystem) (w : Sysfs.world) :
  let tbl := Sysfs.fd_table (Sysfs.proc w) in
  if hammerhead_files_ok fs then
    Sysfs.led_control_hammerhead_probe fs w =
    (Sysfs.mk_world
       (Sysfs.mk_process (tbl ++ open_seq tbl hammerhead_files)
          (Sysfs.file_log (Sysfs.proc w)))
       (Sysfs.vanilla_state w) (hammerhead_probed_all fs tbl),
     Sysfs.hammerhead_control, true)
  else
    exists s0 s1 s2,
      hammerhead_closed s0 /\ hammerhead_closed s1 /\ hammerhead_closed s2 /\
      Sysfs.led_control_hammerhead_probe fs w =
      (Sysfs.mk_world (Sysfs.proc w) (Sysfs.vanilla_state w) (s0, s1, s2),
       Sysfs.led_control_init, false).
Proof.
  cbv zeta.
  unfold hammerhead_files_ok, hammerhead_files, hammerhead_probed_all,
    Sysfs.led_control_hammerhead_probe, Sysfs.hammerhead_paths.
  destruct Sysfs.hammerhead_path_set as [[p0 p1] p2].
  cbn [Sysfs.hammerhead_probe_loop Sysfs.hammerhead_state Sysfs.proc
       Sysfs.vanilla_state].
  change Sysfs.led_state_hammerhead_init
    with (Sysfs.mk_state_hammerhead (-1) (-1) (-1) (-1)).
  set (tbl := Sysfs.fd_table (Sysfs.proc w)).
  rewrite led_state_hammerhead_probe_eq. fold tbl.
  destruct (hammerhead_channel_ok fs p0); cbn [andb].
  2:{ cbn [negb Sysfs.led_control_close Sysfs.close
           Sysfs.led_control_hammerhead_close_cb Sysfs.hammerhead_state Sysfs.proc
           Sysfs.vanilla_state].
      rewrite !led_state_hammerhead_close_eq.
      cbn [Sysfs.ham_fd_val Sysfs.ham_fd_on_off Sysfs.ham_fd_enable Sysfs.ham_maxval
           Sysfs.fd_table Sysfs.file_log].
      rewrite !live_closed. cbn [app]. rewrite !fd_closed_nil, process_eta.
      do 3 eexists. split; [|split; [|split; [|reflexivity]]];
        repeat split. }
  rewrite led_state_hammerhead_probe_eq. cbn [Sysfs.fd_table Sysfs.file_log].
  destruct (hammerhead_channel_ok fs p1); cbn [andb].
  2:{ cbn [negb Sysfs.led_control_close Sysfs.close
           Sysfs.led_control_hammerhead_close_cb Sysfs.hammerhead_state Sysfs.proc
           Sysfs.vanilla_state].
      rewrite !led_state_hammerhead_close_eq.
      cbn [Sysfs.fd_table Sysfs.file_log]. rewrite !fd_closed_app.
      cbn [Sysfs.ham_fd_val Sysfs.ham_fd_on_off Sysfs.ham_fd_enable Sysfs.ham_maxval].
      rewrite !live_closed, ?app_nil_r.
      rewrite fd_closed_open_seq by (intros f; apply hammerhead_probed_live).
      unfold tbl. rewrite process_eta.
      do 3 eexists. split; [|split; [|split; [|reflexivity]]];
        repeat split. }
  rewrite led_state_hammerhead_probe_eq. cbn [Sysfs.fd_table Sysfs.file_log].
  rewrite !open_seq_snoc.
  destruct (hammerhead_channel_ok fs p2); cbn [andb].
  2:{ cbn [negb Sysfs.led_control_close Sysfs.close
           Sysfs.led_control_hammerhead_close_cb Sysfs.hammerhead_state Sysfs.proc
           Sysfs.vanilla_state].
      rewrite !led_state_hammerhead_close_eq.
      cbn [Sysfs.fd_table Sysfs.file_log]. rewrite !fd_closed_app.
      cbn [Sysfs.ham_fd_val Sysfs.ham_fd_on_off Sysfs.ham_fd_enable Sysfs.ham_maxval].
      rewrite !live_closed, ?app_nil_r.
      rewrite fd_closed_open_seq.
      2:{ intros f. rewrite open_seq_app, map_app, !in_app_iff.
          rewrite <- (hammerhead_probed_live fs p0 tbl f).
          rewrite <- (hammerhead_probed_live fs p1 _ f).
          cbv zeta. rewrite !in_app_iff. tauto. }
      unfold tbl. rewrite process_eta.
      do 3 eexists. split; [|split; [|split; [|reflexivity]]];
        repeat split. }
  cbn [negb]. rewrite <- ?app_assoc. reflexivity.
Qed.

Lemma led_control_probe_eq (fs : Sysfs.filesystem) (w : Sysfs.world) :
  let tbl := Sysfs.fd_table (Sysfs.proc w) in
  let log := Sysfs.file_log (Sysfs.proc w) in
  if vanilla_files_ok fs then
    Sysfs.led_control_probe fs w =
    (Sysfs.mk_world (Sysfs.mk_process (tbl ++ open_seq tbl vanilla_files) log)
       (vanilla_probed_all fs tbl) (Sysfs.hammerhead_state w),
     Sysfs.vanilla_control, true)
  else
    exists v0 v1 v2,
      vanilla_closed v0 /\ vanilla_closed v1 /\ vanilla_closed v2 /\
      if hammerhead_files_ok fs then
        Sysfs.led_control_probe fs w =
        (Sysfs.mk_world
           (Sysfs.mk_process (tbl ++ open_seq tbl hammerhead_files) log)
           (v0, v1, v2) (hammerhead_probed_all fs tbl),
         Sysfs.hammerhead_control, true)
      else
        exists h0 h1 h2,
          hammerhead_closed h0 /\ hammerhead_closed h1 /\ hammerhead_closed h2 /\
          Sysfs.led_control_probe fs w =
          (Sysfs.mk_world (Sysfs.proc w) (v0, v1, v2) (h0, h1, h2),
           Sysfs.led_control_init, false).
Proof.
  cbv zeta. unfold Sysfs.led_control_probe.
  pose proof (led_control_vanilla_probe_eq fs w) as Hv. cbv zeta in Hv.
  destruct (vanilla_files_ok fs).
  { rewrite Hv. reflexivity. }
  destruct Hv as (v0 & v1 & v2 & H0 & H1 & H2 & ->).
  exists v0, v1, v2. split; [exact H0|]. split; [exact H1|]. split; [exact H2|].
  match goal with
  | |- context [Sysfs.led_control_hammerhead_probe fs ?w1] =>
      pose proof (led_control_hammerhead_probe_eq fs w1) as Hh
  end.
  cbv zeta in Hh. cbn [Sysfs.proc Sysfs.vanilla_state Sysfs.hammerhead_state] in Hh.
  destruct (hammerhead_files_ok fs).
  { rewrite Hh. reflexivity. }
  destruct Hh as (h0 & h1 & h2 & G0 & G1 & G2 & ->).
  exists h0, h1, h2. split; [exact G0|]. split; [exact G1|]. split; [exact G2|].
  reflexivity.
Qed.

Lemma open_seq_3 (tbl : list (Z * Sysfs.path)) (a b c : list Sysfs.path) :
  open_seq tbl (a ++ b ++ c) =
  open_seq tbl a ++ open_seq (tbl ++ open_seq tbl a) b ++
  open_seq (tbl ++ open_seq tbl (a ++ b)) c.
Proof.
  rewrite (open_seq_app tbl a (b ++ c)), (open_seq_app _ b c), open_seq_snoc.
  reflexivity.
Qed.

Lemma find_fresh (fd : Z) (tbl news : list (Z * Sysfs.path)) :
  ~ In fd (map fst tbl) ->
  List.find (fun e => fst e =? fd) (tbl ++ news)
  = List.find (fun e => fst e =? fd) news.
Proof.
  intros Hn. induction tbl as [|e tbl IH]; cbn [app List.find]; [reflexivity|].
  destruct (Z.eqb_spec (fst e) fd) as [E|E].
  - exfalso. apply Hn. cbn. left. exact E.
  - apply IH. intros Hin. apply Hn. cbn. right. exact Hin.
Qed.

Lemma find_nodup (fd : Z) (p : Sysfs.path) (news : list (Z * Sysfs.path)) :
  NoDup (map fst news) -> In (fd, p) news ->
  List.find (fun e => fst e =? fd) news = Some (fd, p).
Proof.
  induction news as [|e news IH]; intros Hnd Hin; [destruct Hin|].
  cbn [map] in Hnd. apply NoDup_cons in Hnd. destruct Hnd as (Hne & Hnd).
  cbn [List.find]. destruct Hin as [->|Hin].
  - cbn [fst]. rewrite Z.eqb_refl. reflexivity.
  - destruct (Z.eqb_spec (fst e) fd) as [E|E]; [|apply IH; assumption].
    exfalso. apply Hne. apply list_elem_of_In. rewrite E.
    apply (in_map fst) in Hin. exact Hin.
Qed.

Lemma os_write_opened (tbl : list (Z * Sysfs.path)) (files : list Sysfs.path)
  (fd : Z) (p : Sysfs.path) (text : list Z) (log : list (Sysfs.path * list Z)) :
  In (fd, p) (open_seq tbl files) ->
  Sysfs.os_write fd text (Sysfs.mk_process (tbl ++ open_seq tbl files) log)
  = Sysfs.mk_process (tbl ++ open_seq tbl files) (log ++ [(p, text)]).
Proof.
  intros Hin. unfold Sysfs.os_write. cbn [Sysfs.fd_table Sysfs.file_log].
  pose proof (open_seq_opened_on tbl files) as Hop.
  rewrite find_fresh.
  - rewrite (find_nodup fd p); [reflexivity| |exact Hin].
    eapply opened_on_nodup. exact Hop.
  - apply opened_on_fresh in Hop. rewrite List.Forall_forall in Hop.
    apply (Hop _ Hin).
Qed.

Lemma opened_fd_live (tbl : list (Z * Sysfs.path)) (files : list Sysfs.path)
  (fd : Z) (p : Sysfs.path) :
  In (fd, p) (open_seq tbl files) -> (fd =? -1) = false.
Proof.
  intros Hin. apply (in_map fst) in Hin. apply open_seq_nonneg in Hin.
  cbn [fst] in Hin. apply Z.eqb_neq. lia.
Qed.

Lemma vanilla_probed_fds (fs : Sysfs.filesystem)
  (p : Sysfs.led_paths_vanilla_t) (tbl : list (Z * Sysfs.path)) :
  let s := vanilla_probed fs p tbl in
  let news := open_seq tbl (vanilla_channel_files p) in
  In (Sysfs.van_fd_val s, Sysfs.vp_val p) news /\
  In (Sysfs.van_fd_on s, Sysfs.vp_on p) news /\
  In (Sysfs.van_fd_off s, Sysfs.vp_off p) news.
Proof.
  cbn. tauto.
Qed.

Lemma hammerhead_probed_fds (fs : Sysfs.filesystem)
  (p : Sysfs.led_paths_hammerhead_t) (tbl : list (Z * Sysfs.path)) :
  let s := hammerhead_probed fs p tbl in
  let news := open_seq tbl (hammerhead_channel_files p) in
  In (Sysfs.ham_fd_val s, Sysfs.hp_val p) news /\
  In (Sysfs.ham_fd_on_off s, Sysfs.hp_on_off p) news /\
  In (Sysfs.ham_fd_enable s, Sysfs.hp_enable p) news.
Proof.
  cbn. tauto.
Qed.

Lemma led_state_vanilla_set_value_opened (tbl : list (Z * Sysfs.path))
  (files : list Sysfs.path) (s : Sysfs.led_state_vanilla_t) (p : Sysfs.path)
  (v : Z) (log : list (Sysfs.path * list Z)) :
  In (Sysfs.van_fd_val s, p) (open_seq tbl files) ->
  Sysfs.led_state_vanilla_set_value s v
    (Sysfs.mk_process (tbl ++ open_seq tbl files) log)
  = Sysfs.mk_process (tbl ++ open_seq tbl files)
      (log ++ [(p, [led_util_scale_value v (Sysfs.van_maxval s)])]).
Proof.
  intros Hin. unfold Sysfs.led_state_vanilla_set_value.
  rewrite (opened_fd_live _ _ _ _ Hin). cbn [negb].
  apply os_write_opened. exact Hin.
Qed.

Lemma led_state_vanilla_set_blink_opened (tbl : list (Z * Sysfs.path))
  (files : list Sysfs.path) (s : Sysfs.led_state_vanilla_t)
  (p_on p_off : Sysfs.path) (on_ms off_ms : Z)
  (log : list (Sysfs.path * list Z)) :
  In (Sysfs.van_fd_on s, p_on) (open_seq tbl files) ->
  In (Sysfs.van_fd_off s, p_off) (open_seq tbl files) ->
  Sysfs.led_state_vanilla_set_blink s on_ms off_ms
    (Sysfs.mk_process (tbl ++ open_seq tbl files) log)
  = Sysfs.mk_process (tbl ++ open_seq tbl files)
      (log ++ [(p_on, [on_ms]); (p_off, [off_ms])]).
Proof.
  intros Hon Hoff. unfold Sysfs.led_state_vanilla_set_blink.
  rewrite (opened_fd_live _ _ _ _ Hon), (opened_fd_live _ _ _ _ Hoff).
  cbn [negb andb].
  rewrite (os_write_opened _ _ _ _ _ _ Hon), (os_write_opened _ _ _ _ _ _ Hoff).
  rewrite <- app_assoc. reflexivity.
Qed.

Lemma led_state_hammerhead_set_value_opened (tbl : list (Z * Sysfs.path))
  (files : list Sysfs.path) (s : Sysfs.led_state_hammerhead_t) (p : Sysfs.path)
  (v : Z) (log : list (Sysfs.path * list Z)) :
  In (Sysfs.ham_fd_val s, p) (open_seq tbl files) ->
  Sysfs.led_state_hammerhead_set_value s v
    (Sysfs.mk_process (tbl ++ open_seq tbl files) log)
  = Sysfs.mk_process (tbl ++ open_seq tbl files)
      (log ++ [(p, [led_util_scale_value v (Sysfs.ham_maxval s)])]).
Proof.
  intros Hin. unfold Sysfs.led_state_hammerhead_set_value.
  rewrite (opened_fd_live _ _ _ _ Hin). cbn [negb].
  apply os_write_opened. exact Hin.
Qed.

Lemma led_state_hammerhead_set_enabled_opened (tbl : list (Z * Sysfs.path))
  (files : list Sysfs.path) (s : Sysfs.led_state_hammerhead_t) (p : Sysfs.path)
  (e : bool) (log : list (Sysfs.path * list Z)) :
  In (Sysfs.ham_fd_enable s, p) (open_seq tbl files) ->
  Sysfs.led_state_hammerhead_set_enabled s e
    (Sysfs.mk_process (tbl ++ open_seq tbl files) log)
  = Sysfs.mk_process (tbl ++ open_seq tbl files)
      (log ++ [(p, [if e then 1 else 0])]).
Proof.
  intros Hin. unfold Sysfs.led_state_hammerhead_set_enabled.
  rewrite (opened_fd_live _ _ _ _ Hin). cbn [negb].
  apply os_write_opened. exact Hin.
Qed.

(** ["%d"] takes between 1 and 12 characters here, so the text of
    ["%d %d"] always fits the 32 bytes of [tmp]. *)
Lemma decimal_digits_bound (fuel : nat) (n : Z) :
  1 <= Sysfs.decimal_digits fuel n <= Z.of_nat fuel + 1.
Proof.
  revert n. induction fuel as [|fuel IH]; intros n; cbn [Sysfs.decimal_digits].
  - lia.
  - destruct (n <? 10); [lia|]. specialize (IH (n / 10)). lia.
Qed.

Lemma decimal_length_bound (n : Z) : 1 <= Sysfs.decimal_length n <= 12.
Proof.
  unfold Sysfs.decimal_length.
  pose proof (decimal_digits_bound 10 n). pose proof (decimal_digits_bound 10 (- n)).
  destruct (n <? 0); lia.
Qed.

Lemma led_state_hammerhead_set_blink_opened (tbl : list (Z * Sysfs.path))
  (files : list Sysfs.path) (s : Sysfs.led_state_hammerhead_t) (p : Sysfs.path)
  (on_ms off_ms : Z) (log : list (Sysfs.path * list Z)) :
  In (Sysfs.ham_fd_on_off s, p) (open_seq tbl files) ->
  Sysfs.led_state_hammerhead_set_blink s on_ms off_ms
    (Sysfs.mk_process (tbl ++ open_seq tbl files) log)
  = Sysfs.mk_process (tbl ++ open_seq tbl files)
      (log ++ [(p, [on_ms; off_ms])]).
Proof.
  intros Hin. unfold Sysfs.led_state_hammerhead_set_blink.
  rewrite (opened_fd_live _ _ _ _ Hin). cbn [negb]. cbv zeta.
  pose proof (decimal_length_bound on_ms). pose proof (decimal_length_bound off_ms).
  destruct (Z.ltb_spec 0 (Sysfs.decimal_length on_ms + 1 + Sysfs.decimal_length off_ms));
    [|lia].
  destruct (Z.leb_spec (Sysfs.decimal_length on_ms + 1 + Sysfs.decimal_length off_ms) 32);
    [|lia].
  cbn [andb]. apply os_write_opened. exact Hin.
Qed.

Ltac probed_in := rewrite open_seq_3, !in_app_iff; tauto.

Lemma vanilla_call_run (fs : Sysfs.filesystem) (tbl : list (Z * Sysfs.path))
  (hs : Sysfs.led_state_hammerhead_t * Sysfs.led_state_hammerhead_t *
        Sysfs.led_state_hammerhead_t)
  (log : list (Sysfs.path * list Z)) (c : control_call) :
  control_call_run Sysfs.vanilla_control (vanilla_world fs tbl hs log) c =
  vanilla_world fs tbl hs
    (log ++ flat_map (sysfs_write_files BACKEND_VANILLA)
              (control_call_log (vanilla_abs fs) [] c)).
Proof.
  unfold vanilla_world, vanilla_abs, vanilla_files, vanilla_probed_all,
    sysfs_write_files.
  destruct Sysfs.vanilla_path_set as [[p0 p1] p2].
  destruct (vanilla_probed_fds fs p0 tbl) as (V0 & N0 & F0).
  destruct (vanilla_probed_fds fs p1
              (tbl ++ open_seq tbl (vanilla_channel_files p0))) as (V1 & N1 & F1).
  destruct (vanilla_probed_fds fs p2
              (tbl ++ open_seq tbl (vanilla_channel_files p0 ++
                                    vanilla_channel_files p1))) as (V2 & N2 & F2).
  destruct c as [e|on_ms off_ms|r g b];
    cbn [control_call_run control_call_log Sysfs.led_control_enable
         Sysfs.led_control_blink Sysfs.led_control_value Sysfs.vanilla_control
         Sysfs.enable Sysfs.blink Sysfs.value
         led_control_enable led_control_blink led_control_value ctl_backend
         ctl_maxval_r ctl_maxval_g ctl_maxval_b app flat_map].
  - rewrite app_nil_r. reflexivity.
  - unfold Sysfs.led_control_vanilla_blink_cb.
    cbn [Sysfs.vanilla_state Sysfs.proc Sysfs.set_proc Sysfs.hammerhead_state].
    rewrite (led_state_vanilla_set_blink_opened _ _ _ (Sysfs.vp_on p0)
               (Sysfs.vp_off p0)) by probed_in.
    rewrite (led_state_vanilla_set_blink_opened _ _ _ (Sysfs.vp_on p1)
               (Sysfs.vp_off p1)) by probed_in.
    rewrite (led_state_vanilla_set_blink_opened _ _ _ (Sysfs.vp_on p2)
               (Sysfs.vp_off p2)) by probed_in.
    rewrite <- !app_assoc. reflexivity.
  - unfold Sysfs.led_control_vanilla_value_cb.
    cbn [Sysfs.vanilla_state Sysfs.proc Sysfs.set_proc Sysfs.hammerhead_state].
    rewrite (led_state_vanilla_set_value_opened _ _ _ (Sysfs.vp_val p0))
      by probed_in.
    rewrite (led_state_vanilla_set_value_opened _ _ _ (Sysfs.vp_val p1))
      by probed_in.
    rewrite (led_state_vanilla_set_value_opened _ _ _ (Sysfs.vp_val p2))
      by probed_in.
    rewrite <- !app_assoc. reflexivity.
Qed.

Lemma hammerhead_enable_run (fs : Sysfs.filesystem) (tbl : list (Z * Sysfs.path))
  (vs : Sysfs.led_state_vanilla_t * Sysfs.led_state_vanilla_t *
        Sysfs.led_state_vanilla_t)
  (log : list (Sysfs.path * list Z)) (e : bool) :
  Sysfs.led_control_hammerhead_enable_cb e (hammerhead_world fs tbl vs log) =
  hammerhead_world fs tbl vs
    (log ++ sysfs_write_files BACKEND_HAMMERHEAD (WR_ENABLE e)).
Proof.
  unfold hammerhead_world, hammerhead_files, hammerhead_probed_all,
    sysfs_write_files.
  destruct Sysfs.hammerhead_path_set as [[p0 p1] p2].
  destruct (hammerhead_probed_fds fs p0 tbl) as (V0 & N0 & F0).
  destruct (hammerhead_probed_fds fs p1
              (tbl ++ open_seq tbl (hammerhead_channel_files p0)))
    as (V1 & N1 & F1).
  destruct (hammerhead_probed_fds fs p2
              (tbl ++ open_seq tbl (hammerhead_channel_files p0 ++
                                    hammerhead_channel_files p1)))
    as (V2 & N2 & F2).
  unfold Sysfs.led_control_hammerhead_enable_cb.
  cbn [Sysfs.vanilla_state Sysfs.proc Sysfs.set_proc Sysfs.hammerhead_state].
  rewrite (led_state_hammerhead_set_enabled_opened _ _ _ (Sysfs.hp_enable p0))
    by probed_in.
  rewrite (led_state_hammerhead_set_enabled_opened _ _ _ (Sysfs.hp_enable p1))
    by probed_in.
  rewrite (led_state_hammerhead_set_enabled_opened _ _ _ (Sysfs.hp_enable p2))
    by probed_in.
  rewrite <- !app_assoc. reflexivity.
Qed.

Lemma hammerhead_blink_run (fs : Sysfs.filesystem) (tbl : list (Z * Sysfs.path))
  (vs : Sysfs.led_state_vanilla_t * Sysfs.led_state_vanilla_t *
        Sysfs.led_state_vanilla_t)
  (log : list (Sysfs.path * list Z)) (on_ms off_ms : Z) :
  Sysfs.led_control_hammerhead_blink_cb on_ms off_ms
    (hammerhead_world fs tbl vs log) =
  hammerhead_world fs tbl vs
    (log ++ sysfs_write_files BACKEND_HAMMERHEAD (WR_BLINK on_ms off_ms)).
Proof.
  unfold hammerhead_world, hammerhead_files, hammerhead_probed_all,
    sysfs_write_files.
  destruct Sysfs.hammerhead_path_set as [[p0 p1] p2].
  destruct (hammerhead_probed_fds fs p0 tbl) as (V0 & N0 & F0).
  destruct (hammerhead_probed_fds fs p1
              (tbl ++ open_seq tbl (hammerhead_channel_files p0)))
    as (V1 & N1 & F1).
  destruct (hammerhead_probed_fds fs p2
              (tbl ++ open_seq tbl (hammerhead_channel_files p0 ++
                                    hammerhead_channel_files p1)))
    as (V2 & N2 & F2).
  unfold Sysfs.led_control_hammerhead_blink_cb.
  cbn [Sysfs.vanilla_state Sysfs.proc Sysfs.set_proc Sysfs.hammerhead_state].
  rewrite (led_state_hammerhead_set_blink_opened _ _ _ (Sysfs.hp_on_off p0))
    by probed_in.
  rewrite (led_state_hammerhead_set_blink_opened _ _ _ (Sysfs.hp_on_off p1))
    by probed_in.
  rewrite (led_state_hammerhead_set_blink_opened _ _ _ (Sysfs.hp_on_off p2))
    by probed_in.
  rewrite <- !app_assoc. reflexivity.
Qed.

Lemma hammerhead_value_run (fs : Sysfs.filesystem) (tbl : list (Z * Sysfs.path))
  (vs : Sysfs.led_state_vanilla_t * Sysfs.led_state_vanilla_t *
        Sysfs.led_state_vanilla_t)
  (log : list (Sysfs.path * list Z)) (r g b : Z) :
  Sysfs.led_control_hammerhead_value_cb r g b (hammerhead_world fs tbl vs log) =
  hammerhead_world fs tbl vs
    (log ++ sysfs_write_files BACKEND_HAMMERHEAD
              (WR_VALUE (led_util_scale_value r (ctl_maxval_r (hammerhead_abs fs)))
                 (led_util_scale_value g (ctl_maxval_g (hammerhead_abs fs)))
                 (led_util_scale_value b (ctl_maxval_b (hammerhead_abs fs))))).
Proof.
  unfold hammerhead_world, hammerhead_abs, hammerhead_files,
    hammerhead_probed_all, sysfs_write_files.
  destruct Sysfs.hammerhead_path_set as [[p0 p1] p2].
  destruct (hammerhead_probed_fds fs p0 tbl) as (V0 & N0 & F0).
  destruct (hammerhead_probed_fds fs p1
              (tbl ++ open_seq tbl (hammerhead_channel_files p0)))
    as (V1 & N1 & F1).
  destruct (hammerhead_probed_fds fs p2
              (tbl ++ open_seq tbl (hammerhead_channel_files p0 ++
                                    hammerhead_channel_files p1)))
    as (V2 & N2 & F2).
  unfold Sysfs.led_control_hammerhead_value_cb.
  cbn [Sysfs.vanilla_state Sysfs.proc Sysfs.set_proc Sysfs.hammerhead_state
       ctl_maxval_r ctl_maxval_g ctl_maxval_b].
  rewrite (led_state_hammerhead_set_value_opened _ _ _ (Sysfs.hp_val p0))
    by probed_in.
  rewrite (led_state_hammerhead_set_value_opened _ _ _ (Sysfs.hp_val p1))
    by probed_in.
  rewrite (led_state_hammerhead_set_value_opened _ _ _ (Sysfs.hp_val p2))
    by probed_in.
  rewrite <- !app_assoc. reflexivity.
Qed.

Lemma hammerhead_abs_backend (fs : Sysfs.filesystem) :
  ctl_backend (hammerhead_abs fs) = Some BACKEND_HAMMERHEAD.
Proof.
  unfold hammerhead_abs. destruct Sysfs.hammerhead_path_set as [[p0 p1] p2].
  reflexivity.
Qed.

Lemma vanilla_abs_backend (fs : Sysfs.filesystem) :
  ctl_backend (vanilla_abs fs) = Some BACKEND_VANILLA.
Proof.
  unfold vanilla_abs. destruct Sysfs.vanilla_path_set as [[p0 p1] p2].
  reflexivity.
Qed.

Lemma hammerhead_call_run (fs : Sysfs.filesystem) (tbl : list (Z * Sysfs.path))
  (vs : Sysfs.led_state_vanilla_t * Sysfs.led_state_vanilla_t *
        Sysfs.led_state_vanilla_t)
  (log : list (Sysfs.path * list Z)) (c : control_call) :
  control_call_run Sysfs.hammerhead_control (hammerhead_world fs tbl vs log) c =
  hammerhead_world fs tbl vs
    (log ++ flat_map (sysfs_write_files BACKEND_HAMMERHEAD)
              (control_call_log (hammerhead_abs fs) [] c)).
Proof.
  destruct c as [e|on_ms off_ms|r g b];
    cbn [control_call_run control_call_log Sysfs.led_control_enable
         Sysfs.led_control_blink Sysfs.led_control_value Sysfs.hammerhead_control
         Sysfs.enable Sysfs.blink Sysfs.value];
    unfold led_control_enable, led_control_blink, led_control_value,
      led_control_enable;
    rewrite hammerhead_abs_backend; cbn [app flat_map];
    rewrite ?hammerhead_enable_run, ?hammerhead_blink_run, ?hammerhead_value_run,
      ?hammerhead_enable_run;
    rewrite ?app_nil_r, <- ?app_assoc; reflexivity.
Qed.

Lemma control_call_log_app (ctl : led_control_t) (log : list sysfs_write)
  (c : control_call) :
  control_call_log ctl log c = log ++ control_call_log ctl [] c.
Proof.
  destruct c as [e|on_ms off_ms|r g b];
    unfold control_call_log, led_control_value, led_control_blink,
      led_control_enable;
    destruct (ctl_backend ctl) as [[|]|]; cbn [app];
    rewrite ?app_nil_r, <- ?app_assoc; reflexivity.
Qed.

Lemma control_calls_log_app (ctl : led_control_t) (calls : list control_call)
  (log : list sysfs_write) :
  fold_left (control_call_log ctl) calls log
  = log ++ fold_left (control_call_log ctl) calls [].
Proof.
  revert log. induction calls as [|c calls IH]; intros log; cbn [fold_left].
  - rewrite app_nil_r. reflexivity.
  - rewrite IH, (IH (control_call_log ctl [] c)), (control_call_log_app ctl log).
    rewrite app_assoc. reflexivity.
Qed.

Lemma vanilla_calls_run (fs : Sysfs.filesystem) (tbl : list (Z * Sysfs.path))
  (hs : Sysfs.led_state_hammerhead_t * Sysfs.led_state_hammerhead_t *
        Sysfs.led_state_hammerhead_t)
  (calls : list control_call) (log : list (Sysfs.path * list Z)) :
  fold_left (control_call_run Sysfs.vanilla_control) calls
    (vanilla_world fs tbl hs log) =
  vanilla_world fs tbl hs
    (log ++ flat_map (sysfs_write_files BACKEND_VANILLA)
              (fold_left (control_call_log (vanilla_abs fs)) calls [])).
Proof.
  revert log. induction calls as [|c calls IH]; intros log; cbn [fold_left].
  - cbn [flat_map]. rewrite app_nil_r. reflexivity.
  - rewrite vanilla_call_run, IH, (control_calls_log_app _ calls (control_call_log _ _ _)).
    rewrite flat_map_app, app_assoc. reflexivity.
Qed.

Lemma hammerhead_calls_run (fs : Sysfs.filesystem) (tbl : list (Z * Sysfs.path))
  (vs : Sysfs.led_state_vanilla_t * Sysfs.led_state_vanilla_t *
        Sysfs.led_state_vanilla_t)
  (calls : list control_call) (log : list (Sysfs.path * list Z)) :
  fold_left (control_call_run Sysfs.hammerhead_control) calls
    (hammerhead_world fs tbl vs log) =
  hammerhead_world fs tbl vs
    (log ++ flat_map (sysfs_write_files BACKEND_HAMMERHEAD)
              (fold_left (control_call_log (hammerhead_abs fs)) calls [])).
Proof.
  revert log. induction calls as [|c calls IH]; intros log; cbn [fold_left].
  - cbn [flat_map]. rewrite app_nil_r. reflexivity.
  - rewrite hammerhead_call_run, IH,
      (control_calls_log_app _ calls (control_call_log _ _ _)).
    rewrite flat_map_app, app_assoc. reflexivity.
Qed.

Lemma closed_calls_run (calls : list control_call) (w : Sysfs.world) :
  fold_left (control_call_run Sysfs.led_control_init) calls w = w.
Proof.
  induction calls as [|c calls IH]; cbn [fold_left]; [reflexivity|].
  destruct c; exact IH.
Qed.

Lemma closed_calls_log (calls : list control_call) :
  fold_left (control_call_log led_control_init) calls [] = [].
Proof.
  induction calls as [|c calls IH]; cbn [fold_left]; [reflexivity|].
  destruct c; exact IH.
Qed.

Lemma control_abs_vanilla (fs : Sysfs.filesystem) (tbl : list (Z * Sysfs.path))
  (hs : Sysfs.led_state_hammerhead_t * Sysfs.led_state_hammerhead_t *
        Sysfs.led_state_hammerhead_t)
  (log : list (Sysfs.path * list Z)) :
  control_abs Sysfs.vanilla_control (vanilla_world fs tbl hs log) = vanilla_abs fs.
Proof.
  unfold control_abs, vanilla_world, vanilla_probed_all, vanilla_abs.
  destruct Sysfs.vanilla_path_set as [[p0 p1] p2]. reflexivity.
Qed.

Lemma control_abs_hammerhead (fs : Sysfs.filesystem) (tbl : list (Z * Sysfs.path))
  (vs : Sysfs.led_state_vanilla_t * Sysfs.led_state_vanilla_t *
        Sysfs.led_state_vanilla_t)
  (log : list (Sysfs.path * list Z)) :
  control_abs Sysfs.hammerhead_control (hammerhead_world fs tbl vs log)
  = hammerhead_abs fs.
Proof.
  unfold control_abs, hammerhead_world, hammerhead_probed_all, hammerhead_abs.
  destruct Sysfs.hammerhead_path_set as [[p0 p1] p2]. reflexivity.
Qed.

(** The three outcomes of [led_control_probe], as worlds. *)
Lemma led_control_probe_cases (fs : Sysfs.filesystem) (w : Sysfs.world) :
  let tbl := Sysfs.fd_table (Sysfs.proc w) in
  let log := Sysfs.file_log (Sysfs.proc w) in
  (vanilla_files_ok fs = true /\
   Sysfs.led_control_probe fs w =
   (vanilla_world fs tbl (Sysfs.hammerhead_state w) log,
    Sysfs.vanilla_control, true)) \/
  (vanilla_files_ok fs = false /\ hammerhead_files_ok fs = true /\
   exists vs,
     Sysfs.led_control_probe fs w =
     (hammerhead_world fs tbl vs log, Sysfs.hammerhead_control, true)) \/
  (vanilla_files_ok fs = false /\ hammerhead_files_ok fs = false /\
   exists vs hs,
     Sysfs.led_control_probe fs w =
     (Sysfs.mk_world (Sysfs.proc w) vs hs, Sysfs.led_control_init, false)).
Proof.
  cbv zeta. pose proof (led_control_probe_eq fs w) as H. cbv zeta in H.
  destruct (vanilla_files_ok fs).
  { left. split; [reflexivity|exact H]. }
  destruct H as (v0 & v1 & v2 & _ & _ & _ & H). right.
  destruct (hammerhead_files_ok fs).
  { left. split; [reflexivity|]. split; [reflexivity|].
    exists (v0, v1, v2). exact H. }
  destruct H as (h0 & h1 & h2 & _ & _ & _ & H). right.
  split; [reflexivity|]. split; [reflexivity|].
  exists (v0, v1, v2), (h0, h1, h2). exact H.
Qed.

Lemma vanilla_files_ok_maxima (fs : Sysfs.filesystem) :
  vanilla_files_ok fs = true ->
  0 < ctl_maxval_r (vanilla_abs fs) /\ 0 < ctl_maxval_g (vanilla_abs fs) /\
  0 < ctl_maxval_b (vanilla_abs fs).
Proof.
  unfold vanilla_files_ok, vanilla_abs, vanilla_channel_ok.
  destruct Sysfs.vanilla_path_set as [[p0 p1] p2]. intros H.
  repeat match goal with
         | G : andb _ _ = true |- _ => apply andb_true_iff in G; destruct G
         end.
  cbn [ctl_maxval_r ctl_maxval_g ctl_maxval_b].
  repeat split; apply Z.ltb_lt; assumption.
Qed.

Lemma hammerhead_files_ok_maxima (fs : Sysfs.filesystem) :
  hammerhead_files_ok fs = true ->
  0 < ctl_maxval_r (hammerhead_abs fs) /\ 0 < ctl_maxval_g (hammerhead_abs fs) /\
  0 < ctl_maxval_b (hammerhead_abs fs).
Proof.
  unfold hammerhead_files_ok, hammerhead_abs, hammerhead_channel_ok.
  destruct Sysfs.hammerhead_path_set as [[p0 p1] p2]. intros H.
  repeat match goal with
         | G : andb _ _ = true |- _ => apply andb_true_iff in G; destruct G
         end.
  cbn [ctl_maxval_r ctl_maxval_g ctl_maxval_b].
  repeat split; apply Z.ltb_lt; assumption.
Qed.

(** X14: [led_control_probe] succeeds exactly when the files of the
    vanilla set or those of the hammerhead set are all usable (a
    positive number in [max_brightness], the three control files open
    for appending), and prefers the vanilla set. It writes to no file.
    When it fails the control object has every pointer null and the
    process is as before: no descriptor stays open. When it succeeds
    the three channel maxima are positive. *)
Theorem led_control_probe_outcome (fs : Sysfs.filesystem) (w : Sysfs.world) :
  let r := Sysfs.led_control_probe fs w in
  let w' := fst (fst r) in
  let self := snd (fst r) in
  let ok := snd r in
  ok = vanilla_files_ok fs || hammerhead_files_ok fs /\
  self = (if vanilla_files_ok fs then Sysfs.vanilla_control
          else if hammerhead_files_ok fs then Sysfs.hammerhead_control
          else Sysfs.led_control_init) /\
  Sysfs.file_log (Sysfs.proc w') = Sysfs.file_log (Sysfs.proc w) /\
  (ok = false -> Sysfs.proc w' = Sysfs.proc w) /\
  (ok = true ->
   0 < ctl_maxval_r (control_abs self w') /\
   0 < ctl_maxval_g (control_abs self w') /\
   0 < ctl_maxval_b (control_abs self w')).
Proof.
  cbv zeta.
  destruct (led_control_probe_cases fs w)
    as [(Ev & ->)|[(Ev & Eh & vs & ->)|(Ev & Eh & vs & hs & ->)]];
    rewrite Ev, ?Eh; cbn [fst snd orb].
  - rewrite control_abs_vanilla.
    split; [reflexivity|]. split; [reflexivity|]. split; [reflexivity|].
    split; [discriminate|]. intros _. apply vanilla_files_ok_maxima, Ev.
  - rewrite control_abs_hammerhead.
    split; [reflexivity|]. split; [reflexivity|]. split; [reflexivity|].
    split; [discriminate|]. intros _. apply hammerhead_files_ok_maxima, Eh.
  - split; [reflexivity|]. split; [reflexivity|]. split; [reflexivity|].
    split; [reflexivity|discriminate].
Qed.

Lemma vanilla_probed_state_fds (fs : Sysfs.filesystem)
  (p : Sysfs.led_paths_vanilla_t) (tbl : list (Z * Sysfs.path)) :
  vanilla_state_fds (vanilla_probed fs p tbl)
  = map fst (open_seq tbl (vanilla_channel_files p)).
Proof. reflexivity. Qed.

Lemma hammerhead_probed_state_fds (fs : Sysfs.filesystem)
  (p : Sysfs.led_paths_hammerhead_t) (tbl : list (Z * Sysfs.path)) :
  hammerhead_state_fds (hammerhead_probed fs p tbl)
  = map fst (open_seq tbl (hammerhead_channel_files p)).
Proof. reflexivity. Qed.

Lemma opened_descriptors (tbl : list (Z * Sysfs.path)) (files : list Sysfs.path) :
  let news := open_seq tbl files in
  map snd news = files /\
  NoDup (map fst news) /\
  Forall (fun fd => 0 <= fd /\ ~ In fd (map fst tbl)) (map fst news).
Proof.
  cbv zeta. split; [apply open_seq_files|].
  pose proof (open_seq_opened_on tbl files) as Hop.
  split; [eapply opened_on_nodup; exact Hop|].
  apply opened_on_fresh in Hop. apply List.Forall_map.
  exact Hop.
Qed.

(** X15: The descriptors of a probe. [led_control_probe] adds to the
    descriptor table one descriptor for each control file of the
    backend it found (nine in all, none when it fails), in the order
    brightness, on, off per channel; they are distinct valid
    descriptors that were not open before, the table is otherwise as
    it was, and they are the ones held by the channel states of the
    control. *)
Theorem led_control_probe_descriptors (fs : Sysfs.filesystem) (w : Sysfs.world) :
  let r := Sysfs.led_control_probe fs w in
  let w' := fst (fst r) in
  let self := snd (fst r) in
  exists news,
    Sysfs.fd_table (Sysfs.proc w') = Sysfs.fd_table (Sysfs.proc w) ++ news /\
    map snd news = probed_files fs /\
    List.length news = (if snd r then 9%nat else 0%nat) /\
    map fst news = control_fds self w' /\
    NoDup (map fst news) /\
    Forall (fun fd => 0 <= fd /\
                      ~ In fd (map fst (Sysfs.fd_table (Sysfs.proc w))))
      (map fst news).
Proof.
  cbv zeta. unfold probed_files.
  set (tbl := Sysfs.fd_table (Sysfs.proc w)).
  destruct (led_control_probe_cases fs w)
    as [(Ev & ->)|[(Ev & Eh & vs & ->)|(Ev & Eh & vs & hs & ->)]];
    rewrite Ev, ?Eh; cbn [fst snd]; fold tbl.
  - exists (open_seq tbl vanilla_files).
    destruct (opened_descriptors tbl vanilla_files) as (H1 & H2 & H3).
    split; [reflexivity|]. split; [exact H1|].
    split; [rewrite <- (length_map snd), H1; reflexivity|].
    split; [|split; assumption].
    unfold control_fds, vanilla_world, vanilla_probed_all, vanilla_files.
    cbn [Sysfs.data Sysfs.vanilla_control Sysfs.vanilla_state].
    destruct Sysfs.vanilla_path_set as [[p0 p1] p2].
    rewrite open_seq_3, !map_app, !vanilla_probed_state_fds. reflexivity.
  - exists (open_seq tbl hammerhead_files).
    destruct (opened_descriptors tbl hammerhead_files) as (H1 & H2 & H3).
    split; [reflexivity|]. split; [exact H1|].
    split; [rewrite <- (length_map snd), H1; reflexivity|].
    split; [|split; assumption].
    unfold control_fds, hammerhead_world, hammerhead_probed_all, hammerhead_files.
    cbn [Sysfs.data Sysfs.hammerhead_control Sysfs.hammerhead_state].
    destruct Sysfs.hammerhead_path_set as [[p0 p1] p2].
    rewrite open_seq_3, !map_app, !hammerhead_probed_state_fds. reflexivity.
  - exists []. rewrite app_nil_r.
    repeat split; constructor.
Qed.

(** X16: Probing and closing is a round trip. Whatever
    [led_control_probe] found, [led_control_close] on the control it
    left gives back the process as it was before the probe, every
    descriptor of the probe closed and no other one touched, and leaves
    the control object with every pointer null; calls on it then do
    nothing. *)
Theorem led_control_probe_close (fs : Sysfs.filesystem) (w : Sysfs.world)
  (calls : list control_call) :
  let r := Sysfs.led_control_probe fs w in
  let c := Sysfs.led_control_close (snd (fst r)) (fst (fst r)) in
  Sysfs.proc (fst c) = Sysfs.proc w /\
  snd c = Sysfs.led_control_init /\
  fold_left (control_call_run (snd c)) calls (fst c) = fst c.
Proof.
  cbv zeta.
  split; [|split; [reflexivity|apply closed_calls_run]].
  set (tbl := Sysfs.fd_table (Sysfs.proc w)).
  destruct (led_control_probe_cases fs w)
    as [(Ev & ->)|[(Ev & Eh & vs & ->)|(Ev & Eh & vs & hs & ->)]];
    cbn [fst snd]; fold tbl.
  - unfold vanilla_world, vanilla_probed_all, vanilla_files.
    destruct Sysfs.vanilla_path_set as [[p0 p1] p2].
    cbn [Sysfs.led_control_close Sysfs.close Sysfs.vanilla_control fst
         Sysfs.led_control_vanilla_close_cb Sysfs.vanilla_state Sysfs.proc].
    rewrite !led_state_vanilla_close_eq.
    cbn [Sysfs.fd_table Sysfs.file_log Sysfs.proc]. rewrite !fd_closed_app.
    rewrite fd_closed_open_seq.
    + unfold tbl. apply process_eta.
    + intros f. rewrite open_seq_3, !map_app, !in_app_iff.
      rewrite <- (vanilla_probed_live fs p0 tbl f).
      rewrite <- (vanilla_probed_live fs p1 _ f).
      rewrite <- (vanilla_probed_live fs p2 _ f).
      cbv zeta. rewrite !in_app_iff. tauto.
  - unfold hammerhead_world, hammerhead_probed_all, hammerhead_files.
    destruct Sysfs.hammerhead_path_set as [[p0 p1] p2].
    cbn [Sysfs.led_control_close Sysfs.close Sysfs.hammerhead_control fst
         Sysfs.led_control_hammerhead_close_cb Sysfs.hammerhead_state Sysfs.proc].
    rewrite !led_state_hammerhead_close_eq.
    cbn [Sysfs.fd_table Sysfs.file_log Sysfs.proc]. rewrite !fd_closed_app.
    rewrite fd_closed_open_seq.
    + unfold tbl. apply process_eta.
    + intros f. rewrite open_seq_3, !map_app, !in_app_iff.
      rewrite <- (hammerhead_probed_live fs p0 tbl f).
      rewrite <- (hammerhead_probed_live fs p1 _ f).
      rewrite <- (hammerhead_probed_live fs p2 _ f).
      cbv zeta. rewrite !in_app_iff. tauto.
  - reflexivity.
Qed.

(** X17: The trace of sysfs writes stands for the writes to the files.
    For the control left by [led_control_probe] and any sequence of
    [led_control_enable], [led_control_blink] and [led_control_value]
    calls, the writes that reach the files are those of the trace the
    abstract control records, entry by entry: a value entry is one
    write of the scaled value to the brightness file of each channel,
    in the order red, green, blue; a blink entry is a write to the on
    and off files (vanilla) or one write of both periods to on_off_ms
    (hammerhead) of each channel; an enable entry is a write to
    rgb_start of each channel. The calls open and close nothing, and
    after a failed probe they write nothing. *)
Theorem led_control_calls_refine (fs : Sysfs.filesystem) (w : Sysfs.world)
  (calls : list control_call) :
  let r := Sysfs.led_control_probe fs w in
  let w' := fst (fst r) in
  let self := snd (fst r) in
  let ctl := control_abs self w' in
  let wn := fold_left (control_call_run self) calls w' in
  Sysfs.file_log (Sysfs.proc wn) =
    Sysfs.file_log (Sysfs.proc w) ++
    flat_map (control_write_files ctl) (fold_left (control_call_log ctl) calls []) /\
  Sysfs.fd_table (Sysfs.proc wn) = Sysfs.fd_table (Sysfs.proc w') /\
  ctl_backend ctl =
    (if vanilla_files_ok fs then Some BACKEND_VANILLA
     else if hammerhead_files_ok fs then Some BACKEND_HAMMERHEAD else None).
Proof.
  cbv zeta.
  destruct (led_control_probe_cases fs w)
    as [(Ev & ->)|[(Ev & Eh & vs & ->)|(Ev & Eh & vs & hs & ->)]];
    rewrite Ev, ?Eh; cbn [fst snd].
  - rewrite control_abs_vanilla, vanilla_calls_run.
    unfold control_write_files. rewrite vanilla_abs_backend.
    repeat split.
  - rewrite control_abs_hammerhead, hammerhead_calls_run.
    unfold control_write_files. rewrite hammerhead_abs_backend.
    repeat split.
  - rewrite closed_calls_run. unfold control_abs.
    cbn [Sysfs.value Sysfs.led_control_init]. rewrite closed_calls_log.
    cbn [flat_map Sysfs.proc]. rewrite app_nil_r. repeat split.
Qed.

(* ================================================================== *)
(** ** The libhybris side *)

Arguments Hal.brightness_state : simpl never.
Arguments Hal.pattern_state : simpl never.

(** Runs the monadic code of the libhybris side on a state given by
    its fields. *)
Ltac hal_unfold :=
  cbv [Hal.hal_ops_run Hal.hal_op_run Hal.mce_hybris_quit
       Hal.mce_hybris_modlights_unload Hal.mce_hybris_modfb_unload
       Hal.mce_hybris_indicator_set_pattern Hal.mce_hybris_indicator_quit
       Hal.mce_hybris_indicator_init
       Hal.mce_hybris_keypad_set_brightness Hal.mce_hybris_keypad_quit
       Hal.mce_hybris_keypad_init
       Hal.mce_hybris_backlight_set_brightness Hal.mce_hybris_backlight_quit
       Hal.mce_hybris_backlight_init Hal.set_light Hal.mce_light_device_close
       Hal.mce_light_device_open Hal.mce_hybris_modlights_load
       Hal.mce_hybris_framebuffer_set_power Hal.mce_hybris_framebuffer_quit
       Hal.mce_hybris_framebuffer_init Hal.mce_framebuffer_close
       Hal.mce_framebuffer_open Hal.mce_hybris_modfb_load
       Run.bind Run.ret Run.get Run.put Run.deref Hal.hal Run.when Run.is_set
       Hal.set_modfb_load_done Hal.set_mod_fb Hal.set_framebuffer_init_done
       Hal.set_dev_fb Hal.set_modlights_load_done Hal.set_mod_lights
       Hal.set_backlight_init_done Hal.set_dev_backlight
       Hal.set_keypad_init_done Hal.set_dev_keypad
       Hal.set_indicator_init_done Hal.set_indicator_init_ack
       Hal.set_dev_indicator Hal.set_led_ctrl_uses_sysfs Hal.set_hal_calls
       Hal.modfb_load_done Hal.mod_fb Hal.framebuffer_init_done Hal.dev_fb
       Hal.modlights_load_done Hal.mod_lights Hal.backlight_init_done
       Hal.dev_backlight Hal.keypad_init_done Hal.dev_keypad
       Hal.indicator_init_done Hal.indicator_init_ack Hal.dev_indicator
       Hal.led_ctrl_uses_sysfs Hal.hal_calls negb final_state crashed] in *.

Ltac hal_case :=
  match goal with
  | |- context [match ?p with Some _ => _ | None => _ end] =>
      lazymatch p with
      | context [match _ with _ => _ end] => fail
      | _ => destruct p eqn:?
      end
  | |- context [match (if ?b then _ else _) with _ => _ end] => destruct b eqn:?
  | |- context [if ?b then _ else _] =>
      lazymatch b with
      | context [match _ with _ => _ end] => fail
      | Z.ltb _ _ => fail
      | _ => destruct b eqn:?
      end
  end.

Ltac hal_run := hal_unfold; repeat (hal_case; hal_unfold).

(** On every call but [mce_hybris_indicator_set_pattern] each pointer
    is tested before it is used. *)
Lemma hal_op_run_safe (env : Hal.hal_env) (op : Hal.hal_op)
  (st : Hal.hal_state) :
  is_set_pattern op = false ->
  exists st', Hal.hal_op_run env op st = Run.Ok tt st'.
Proof.
  intros Hop.
  destruct st as [a b c d e f g h i j k l m n o].
  destruct op; try discriminate Hop; hal_run;
    first [congruence|eexists; reflexivity
          |destruct (_ <? _); eexists; reflexivity].
Qed.

Lemma hal_ops_run_safe (env : Hal.hal_env) (ops : list Hal.hal_op)
  (st : Hal.hal_state) :
  Forall (fun op => is_set_pattern op = false) ops ->
  exists st', Hal.hal_ops_run env ops st = Run.Ok tt st'.
Proof.
  intros H. revert st. induction H as [|op ops Hop _ IH]; intros st.
  - exists st. reflexivity.
  - destruct (hal_op_run_safe env op st Hop) as (st1 & E1).
    destruct (IH st1) as (st2 & E2). exists st2.
    cbn [Hal.hal_ops_run]. unfold Run.bind. rewrite E1. exact E2.
Qed.

(** X18: Null pointers on the libhybris side. Every function of the
    frame buffer, the display backlight and the keypad backlight, and
    [mce_hybris_indicator_init], [mce_hybris_indicator_quit] and
    [mce_hybris_quit], test a module or device pointer before calling
    through it: started in any state, a sequence of these calls never
    calls through a null pointer. *)
Theorem hal_calls_null_safe (env : Hal.hal_env) (ops : list Hal.hal_op)
  (st : Hal.hal_state) :
  Forall (fun op => is_set_pattern op = false) ops ->
  crashed (Hal.hal_ops_run env ops st) = false.
Proof.
  intros H. destruct (hal_ops_run_safe env ops st H) as (st' & ->). reflexivity.
Qed.

Lemma land_shifted_low (a b n : Z) :
  0 <= n -> 0 <= b < 2 ^ n -> Z.land (a * 2 ^ n) b = 0.
Proof.
  intros Hn Hb. apply Z.bits_inj'. intros i Hi.
  rewrite Z.land_spec, Z.bits_0.
  destruct (Z.lt_ge_cases i n) as [Hlt|Hge].
  - rewrite Z.mul_pow2_bits_low by lia. reflexivity.
  - assert (E : Z.testbit b i = false).
    { destruct (Z.eq_dec b 0) as [->|Hb0]; [apply Z.bits_0|].
      apply Z.bits_above_log2; [lia|].
      assert (Z.log2 b < n) by (apply Z.log2_lt_pow2; lia). lia. }
    rewrite E. apply andb_false_r.
Qed.

Lemma lor_shifted_low (a b n : Z) :
  0 <= n -> 0 <= b < 2 ^ n -> Z.lor (a * 2 ^ n) b = a * 2 ^ n + b.
Proof.
  intros Hn Hb. pose proof (Z.add_lor_land (a * 2 ^ n) b) as H.
  rewrite land_shifted_low in H by assumption. lia.
Qed.

Lemma color_pack (r g b : Z) :
  0 <= r <= 255 -> 0 <= g <= 255 -> 0 <= b <= 255 ->
  Hal.uint32 (Z.lor (Z.lor (Z.lor (Z.shiftl 255 24) (Z.shiftl r 16))
                       (Z.shiftl g 8)) (Z.shiftl b 0))
  = 4278190080 + 65536 * r + 256 * g + b.
Proof.
  intros Hr Hg Hb. unfold Hal.uint32.
  rewrite !Z.shiftl_mul_pow2 by lia.
  rewrite <- !Z.lor_assoc.
  change (b * 2 ^ 0) with (b * 1). rewrite Z.mul_1_r.
  rewrite (lor_shifted_low g b 8) by lia.
  replace (r * 2 ^ 16) with (r * 2 ^ 16) by reflexivity.
  rewrite (lor_shifted_low r (g * 2 ^ 8 + b) 16) by lia.
  rewrite (lor_shifted_low 255 (r * 2 ^ 16 + (g * 2 ^ 8 + b)) 24) by lia.
  rewrite Z.mod_small by lia. lia.
Qed.

Lemma land_255 (x : Z) : Z.land x 255 = x mod 256.
Proof.
  change 255 with (Z.ones 8). rewrite Z.land_ones by lia. reflexivity.
Qed.

Lemma color_bytes (r g b : Z) :
  0 <= r <= 255 -> 0 <= g <= 255 -> 0 <= b <= 255 ->
  let c := 4278190080 + 65536 * r + 256 * g + b in
  color_byte 3 c = 255 /\ color_byte 2 c = r /\ color_byte 1 c = g /\
  color_byte 0 c = b.
Proof.
  intros Hr Hg Hb. cbv zeta. unfold color_byte.
  rewrite !land_255, !Z.shiftr_div_pow2 by lia.
  change (2 ^ (8 * 3)) with 16777216. change (2 ^ (8 * 2)) with 65536.
  change (2 ^ (8 * 1)) with 256. change (2 ^ (8 * 0)) with 1.
  repeat split; Z.to_euclidean_division_equations; lia.
Qed.

Lemma brightness_state_color (lev : Z) :
  0 <= lev <= 255 ->
  Hal.color (Hal.brightness_state lev) = 4278190080 + 65793 * lev.
Proof.
  intros H. unfold Hal.brightness_state. cbn [Hal.color].
  rewrite color_pack by assumption. lia.
Qed.

Lemma level_clamp (level : Z) :
  (if level <? 0 then 0 else if 255 <? level then 255 else level)
  = clamp 0 255 level.
Proof.
  unfold clamp. destruct (Z.ltb_spec level 0); [lia|].
  destruct (Z.ltb_spec 255 level); lia.
Qed.

(** X19: The light state of a backlight. [mce_hybris_backlight_set_brightness]
    and [mce_hybris_keypad_set_brightness] never call through a null
    pointer. They return false, with no call of [set_light], when the
    device is not open after [init]; else they make one call of
    [set_light] and return whether it returned a value >= 0. The light
    state passed is not flashing, in user mode, and its color is
    0xff000000 + 0x010101 * lev for the level clamped to 0 ... 255:
    alpha 255 and the three color bytes equal to lev. *)
Theorem lights_set_brightness_spec (env : Hal.hal_env) (level : Z)
  (st : Hal.hal_state) :
  let lev := clamp 0 255 level in
  let lst := Hal.brightness_state lev in
  (exists ok st1,
     Hal.mce_hybris_backlight_init env st = Run.Ok ok st1 /\
     ok = Run.is_set (Hal.dev_backlight st1) /\
     Hal.mce_hybris_backlight_set_brightness env level st =
     if ok then
       Run.Ok (negb (Hal.env_set_light env (List.length (Hal.hal_calls st1))
                       Hal.LIGHT_ID_BACKLIGHT lst <? 0))
         (Hal.set_hal_calls
            (Hal.hal_calls st1 ++ [Hal.CALL_set_light Hal.LIGHT_ID_BACKLIGHT lst])
            st1)
     else Run.Ok false st1) /\
  (exists ok st1,
     Hal.mce_hybris_keypad_init env st = Run.Ok ok st1 /\
     ok = Run.is_set (Hal.dev_keypad st1) /\
     Hal.mce_hybris_keypad_set_brightness env level st =
     if ok then
       Run.Ok (negb (Hal.env_set_light env (List.length (Hal.hal_calls st1))
                       Hal.LIGHT_ID_KEYBOARD lst <? 0))
         (Hal.set_hal_calls
            (Hal.hal_calls st1 ++ [Hal.CALL_set_light Hal.LIGHT_ID_KEYBOARD lst])
            st1)
     else Run.Ok false st1) /\
  Hal.color lst = 4278190080 + 65793 * lev /\
  color_byte 3 (Hal.color lst) = 255 /\
  color_byte 2 (Hal.color lst) = lev /\
  color_byte 1 (Hal.color lst) = lev /\
  color_byte 0 (Hal.color lst) = lev /\
  Hal.flashMode lst = Hal.LIGHT_FLASH_NONE /\
  Hal.flashOnMS lst = 0 /\ Hal.flashOffMS lst = 0 /\
  Hal.brightnessMode lst = Hal.BRIGHTNESS_MODE_USER.
Proof.
  cbv zeta.
  assert (Hlev : 0 <= clamp 0 255 level <= 255) by (unfold clamp; lia).
  split; [|split].
  - unfold Hal.mce_hybris_backlight_set_brightness. rewrite level_clamp.
    set (lst := Hal.brightness_state (clamp 0 255 level)).
    destruct st as [a b c d e f g h i j k l m n o].
    hal_run; try congruence;
      (do 2 eexists; split; [reflexivity|]; hal_unfold; split; [reflexivity|];
       try destruct (_ <? _); reflexivity).
  - unfold Hal.mce_hybris_keypad_set_brightness. rewrite level_clamp.
    set (lst := Hal.brightness_state (clamp 0 255 level)).
    destruct st as [a b c d e f g h i j k l m n o].
    hal_run; try congruence;
      (do 2 eexists; split; [reflexivity|]; hal_unfold; split; [reflexivity|];
       try destruct (_ <? _); reflexivity).
  - rewrite (brightness_state_color _ Hlev).
    replace (4278190080 + 65793 * clamp 0 255 level)
      with (4278190080 + 65536 * clamp 0 255 level + 256 * clamp 0 255 level
            + clamp 0 255 level) by lia.
    destruct (color_bytes _ _ _ Hlev Hlev Hlev) as (B3 & B2 & B1 & B0).
    repeat split; assumption.
Qed.

(** X20: [quit] is final. Once [init] has run for the display backlight,
    the keypad backlight or the frame buffer, [quit] closes the device
    if it is open (one call of [close]) and clears the pointer; from
    then on [init], [set_brightness] and [set_power] return false and
    [quit] returns, all without a call into the HAL and without a
    change of state: the device is never opened again. *)
Theorem hal_quit_is_final (env : Hal.hal_env) (st : Hal.hal_state)
  (level : Z) (power : bool) :
  (Hal.backlight_init_done st = true ->
   exists st1,
     Hal.mce_hybris_backlight_quit st = Run.Ok tt st1 /\
     Hal.dev_backlight st1 = None /\
     Hal.hal_calls st1 =
       Hal.hal_calls st ++
       (if Run.is_set (Hal.dev_backlight st)
        then [Hal.CALL_light_close Hal.LIGHT_ID_BACKLIGHT] else []) /\
     Hal.mce_hybris_backlight_init env st1 = Run.Ok false st1 /\
     Hal.mce_hybris_backlight_set_brightness env level st1 = Run.Ok false st1 /\
     Hal.mce_hybris_backlight_quit st1 = Run.Ok tt st1) /\
  (Hal.keypad_init_done st = true ->
   exists st1,
     Hal.mce_hybris_keypad_quit st = Run.Ok tt st1 /\
     Hal.dev_keypad st1 = None /\
     Hal.hal_calls st1 =
       Hal.hal_calls st ++
       (if Run.is_set (Hal.dev_keypad st)
        then [Hal.CALL_light_close Hal.LIGHT_ID_KEYBOARD] else []) /\
     Hal.mce_hybris_keypad_init env st1 = Run.Ok false st1 /\
     Hal.mce_hybris_keypad_set_brightness env level st1 = Run.Ok false st1 /\
     Hal.mce_hybris_keypad_quit st1 = Run.Ok tt st1) /\
  (Hal.framebuffer_init_done st = true ->
   exists st1,
     Hal.mce_hybris_framebuffer_quit st = Run.Ok tt st1 /\
     Hal.dev_fb st1 = None /\
     Hal.hal_calls st1 =
       Hal.hal_calls st ++
       (if Run.is_set (Hal.dev_fb st) then [Hal.CALL_fb_close] else []) /\
     Hal.mce_hybris_framebuffer_init env st1 = Run.Ok false st1 /\
     Hal.mce_hybris_framebuffer_set_power env power st1 = Run.Ok false st1 /\
     Hal.mce_hybris_framebuffer_quit st1 = Run.Ok tt st1).
Proof.
  destruct st as [a b c d e f g h i j k l m n o].
  split; [|split]; intros Hdone; cbn in Hdone; subst.
  - destruct h; eexists; (split; [hal_unfold; reflexivity|]);
      hal_unfold; rewrite ?app_nil_r; repeat split.
  - destruct j; eexists; (split; [hal_unfold; reflexivity|]);
      hal_unfold; rewrite ?app_nil_r; repeat split.
  - destruct d; eexists; (split; [hal_unfold; reflexivity|]);
      hal_unfold; rewrite ?app_nil_r; repeat split.
Qed.

Lemma pattern_period_eq (ms ms_other : Z) :
  pattern_period ms ms_other =
  if (clamp_to_range 0 60000 ms <? 50) || (clamp_to_range 0 60000 ms_other <? 50)
  then 0 else clamp_to_range 0 60000 ms.
Proof.
  unfold pattern_period. rewrite !clamp_to_range_spec by lia. reflexivity.
Qed.

(** X21: The light state of the indicator led. After a successful [init]
    without sysfs controls and with the device open,
    [mce_hybris_indicator_set_pattern] makes one call of [set_light]
    and returns whether it returned a value >= 0. The color passed has
    alpha 255 and the channels clamped to 0 ... 255 in its three color
    bytes. The periods are clamped to 0 ... 60000; when both are at
    least 50 the light flashes in hardware with these periods, else it
    does not flash and both periods are 0. *)
Theorem indicator_set_pattern_light_state (env : Hal.hal_env)
  (r g b ms_on ms_off : Z) (st : Hal.hal_state) :
  Hal.led_ctrl_uses_sysfs st = false ->
  Hal.indicator_init_done st = true ->
  Hal.indicator_init_ack st = true ->
  Hal.dev_indicator st <> None ->
  let on' := pattern_period ms_on ms_off in
  let off' := pattern_period ms_off ms_on in
  let lst := Hal.pattern_state (clamp 0 255 r) (clamp 0 255 g) (clamp 0 255 b)
               on' off' in
  Hal.mce_hybris_indicator_set_pattern env r g b ms_on ms_off st =
    Run.Ok (negb (Hal.env_set_light env (List.length (Hal.hal_calls st))
                    Hal.LIGHT_ID_NOTIFICATIONS lst <? 0))
      (Hal.set_hal_calls
         (Hal.hal_calls st ++ [Hal.CALL_set_light Hal.LIGHT_ID_NOTIFICATIONS lst])
         st) /\
  color_byte 3 (Hal.color lst) = 255 /\
  color_byte 2 (Hal.color lst) = clamp 0 255 r /\
  color_byte 1 (Hal.color lst) = clamp 0 255 g /\
  color_byte 0 (Hal.color lst) = clamp 0 255 b /\
  Hal.brightnessMode lst = Hal.BRIGHTNESS_MODE_USER /\
  (50 <= clamp 0 60000 ms_on /\ 50 <= clamp 0 60000 ms_off ->
   Hal.flashMode lst = Hal.LIGHT_FLASH_HARDWARE /\
   Hal.flashOnMS lst = clamp 0 60000 ms_on /\
   Hal.flashOffMS lst = clamp 0 60000 ms_off) /\
  (clamp 0 60000 ms_on < 50 \/ clamp 0 60000 ms_off < 50 ->
   Hal.flashMode lst = Hal.LIGHT_FLASH_NONE /\
   Hal.flashOnMS lst = 0 /\ Hal.flashOffMS lst = 0).
Proof.
  intros Hs Hd Ha Hdev. cbv zeta.
  assert (Hr : 0 <= clamp 0 255 r <= 255) by (unfold clamp; lia).
  assert (Hg : 0 <= clamp 0 255 g <= 255) by (unfold clamp; lia).
  assert (Hb : 0 <= clamp 0 255 b <= 255) by (unfold clamp; lia).
  split.
  - unfold Hal.mce_hybris_indicator_set_pattern.
    rewrite <- !pattern_period_eq. rewrite orb_comm, <- pattern_period_eq.
    rewrite !clamp_to_range_spec by lia.
    set (lst := Hal.pattern_state _ _ _ _ _).
    destruct st as [a0 b0 c d e f g0 h i j k l m n o].
    cbn in Hs, Hd, Ha, Hdev. subst. destruct m as [dev|]; [|congruence].
    hal_unfold. destruct (_ <? _); reflexivity.
  - unfold Hal.pattern_state.
    cbn [Hal.color Hal.flashMode Hal.flashOnMS Hal.flashOffMS Hal.brightnessMode].
    rewrite color_pack by assumption.
    destruct (color_bytes _ _ _ Hr Hg Hb) as (B3 & B2 & B1 & B0).
    split; [exact B3|]. split; [exact B2|]. split; [exact B1|].
    split; [exact B0|]. split; [reflexivity|].
    unfold pattern_period.
    assert (Hon : 0 <= clamp 0 60000 ms_on <= 60000) by (unfold clamp; lia).
    assert (Hoff : 0 <= clamp 0 60000 ms_off <= 60000) by (unfold clamp; lia).
    split.
    + intros (H1 & H2).
      destruct (Z.ltb_spec (clamp 0 60000 ms_on) 50); [lia|].
      destruct (Z.ltb_spec (clamp 0 60000 ms_off) 50); [lia|].
      cbn [orb].
      destruct (Z.ltb_spec 0 (clamp 0 60000 ms_on)); [|lia].
      destruct (Z.ltb_spec 0 (clamp 0 60000 ms_off)); [|lia].
      cbn [andb]. repeat split.
    + intros H.
      assert (E : (clamp 0 60000 ms_on <? 50) || (clamp 0 60000 ms_off <? 50) = true).
      { apply orb_true_iff. destruct H; [left|right]; apply Z.ltb_lt; assumption. }
      rewrite E, (orb_comm (clamp 0 60000 ms_off <? 50)), E.
      cbn. repeat split.
Qed.

Lemma indicator_inv_init : indicator_inv Hal.hal_state_init.
Proof.
  split; cbn; intros H; [repeat split|congruence].
Qed.

(** Hides the light state passed to [set_light]. *)
Ltac hal_abstract :=
  unfold Hal.hal_op_run, Hal.mce_hybris_indicator_set_pattern,
    Hal.mce_hybris_backlight_set_brightness,
    Hal.mce_hybris_keypad_set_brightness;
  cbv zeta;
  repeat match goal with
         | |- context [Hal.pattern_state ?a ?b ?c ?d ?e] =>
             let l := fresh "lst" in
             set (l := Hal.pattern_state a b c d e); clearbody l
         | |- context [Hal.brightness_state ?x] =>
             let l := fresh "lst" in
             set (l := Hal.brightness_state x); clearbody l
         end.

Ltac hal_rc :=
  repeat match goal with
         | |- context [if ?x <? ?y then _ else _] => destruct (x <? y)
         end.

Lemma hal_op_run_indicator_inv (env : Hal.hal_env) (op : Hal.hal_op)
  (st : Hal.hal_state) :
  indicator_inv st -> indicator_inv (final_state (Hal.hal_op_run env op st)).
Proof.
  unfold indicator_inv.
  destruct st as [a b c d e f g h i j k l m n o].
  cbn [Hal.indicator_init_done Hal.indicator_init_ack Hal.dev_indicator
       Hal.led_ctrl_uses_sysfs].
  intros (H1 & H2).
  destruct op; hal_abstract; hal_run; hal_rc; hal_unfold;
    (split; intros G);
    try (destruct (H1 ltac:(congruence)) as (? & ? & ?));
    try (destruct (H2 ltac:(congruence)) as (? & ? & ?));
    subst; try congruence; repeat split; congruence.
Qed.

Lemma hal_ops_run_indicator_inv (env : Hal.hal_env) (ops : list Hal.hal_op)
  (st : Hal.hal_state) :
  indicator_inv st -> indicator_inv (final_state (Hal.hal_ops_run env ops st)).
Proof.
  revert st. induction ops as [|op ops IH]; intros st Hinv; [exact Hinv|].
  cbn [Hal.hal_ops_run]. unfold Run.bind.
  pose proof (hal_op_run_indicator_inv env op st Hinv) as H1.
  destruct (Hal.hal_op_run env op st) as [[] st1|st1]; cbn [final_state] in *.
  - apply IH, H1.
  - exact H1.
Qed.

(** X22: When [mce_hybris_indicator_set_pattern] calls through a null
    pointer. In a state reached by any sequence of calls the function
    calls [dev_indicator->set_light] with [dev_indicator] null exactly
    when sysfs controls are not in use and either [init] has not run
    yet and its probe finds sysfs controls (the first call of
    [set_pattern] then runs [init], which succeeds without opening the
    device), or [init] has succeeded and the device pointer is null
    (as [quit] leaves it). In all other states it returns. *)
Theorem indicator_set_pattern_null_dereference (env : Hal.hal_env)
  (ops : list Hal.hal_op) (r g b ms_on ms_off : Z) :
  let st := final_state (Hal.hal_ops_run env ops Hal.hal_state_init) in
  crashed (Hal.mce_hybris_indicator_set_pattern env r g b ms_on ms_off st) = true
  <->
  Hal.led_ctrl_uses_sysfs st = false /\
  ((Hal.indicator_init_done st = false /\ Hal.env_probe_sysfs_files env = true) \/
   (Hal.indicator_init_ack st = true /\ Hal.dev_indicator st = None)).
Proof.
  cbv zeta.
  pose proof (hal_ops_run_indicator_inv env ops _ indicator_inv_init) as Hinv.
  set (st := final_state _) in *. clearbody st.
  unfold indicator_inv in Hinv. unfold Hal.mce_hybris_indicator_set_pattern.
  set (lst := Hal.pattern_state _ _ _ _ _). clearbody lst.
  destruct st as [a0 b0 c d e f g0 h i j k l m n o].
  cbn [Hal.indicator_init_done Hal.indicator_init_ack Hal.dev_indicator
       Hal.led_ctrl_uses_sysfs] in *.
  destruct Hinv as (H1 & H2).
  hal_run; hal_rc; hal_unfold;
    (split; [intros G; try discriminate G|intros (G1 & [(G2 & G3)|(G2 & G3)])]);
    try (destruct (H1 ltac:(congruence)) as (? & ? & ?));
    try (destruct (H2 ltac:(congruence)) as (? & ? & ?));
    subst; try congruence;
    (split; [congruence|]);
    first [left; split; congruence|right; split; congruence].
Qed.

(** X23: [mce_hybris_indicator_set_pattern] after [mce_hybris_indicator_quit].
    In a state reached by any sequence of calls in which the indicator
    device is open, [quit] followed by [set_pattern] calls through the
    null device pointer: [init] still reports success. *)
Theorem indicator_set_pattern_after_quit (env : Hal.hal_env)
  (ops : list Hal.hal_op) (r g b ms_on ms_off : Z) :
  let st := final_state (Hal.hal_ops_run env ops Hal.hal_state_init) in
  Hal.dev_indicator st <> None ->
  crashed (Hal.hal_ops_run env
             [Hal.OP_indicator_quit;
              Hal.OP_indicator_set_pattern r g b ms_on ms_off] st) = true /\
  Hal.hal_calls
    (final_state (Hal.hal_ops_run env
                    [Hal.OP_indicator_quit;
                     Hal.OP_indicator_set_pattern r g b ms_on ms_off] st))
  = Hal.hal_calls st ++ [Hal.CALL_light_close Hal.LIGHT_ID_NOTIFICATIONS].
Proof.
  cbv zeta.
  pose proof (hal_ops_run_indicator_inv env ops _ indicator_inv_init) as Hinv.
  set (st := final_state _) in *. clearbody st.
  intros Hdev. destruct Hinv as (_ & H2). destruct (H2 Hdev) as (Hd & Ha & Hs).
  cbn [Hal.hal_ops_run Hal.hal_op_run].
  unfold Hal.mce_hybris_indicator_set_pattern.
  set (lst := Hal.pattern_state _ _ _ _ _). clearbody lst.
  destruct st as [a0 b0 c d e f g0 h i j k l m n o].
  cbn in Hdev, Hd, Ha, Hs. subst. destruct m as [dev|]; [|congruence].
  hal_unfold. split; reflexivity.
Qed.

Lemma phase_of_snoc (x : Hal.hw_object) (calls : list Hal.hal_call)
  (c : Hal.hal_call) :
  phase_of x (calls ++ [c]) = phase_step x (phase_of x calls) c.
Proof.
  unfold phase_of. rewrite fold_left_app. reflexivity.
Qed.

Lemma protocol_inv_init (x : Hal.hw_object) : protocol_inv x Hal.hal_state_init.
Proof.
  unfold protocol_inv. cbn. destruct x as [| | |[]]; cbn; tauto.
Qed.

Ltac phase_solve :=
  repeat match goal with
         | H : ?A -> phase_of _ _ = _ |- _ =>
             let E := fresh "E" in
             first [assert (E := H ltac:(congruence)); clear H|clear H]
         end;
  try congruence;
  repeat match goal with
         | E : phase_of _ _ = _ |- _ => rewrite E in *; clear E
         end;
  cbn [phase_step role_of light_id_eqb];
  try tauto; try congruence.

Lemma hal_op_run_protocol_inv (env : Hal.hal_env) (op : Hal.hal_op)
  (x : Hal.hw_object) (st : Hal.hal_state) :
  protocol_inv x st ->
  protocol_inv x (final_state (Hal.hal_op_run env op st)).
Proof.
  intros (X1 & X2 & X3). unfold protocol_inv.
  destruct st as [a b c d e f g h i j k l m n o].
  destruct x as [| | |[]];
    cbn [object_done object_pointer Hal.modfb_load_done Hal.mod_fb
         Hal.framebuffer_init_done Hal.dev_fb Hal.modlights_load_done
         Hal.mod_lights Hal.backlight_init_done Hal.dev_backlight
         Hal.keypad_init_done Hal.dev_keypad Hal.indicator_init_done
         Hal.indicator_init_ack Hal.dev_indicator Hal.led_ctrl_uses_sysfs
         Hal.hal_calls] in *;
    destruct op; hal_abstract; hal_run; hal_rc; hal_unfold;
    cbn [object_done object_pointer Hal.modfb_load_done Hal.mod_fb
         Hal.framebuffer_init_done Hal.dev_fb Hal.modlights_load_done
         Hal.mod_lights Hal.backlight_init_done Hal.dev_backlight
         Hal.keypad_init_done Hal.dev_keypad Hal.indicator_init_done
         Hal.indicator_init_ack Hal.dev_indicator Hal.led_ctrl_uses_sysfs
         Hal.hal_calls];
    rewrite ?phase_of_snoc; subst;
    (split; [intros G|split; [intros G|]]); phase_solve.
Qed.

Lemma hal_ops_run_protocol_inv (env : Hal.hal_env) (ops : list Hal.hal_op)
  (x : Hal.hw_object) (st : Hal.hal_state) :
  protocol_inv x st ->
  protocol_inv x (final_state (Hal.hal_ops_run env ops st)).
Proof.
  revert st. induction ops as [|op ops IH]; intros st Hinv; [exact Hinv|].
  cbn [Hal.hal_ops_run]. unfold Run.bind.
  pose proof (hal_op_run_protocol_inv env op x st Hinv) as H1.
  destruct (Hal.hal_op_run env op st) as [[] st1|st1]; cbn [final_state] in *.
  - apply IH, H1.
  - exact H1.
Qed.

(** X24: How the HAL objects are used. Over any sequence of calls of the
    frame buffer, backlight, keypad and indicator functions, in any
    order, each of the two modules is requested at most once and used
    to open a device only after that, and each device is opened at most
    once, gets [set_light] or [enableScreen] calls only between its
    open and its close, and is closed at most once. *)
Theorem hal_objects_protocol (env : Hal.hal_env) (ops : list Hal.hal_op)
  (x : Hal.hw_object) :
  conforms x
    (Hal.hal_calls (final_state (Hal.hal_ops_run env ops Hal.hal_state_init)))
  = true.
Proof.
  destruct (hal_ops_run_protocol_inv env ops x _ (protocol_inv_init x))
    as (_ & _ & H).
  unfold conforms. destruct H as [->|[->| ->]]; reflexivity.
Qed.

(* ================================================================== *)
(** ** Sensors *)

Lemma get_sensor_loop_spec (fuel : nat) (i : Z)
  (lut : list Sensors.sensor_t) (cnt ty : Z) :
  0 <= i -> cnt <= Z.of_nat (List.length lut) -> cnt - i <= Z.of_nat fuel ->
  match Sensors.get_sensor_loop fuel i lut cnt ty with
  | Some k =>
      i <= k < cnt /\
      (exists s, lut !! Z.to_nat k = Some s /\ Sensors.type s = ty) /\
      (forall j s, i <= j < k -> lut !! Z.to_nat j = Some s -> Sensors.type s <> ty)
  | None =>
      forall j s, i <= j < cnt -> lut !! Z.to_nat j = Some s -> Sensors.type s <> ty
  end.
Proof.
  revert i. induction fuel as [|fuel IH]; intros i Hi Hlen Hfuel;
    cbn [Sensors.get_sensor_loop].
  - intros j s Hj. lia.
  - destruct (Z.ltb_spec i cnt) as [Hlt|Hge]; [|intros j s Hj; lia].
    destruct (lut !! Z.to_nat i) as [s|] eqn:Es.
    + destruct (Z.eqb_spec (Sensors.type s) ty) as [Et|Et].
      * split; [lia|]. split; [exists s; auto|]. intros j s' Hj. lia.
      * specialize (IH (i + 1) ltac:(lia) Hlen ltac:(lia)).
        destruct (Sensors.get_sensor_loop fuel (i + 1) lut cnt ty) as [k|].
        -- destruct IH as (Hk & Hs & Hbefore). split; [lia|]. split; [exact Hs|].
           intros j s' Hj Ej. destruct (Z.eq_dec j i) as [->|Hne].
           ++ rewrite Es in Ej. injection Ej as <-. exact Et.
           ++ apply (Hbefore j s'); [lia|exact Ej].
        -- intros j s' Hj Ej. destruct (Z.eq_dec j i) as [->|Hne].
           ++ rewrite Es in Ej. injection Ej as <-. exact Et.
           ++ apply (IH j s'); [lia|exact Ej].
    + apply lookup_ge_None in Es. lia.
Qed.

(** X25: [mce_hybris_modsensors_get_sensor] finds the first sensor of a
    type. With a table of at least [sensor_cnt] entries, the result
    points to an entry below [sensor_cnt] that has the type asked for,
    and no entry before it has; it is null exactly when none of the
    first [sensor_cnt] entries has the type, in particular when
    [sensor_cnt] is zero or negative. *)
Theorem mce_hybris_modsensors_get_sensor_first
  (sensor_lut : list Sensors.sensor_t) (sensor_cnt ty : Z) :
  sensor_cnt <= Z.of_nat (List.length sensor_lut) ->
  match Sensors.mce_hybris_modsensors_get_sensor sensor_lut sensor_cnt ty with
  | Some k =>
      0 <= k < sensor_cnt /\
      (exists s, sensor_lut !! Z.to_nat k = Some s /\ Sensors.type s = ty) /\
      (forall j s, 0 <= j < k -> sensor_lut !! Z.to_nat j = Some s ->
                   Sensors.type s <> ty)
  | None =>
      forall j s, 0 <= j < sensor_cnt -> sensor_lut !! Z.to_nat j = Some s ->
                  Sensors.type s <> ty
  end.
Proof.
  intros Hlen. unfold Sensors.mce_hybris_modsensors_get_sensor.
  apply get_sensor_loop_spec; lia.
Qed.

(** Runs the monadic code of the sensors on a state given by its
    fields. *)
Ltac sens_unfold :=
  cbv [Sensors.sensors_ops_run Sensors.sensors_op_run
       Sensors.mce_hybris_als_set_hook Sensors.mce_hybris_als_set_active
       Sensors.mce_hybris_als_quit Sensors.mce_hybris_als_init
       Sensors.mce_hybris_ps_set_hook Sensors.mce_hybris_ps_set_active
       Sensors.mce_hybris_ps_quit Sensors.mce_hybris_ps_init
       Sensors.mce_hybris_modsensors_unload Sensors.mce_hybris_sensors_quit
       Sensors.mce_hybris_sensors_init Sensors.mce_sensors_close
       Sensors.mce_sensors_open Sensors.activate
       Sensors.mce_hybris_modsensors_load Sensors.get_sensor Sensors.call
       Run.bind Run.ret Run.get Run.put Run.deref Run.when Run.is_set
       Sensors.set_modsensors_load_done Sensors.set_mod_sensors
       Sensors.set_sensor_lut Sensors.set_sensor_cnt Sensors.set_ps_sensor
       Sensors.set_ps_hook Sensors.set_als_sensor Sensors.set_als_hook
       Sensors.set_sensors_init_done Sensors.set_dev_poll Sensors.set_poll_tid
       Sensors.set_sensors_calls
       Sensors.modsensors_load_done Sensors.mod_sensors Sensors.sensor_lut
       Sensors.sensor_cnt Sensors.ps_sensor Sensors.ps_hook Sensors.als_sensor
       Sensors.als_hook Sensors.sensors_init_done Sensors.dev_poll
       Sensors.poll_tid Sensors.sensors_calls
       negb final_state crashed fst snd] in *.

Ltac sens_fold :=
  repeat match goal with
         | |- context [match Sensors.mce_hybris_modsensors_get_sensor ?l ?c ?t
                       with Some i => ?l !! Z.to_nat i | None => None end] =>
             change (match Sensors.mce_hybris_modsensors_get_sensor l c t
                     with Some i => l !! Z.to_nat i | None => None end)
               with (sensor_found l c t)
         end.

Ltac sens_case :=
  match goal with
  | |- context [match sensor_found ?l ?c ?t with _ => _ end] =>
      destruct (sensor_found l c t) eqn:?
  | |- context [match ?p with Some _ => _ | None => _ end] =>
      lazymatch p with
      | context [match _ with _ => _ end] => fail
      | _ => destruct p eqn:?
      end
  | |- context [match (if ?b then _ else _) with _ => _ end] => destruct b eqn:?
  | |- context [if ?b then _ else _] =>
      lazymatch b with
      | context [match _ with _ => _ end] => fail
      | Z.ltb _ _ => fail
      | _ => destruct b eqn:?
      end
  end.

Ltac sens_run := sens_unfold; sens_fold; repeat (sens_case; sens_unfold; sens_fold).

Lemma sensors_op_run_safe (env : Sensors.sensors_env) (op : Sensors.sensors_op)
  (st : Sensors.sensors_state) :
  exists st', Sensors.sensors_op_run env op st = Run.Ok tt st'.
Proof.
  destruct st as [a b c d e f g h i j k l].
  destruct op; sens_run; hal_rc;
    first [congruence|eexists; reflexivity].
Qed.

(** X26: Null pointers in the sensor functions. Started in any state, a
    sequence of calls of the proximity and ambient light sensor
    functions and of [mce_hybris_modsensors_unload] never calls through
    a null module, device or sensor pointer. *)
Theorem sensors_calls_null_safe (env : Sensors.sensors_env)
  (ops : list Sensors.sensors_op) (st : Sensors.sensors_state) :
  crashed (Sensors.sensors_ops_run env ops st) = false.
Proof.
  revert st. induction ops as [|op ops IH]; intros st; [reflexivity|].
  cbn [Sensors.sensors_ops_run]. unfold Run.bind.
  destruct (sensors_op_run_safe env op st) as (st1 & ->). apply IH.
Qed.

(** X27: [mce_hybris_ps_set_active] and [mce_hybris_als_set_active]. In
    any state, each first runs its [init]; when that leaves the poll
    device open and the sensor found, it makes one [activate] call with
    the handle of that sensor and the state asked for, and returns
    whether the call answered 0 or more. Otherwise it returns false
    and makes no [activate] call. *)
Theorem sensors_set_active_spec (env : Sensors.sensors_env) (state : bool)
  (st : Sensors.sensors_state) :
  let activated st1 sensor :=
    match Sensors.dev_poll st1, sensor with
    | Some _, Some s =>
        Run.Ok (negb (Sensors.env_activate env
                        (List.length (Sensors.sensors_calls st1))
                        (Sensors.handle s) state <? 0))
          (Sensors.set_sensors_calls
             (Sensors.sensors_calls st1 ++
              [Sensors.CALL_activate (Sensors.handle s) state]) st1)
    | _, _ => Run.Ok false st1
    end in
  let ps := final_state (Sensors.mce_hybris_ps_init env st) in
  let als := final_state (Sensors.mce_hybris_als_init env st) in
  Sensors.mce_hybris_ps_init env st =
    Run.Ok (Run.is_set (Sensors.dev_poll ps) &&
            Run.is_set (Sensors.ps_sensor ps)) ps /\
  Sensors.mce_hybris_ps_set_active env state st =
    activated ps (Sensors.ps_sensor ps) /\
  Sensors.mce_hybris_als_init env st =
    Run.Ok (Run.is_set (Sensors.dev_poll als) &&
            Run.is_set (Sensors.als_sensor als)) als /\
  Sensors.mce_hybris_als_set_active env state st =
    activated als (Sensors.als_sensor als).
Proof.
  cbv zeta. destruct st as [a b c d e f g h i j k l].
  split; [|split; [|split]]; sens_run; hal_rc; reflexivity.
Qed.

Lemma sensors_quit_open (env : Sensors.sensors_env)
  (a : bool) (b : option Sensors.sensors_object) (c : list Sensors.sensor_t)
  (d : Z) (e : option Sensors.sensor_t) (f : option nat)
  (g : option Sensors.sensor_t) (h : option nat) (i : bool)
  (dev : Sensors.sensors_object) (k : Z) (l : list Sensors.sensors_call) :
  Sensors.mce_hybris_sensors_quit env
    (Sensors.mk_sensors_state a b c d e f g h i (Some dev) k l) =
  Run.Ok tt
    (Sensors.mk_sensors_state a b c d e f g h i None 0
       (l ++ thread_stop_calls env (List.length l) k ++
        deactivate_calls e ++ deactivate_calls g ++
        [Sensors.CALL_sensors_close])).
Proof.
  unfold thread_stop_calls, deactivate_calls.
  destruct e as [ps|], g as [als|], (Z.eqb_spec k 0) as [->|Ek];
    try (apply Z.eqb_neq in Ek);
    sens_unfold; rewrite ?Z.eqb_refl, ?Ek; sens_unfold;
    try destruct (Sensors.env_pthread_cancel env (List.length l) =? 0);
    sens_unfold; cbn [app]; rewrite <- ?app_assoc; reflexivity.
Qed.

(** X28: [mce_hybris_sensors_quit]. With the poll device open it cancels
    the worker thread if one was started, joins it if the cancel
    succeeded, deactivates the proximity and the light sensor if
    present, closes the device, and clears [dev_poll] and [poll_tid];
    with the device closed it does nothing. Once [init] has run,
    nothing reopens the device: [set_active] then returns false and a
    second [quit] does nothing, both without a call. *)
Theorem sensors_quit_spec (env : Sensors.sensors_env)
  (st : Sensors.sensors_state) :
  let st1 := final_state (Sensors.mce_hybris_sensors_quit env st) in
  Sensors.mce_hybris_sensors_quit env st = Run.Ok tt st1 /\
  Sensors.sensors_calls st1 =
    Sensors.sensors_calls st ++
    (if Run.is_set (Sensors.dev_poll st)
     then thread_stop_calls env (List.length (Sensors.sensors_calls st))
            (Sensors.poll_tid st) ++
          deactivate_calls (Sensors.ps_sensor st) ++
          deactivate_calls (Sensors.als_sensor st) ++
          [Sensors.CALL_sensors_close]
     else []) /\
  Sensors.dev_poll st1 = None /\
  Sensors.poll_tid st1 =
    (if Run.is_set (Sensors.dev_poll st) then 0 else Sensors.poll_tid st) /\
  (Sensors.sensors_init_done st = true ->
   (forall state,
      Sensors.mce_hybris_ps_set_active env state st1 = Run.Ok false st1 /\
      Sensors.mce_hybris_als_set_active env state st1 = Run.Ok false st1) /\
   Sensors.mce_hybris_sensors_quit env st1 = Run.Ok tt st1).
Proof.
  cbv zeta. destruct st as [a b c d e f g h i j k l].
  destruct j as [dev|].
  - rewrite sensors_quit_open. cbn [final_state].
    remember (l ++ thread_stop_calls env (List.length l) k ++ _)%list
      as calls eqn:Ecalls.
    cbn [Sensors.sensors_calls Sensors.dev_poll Sensors.poll_tid
         Sensors.sensors_init_done Run.is_set].
    split; [reflexivity|]. split; [exact Ecalls|]. split; [reflexivity|].
    split; [reflexivity|]. intros ->. sens_unfold. repeat split; reflexivity.
  - change (Sensors.mce_hybris_sensors_quit env
              (Sensors.mk_sensors_state a b c d e f g h i None k l))
      with (@Run.Ok Sensors.sensors_state unit tt
              (Sensors.mk_sensors_state a b c d e f g h i None k l)).
    cbn [final_state Sensors.sensors_calls Sensors.dev_poll Sensors.poll_tid
         Sensors.sensors_init_done Run.is_set].
    rewrite app_nil_r.
    split; [reflexivity|]. split; [reflexivity|]. split; [reflexivity|].
    split; [reflexivity|]. intros ->. sens_unfold. repeat split; reflexivity.
Qed.

Lemma calls_count_snoc (p : Sensors.sensors_call -> bool)
  (calls : list Sensors.sensors_call) (c : Sensors.sensors_call) :
  calls_count p (calls ++ [c]) =
    (calls_count p calls + (if p c then 1 else 0))%nat.
Proof.
  unfold calls_count. rewrite List.filter_app, List.length_app. cbn.
  destruct (p c); reflexivity.
Qed.

Lemma sensors_inv_init : sensors_inv Sensors.sensors_state_init.
Proof.
  unfold sensors_inv. cbn. repeat split; lia.
Qed.

Ltac sens_counts :=
  rewrite ?calls_count_snoc;
  cbn [is_get_module_sensors is_get_sensors_list is_sensors_open
       is_sensors_close is_start_thread is_pthread_cancel].

Lemma sensors_op_run_inv (env : Sensors.sensors_env) (op : Sensors.sensors_op)
  (st : Sensors.sensors_state) :
  sensors_inv st -> sensors_inv (final_state (Sensors.sensors_op_run env op st)).
Proof.
  destruct st as [a b c d e f g h i j k l].
  destruct a, i, b as [m|], j as [dev|];
    unfold sensors_inv at 1; cbv zeta; sens_unfold;
    intros (H1 & H2 & H3 & H4 & H5);
    repeat match goal with G : _ /\ _ |- _ => destruct G end;
    try congruence;
    destruct op; sens_run; hal_rc; sens_unfold;
    unfold sensors_inv; cbv zeta; sens_unfold; sens_counts;
    repeat split; try congruence; try lia.
Qed.

Lemma sensors_ops_run_inv (env : Sensors.sensors_env)
  (ops : list Sensors.sensors_op) (st : Sensors.sensors_state) :
  sensors_inv st -> sensors_inv (final_state (Sensors.sensors_ops_run env ops st)).
Proof.
  revert st. induction ops as [|op ops IH]; intros st Hinv; [exact Hinv|].
  cbn [Sensors.sensors_ops_run]. unfold Run.bind.
  pose proof (sensors_op_run_inv env op st Hinv) as H1.
  destruct (Sensors.sensors_op_run env op st) as [[] st1|st1];
    cbn [final_state] in *.
  - apply IH, H1.
  - exact H1.
Qed.

(** X29: What the sensor functions do once. In a state reached by any
    sequence of calls of the sensor functions, the sensors module has
    been asked for, the sensor list fetched, the poll device opened and
    closed, and the worker thread started and cancelled at most once
    each; while the device is open it has not been closed and the
    thread has been started and not cancelled. The proximity and the
    light sensor in use are the first entries of their type in the
    table fetched. *)
Theorem sensors_once (env : Sensors.sensors_env)
  (ops : list Sensors.sensors_op) :
  let st := final_state
              (Sensors.sensors_ops_run env ops Sensors.sensors_state_init) in
  let n p := calls_count p (Sensors.sensors_calls st) in
  (n is_get_module_sensors <= 1)%nat /\ (n is_get_sensors_list <= 1)%nat /\
  (n is_sensors_open <= 1)%nat /\ (n is_sensors_close <= 1)%nat /\
  (n is_start_thread <= 1)%nat /\ (n is_pthread_cancel <= 1)%nat /\
  (Sensors.dev_poll st <> None ->
   n is_sensors_open = 1%nat /\ n is_sensors_close = 0%nat /\
   n is_start_thread = 1%nat /\ n is_pthread_cancel = 0%nat) /\
  Sensors.ps_sensor st =
    sensor_found (Sensors.sensor_lut st) (Sensors.sensor_cnt st)
      Sensors.SENSOR_TYPE_PROXIMITY /\
  Sensors.als_sensor st =
    sensor_found (Sensors.sensor_lut st) (Sensors.sensor_cnt st)
      Sensors.SENSOR_TYPE_LIGHT.
Proof.
  cbv zeta.
  pose proof (sensors_ops_run_inv env ops _ sensors_inv_init) as Hinv.
  set (st := final_state _) in *. clearbody st.
  destruct st as [a b c d e f g h i j k l].
  unfold sensors_inv in Hinv. cbv zeta in Hinv. sens_unfold.
  destruct Hinv as (H1 & H2 & H3 & H4 & H5).
  destruct a, i, b as [m|], j as [dev|];
    repeat match goal with G : _ /\ _ |- _ => destruct G end;
    try congruence;
    repeat split; try congruence; try lia.
Qed.

(* ================================================================== *)
(** ** The statements about the libhybris side at concrete inputs *)

(** Witness of the null safety: brightness calls around a [quit]. *)
Lemma hal_calls_null_safe_witness :
  Forall (fun op => is_set_pattern op = false)
    [Hal.OP_backlight_set_brightness 300; Hal.OP_indicator_init; Hal.OP_quit;
     Hal.OP_keypad_set_brightness 3; Hal.OP_framebuffer_set_power true] /\
  crashed (Hal.hal_ops_run (hal_env_ok false)
             [Hal.OP_backlight_set_brightness 300; Hal.OP_indicator_init;
              Hal.OP_quit; Hal.OP_keypad_set_brightness 3;
              Hal.OP_framebuffer_set_power true] Hal.hal_state_init) = false.
Proof.
  assert (H : Forall (fun op => is_set_pattern op = false)
                [Hal.OP_backlight_set_brightness 300; Hal.OP_indicator_init;
                 Hal.OP_quit; Hal.OP_keypad_set_brightness 3;
                 Hal.OP_framebuffer_set_power true])
    by (repeat constructor).
  split; [exact H|].
  exact (hal_calls_null_safe (hal_env_ok false) _ Hal.hal_state_init H).
Defined.

(** Witness of the indicator light state: orange, 500 ms on, 2000 ms
    off, after [init] on a device without sysfs controls. *)
Lemma indicator_set_pattern_light_state_witness :
  let st := final_state (Hal.hal_ops_run (hal_env_ok false)
                           [Hal.OP_indicator_init] Hal.hal_state_init) in
  let lst := Hal.pattern_state (clamp 0 255 255) (clamp 0 255 128)
               (clamp 0 255 0) (pattern_period 500 2000)
               (pattern_period 2000 500) in
  (Hal.led_ctrl_uses_sysfs st = false /\
   Hal.indicator_init_done st = true /\
   Hal.indicator_init_ack st = true /\
   Hal.dev_indicator st <> None) /\
  color_byte 2 (Hal.color lst) = clamp 0 255 255.
Proof.
  intros st lst.
  assert (H1 : Hal.led_ctrl_uses_sysfs st = false) by reflexivity.
  assert (H2 : Hal.indicator_init_done st = true) by reflexivity.
  assert (H3 : Hal.indicator_init_ack st = true) by reflexivity.
  assert (H4 : Hal.dev_indicator st <> None) by (vm_compute; discriminate).
  split; [repeat split; assumption|].
  pose proof (indicator_set_pattern_light_state (hal_env_ok false)
                255 128 0 500 2000 st H1 H2 H3 H4) as H.
  cbv zeta in H. exact (proj1 (proj2 (proj2 H))).
Defined.

(** Witness of the call through the null pointer: [init], [quit],
    [set_pattern] on a device without sysfs controls. *)
Lemma indicator_set_pattern_after_quit_witness :
  let st := final_state (Hal.hal_ops_run (hal_env_ok false)
                           [Hal.OP_indicator_init] Hal.hal_state_init) in
  Hal.dev_indicator st <> None /\
  crashed (Hal.hal_ops_run (hal_env_ok false)
             [Hal.OP_indicator_quit;
              Hal.OP_indicator_set_pattern 255 0 0 0 0] st) = true.
Proof.
  intros st.
  assert (H : Hal.dev_indicator st <> None) by (vm_compute; discriminate).
  split; [exact H|].
  pose proof (indicator_set_pattern_after_quit (hal_env_ok false)
                [Hal.OP_indicator_init] 255 0 0 0 0) as G.
  cbv zeta in G. exact (proj1 (G H)).
Defined.

(** Witness of the sensor lookup: type 8 in a table of three. *)
Lemma mce_hybris_modsensors_get_sensor_first_witness :
  3 <= Z.of_nat (List.length sensor_lut_sample) /\
  match Sensors.mce_hybris_modsensors_get_sensor sensor_lut_sample 3 8 with
  | Some k =>
      0 <= k < 3 /\
      (exists s, sensor_lut_sample !! Z.to_nat k = Some s /\ Sensors.type s = 8) /\
      (forall j s, 0 <= j < k -> sensor_lut_sample !! Z.to_nat j = Some s ->
                   Sensors.type s <> 8)
  | None =>
      forall j s, 0 <= j < 3 -> sensor_lut_sample !! Z.to_nat j = Some s ->
                  Sensors.type s <> 8
  end.
Proof.
  assert (H : 3 <= Z.of_nat (List.length sensor_lut_sample)) by (cbn; lia).
  split; [exact H|].
  exact (mce_hybris_modsensors_get_sensor_first sensor_lut_sample 3 8 H).
Defined.

(** A session with the sensors: both sensors are enabled, the plugin
    is unloaded, and a later request is refused without a call. *)
Example sensors_session :
  Sensors.sensors_calls
    (final_state
       (Sensors.sensors_ops_run sensors_env_ok
          [Sensors.OP_ps_set_active true; Sensors.OP_als_set_active true;
           Sensors.OP_quit; Sensors.OP_ps_set_active true; Sensors.OP_quit]
          Sensors.sensors_state_init))
  = [Sensors.CALL_get_module_sensors; Sensors.CALL_get_sensors_list;
     Sensors.CALL_sensors_open; Sensors.CALL_activate 2 false;
     Sensors.CALL_activate 3 false; Sensors.CALL_start_thread;
     Sensors.CALL_activate 2 true; Sensors.CALL_activate 3 true;
     Sensors.CALL_pthread_cancel 7; Sensors.CALL_pthread_join 7;
     Sensors.CALL_activate 2 false; Sensors.CALL_activate 3 false;
     Sensors.CALL_sensors_close].
Proof. vm_compute. reflexivity. Qed.
